(* ===== verification/_CoqProject ===== *)
-Q . S2P
Prelude.v
PyStr.v
Clock.v
Tracking.v
Store.v
StoreMap.v
Service.v
System.v
Gui.v
GuiLines.v
GuiSession.v
