(* ===== verification/Prelude.v ===== *)
(** * A verification library for the delivery-service application

    The program (src/ServiceTracking111) is a Tk desktop application over
    a local SQLite file.  Its parts, leaves first:

    - the store, database.py: [initialize_db] creates the tables
      [packages], [couriers] and [reviews]; one function per statement
      inserts, looks up, updates, deletes or lists rows, opening a
      connection, committing and turning every exception into [False],
      [None] or [[]];
    - the service, package_service.py: [generate_tracking_number] draws
      "LL-DDDDDD" with [random.choices]; [send_package], [track_package],
      [update_status], [add_courier], [get_couriers], [remove_courier],
      [add_review] and [get_reviews] check their inputs with Python
      truthiness and call the store, returning [(success, payload)];
    - the presentation, gui.py: the handlers of [DeliveryServiceApp] read
      the form fields, call the service (the map tab calls
      [database.get_all_packages] directly) and render the results;
    - main.py: [main()] runs [initialize_db()] and the Tk main loop.

    ** Files

    - [Prelude] (this file): the notation scope [delivery_scope] ([text]
      for a Python [str] or [None], i.e. SQL TEXT or NULL), Python
      truthiness ([py_truthy]), SQLite's 64-bit bounds ([in_int64]), the
      [outcome] type of the service's tuples, decimal printing [zpad] and
      reading [digits_val] with their round trips, a stable [sort_by] for
      ORDER BY, the hint databases [delivery]/[delivery_rw] and the tactics
      [case_if], [simpl_append].
    - [PyStr]: the [str] operations gui.py applies to widget texts, on
      UTF-8 byte strings: [strip()] with Python's whitespace, [split()],
      [split(sep)[0]], [replace], [in], [len] and [[:n]] in code points,
      [*], [str(n)], [int(s)], and [urllib.parse.quote]; with
      [unquote_to_bytes] as the reference decoding.
    - [Clock]: the [created_at] text, [adapt_datetime] =
      [datetime.isoformat(" ")] as the sqlite3 module binds
      [datetime.now()], and Python's field-wise order of datetimes.
    - [Tracking]: [generate_tracking_number] over a [RandomSource] class
      (the interface the code needs from [random]: [floor(random()*n) < n]),
      the format [is_tracking_format], and the bijection
      [tracking_of_index]/[tracking_index] with [0 .. 26*26*10^6 - 1].
    - [Store]: the rows as records, a table as its rows in rowid order
      with its [sqlite_sequence] entry, every function of database.py as
      [db -> result * db] with SQLite's behaviour written out
      (AUTOINCREMENT and SQLITE_FULL at 2^63-1, NOT NULL and UNIQUE,
      [rowcount], [OverflowError] for an int outside 64 bits, ORDER BY);
      the invariant [db_wf].
    - [StoreMap]: the packages and couriers tables read as finite maps
      (stdpp [gmap]) by tracking number and by id, each with its
      AUTOINCREMENT counter ([abs], built on the generic [table_map]); the
      map operations the tables promise ([spec_create], [spec_update],
      [spec_get], [spec_add_courier], [spec_delete_courier]);
      [impl_run]/[spec_run] run a sequence of calls on each.
    - [Service]: every function of package_service.py over the store, the
      random state threaded explicitly.
    - [System]: the service API as a transition system: a [world] is the
      database file and the random state; [exec] runs one [call] (or a
      [Restart], which is [main()] again: same file, reseeded random
      module), [run] a sequence, [reachable] the states of all executions
      from a fresh install; [gui_call] marks the calls gui.py makes.
    - [Gui]: the window of [DeliveryServiceApp] as a record of widget
      texts, list boxes and their selection, status bar, dialogs shown and
      URLs opened; one function per callback of gui.py ([on_send_package],
      [on_track_package], [on_add_review], [on_refresh_reviews],
      [on_add_courier], [on_refresh_couriers], [on_delete_courier],
      [on_search_address], [on_refresh_packages],
      [on_show_selected_address]) of the window and the [world]; what
      [webbrowser.open] does ([browser]: opens, finds no browser and
      returns [False], or raises) is an argument of the click, and so is
      the answer to the [askyesno] question of [delete_courier], which is
      recorded among the dialogs; the lines of the three list boxes
      ([review_line] is [None] where ['.' in created_at] raises on a NULL
      created_at, and [review_lines] stops there, as the loop of
      [refresh_reviews] does); [app_init] ([__init__]), the user's inputs
      ([set_field], [choose_rating], [select_courier], [select_package]),
      [handle] (one callback of the main loop), [session] and [run_app]
      ([main()]).
    - [GuiLines]: the lines read back (courier id, tracking number), the
      addresses and dates shown, the send form (blank fields,
      send-then-track, success and failure), the map button and URL.
    - [GuiSession]: what holds along every session, and sample sessions.

    ** What the theorems show

    - Tracking (C1, C16, C17): every generated code matches
      [A-Z]{2}-[0-9]{6}; the generator draws from exactly 676,000,000
      codes, numbered injectively by [tracking_of_index] (the spec says
      about 52M); every code can be drawn.
    - Store (C5, C7, C9, C12-C15): each writing function preserves
      [db_wf] (unique tracking numbers, filled NOT NULL columns, increasing
      rowids bounded by [sqlite_sequence] <= 2^63-1); the behaviour of
      [create_package], [update_package_status], [delete_courier] and
      [create_courier] on every branch, errors included; [get_all_couriers]
      meets the contract of ORDER BY (a permutation, sorted).
    - StoreMap (C34): the store refines its finite maps: any sequence of
      package creations, status updates, lookups, courier creations and
      deletions on a well-formed database answers as insert-if-absent,
      alter-if-present, lookup, insert-under-the-next-id and delete, and
      the final tables abstract to the final maps and counters.
    - Service (C2-C4, C8): the guards of [send_package] and [add_review],
      send-then-track returns what was sent, a collision fails without
      writing and without retry.
    - System (C6, C10, C11): along every execution the invariant holds and
      stored codes, creation times and ratings are well formed; a courier id is never
      reissued; packages are never deleted and only their status changes.
    - Window (C18-C24, C26-C30, C32, C33, C35-C40): sessions refine sequences of service
      calls without [update_status], so every package stays "Отправлена";
      the courier and review list boxes always show the database; the
      courier id read back from a line is the courier's, and the delete
      button deletes the courier on the selected line; every stored courier
      can be removed (liveness); the package list shows only stored
      packages, and the map button searches the selected package's address
      - except that the line of any package with "недоступен" among the
      first 30 characters of a shown address is refused (C24, a defect);
      each address on a line is cut to 30 code points and followed by
      "..." (C38); a required field of the send form made only of
      whitespace is refused without a draw or a write (C27); the date
      shown is the stored time cut to the second;
      sending from the form and tracking the number shows what was typed;
      a send either stores the package and clears the form or keeps the
      form and the database as they were (C35); the map tab's list is
      stale after a send until "Обновить список" (C36); the track tab's
      labels come from the number and the database alone, never from an
      earlier search (C37); each courier line reads back as a distinct id
      (C39); a review is either stored, with the form reset and the list
      refilled, then the success dialog - absent when [refresh_reviews]
      raises on a NULL created_at - or the database and the review tab
      stay as they were (C40);
      the search URL decodes back to the address; an exception from the
      browser only shows an error, and when no browser is found the window
      still reports the address as opened (C33); the rating combobox
      always holds 1..5, so the service's rating errors never fire.
    - Clock (C25, C31): the stored timestamp texts sort in chronological
      order, so the review list never shows a review after a newer one.

    Witnesses run the definitions on databases and windows built by the
    program's own functions ([Store.sample_db], [System.sample_world],
    [GuiSession.run_app] on sample event lists).

    ** Bounds, fuel and assumptions

    The store, service and handlers are structural (tables are finite
    lists; each callback makes a bounded number of calls).  The string
    loops take fuel: [strip] and [replace] the length of the string (each
    step consumes at least one byte; [PyStr.py_strip_done]), [split()] one more, [str(n)]
    the bit length of [n], which bounds its number of decimal digits.
    Rowids are [Z] bounded by [INT64_MAX] as in SQLite.  Python [str] is a
    Rocq [string], a sequence of bytes: the UTF-8 text the sqlite3 module
    stores, compared byte-wise as SQLite's BINARY collation does;
    [len] and slicing count code points.  The random module is only
    assumed to return an index below the population size.  Ties in ORDER
    BY keep rowid order, one of the orders SQLite may return.  A Python
    exception inside a callback ends it with the window as it was at the
    raise.

    ** Not modelled

    Connections, commits and I/O errors other than the constraint and
    binding errors above (the [except Exception] branches only print);
    the widget layout, styles, fonts and menus ([setup_styles],
    [create_main_menu]; "Выход" ends the process); the browser process
    itself (which of the three outcomes of [webbrowser.open] happens is
    the desktop's, an input of the click); the import fallback of
    [refresh_packages_list], unreachable since database.py defines
    [get_all_packages]; two program instances sharing one database file;
    Tk's [exportselection], by which selecting text in an entry or a line
    of the review list also clears the selection of the courier and
    package lists (the model clears only between those two lists, so it
    has fewer behaviours, not others).  A database file with a review
    whose created_at is NULL makes [__init__] raise before the window
    exists; [launch] still builds the window up to that point (no theorem
    about a fresh install meets such a file).
    The clock is an input: each call that stores a time takes the
    [datetime] it reads. *)

From Stdlib Require Export Ascii ZArith Lia Sorting.Permutation Sorting.Sorted.
From stdpp Require Export base list strings decidable.

Open Scope string_scope.

(** ** Notation scope of the development *)

Declare Scope delivery_scope.
Delimit Scope delivery_scope with delivery.

(** A Python value that is either a [str] or [None]; in a table cell [None]
    is SQL [NULL]. *)
Abbreviation text := (option string).
Notation "'NULL'" := (@None string) : delivery_scope.
Open Scope delivery_scope.

(** ** Python truthiness, as used by the guards [if not x: ...] *)

(** [not s] for a [str] or [None]: [None] and the empty string are falsy. *)
Definition py_truthy (v : text) : bool :=
  match v with
  | Some s => negb (String.eqb s "")
  | None => false
  end.

(** [not n] for an [int]: only [0] is falsy. *)
Definition py_truthy_int (n : Z) : bool := negb (Z.eqb n 0).

(** ** SQLite's 64-bit signed integers *)

Definition INT64_MAX : Z := 9223372036854775807.
Definition INT64_MIN : Z := -9223372036854775808.

(** A Python [int] that the sqlite3 module can bind as an SQLite INTEGER;
    a larger one raises [OverflowError]. *)
Definition in_int64 (z : Z) : bool := ((INT64_MIN <=? z) && (z <=? INT64_MAX))%Z.

(** ** The [(success, payload)] pairs returned by the service layer

    [Ok a] is the Python tuple [(True, a)], [Err msg] is [(False, msg)]. *)

Inductive outcome (A : Type) : Type :=
| Ok (a : A)
| Err (msg : string).
Arguments Ok {A} a.
Arguments Err {A} msg.

(** The first component of the tuple. *)
Definition success {A} (o : outcome A) : bool :=
  match o with Ok _ => true | Err _ => false end.

(** ** Decimal digits *)

Definition digit_char (d : Z) : ascii := ascii_of_nat (48 + Z.to_nat d).

(** The last [w] decimal digits of [n], most significant first, zero-padded
    on the left: Python's [f"{n:0wd}"] for [0 <= n < 10^w]. *)
Fixpoint zpad (w : nat) (n : Z) : string :=
  match w with
  | O => ""
  | S w' => String (digit_char ((n / 10 ^ Z.of_nat w') mod 10)) (zpad w' n)
  end.

(** Character classes of Python's [str.isupper]/[str.isdigit] restricted
    to ASCII, and the value of a decimal digit. *)
Definition is_digit (c : ascii) : bool :=
  (48 <=? nat_of_ascii c)%nat && (nat_of_ascii c <=? 57)%nat.

Definition is_upper (c : ascii) : bool :=
  (65 <=? nat_of_ascii c)%nat && (nat_of_ascii c <=? 90)%nat.

Definition digit_val (c : ascii) : Z := (Z.of_nat (nat_of_ascii c) - 48)%Z.

Fixpoint all_chars (p : ascii -> bool) (s : string) : bool :=
  match s with
  | EmptyString => true
  | String c s' => p c && all_chars p s'
  end.

(** Left-to-right decimal accumulation, as [int()] does on a digit string. *)
Fixpoint digits_val (acc : Z) (s : string) : Z :=
  match s with
  | EmptyString => acc
  | String c s' => digits_val (acc * 10 + digit_val c)%Z s'
  end.

(** ** Automation *)

Create HintDb delivery.
Create Rewrite HintDb delivery_rw.

Ltac case_if :=
  match goal with
  | |- context [if ?b then _ else _] => let E := fresh "E" in destruct b eqn:E
  end.

(** ** Generic lemmas *)

Lemma py_truthy_false_iff (v : text) :
  py_truthy v = false <-> v = NULL \/ v = Some "".
Proof.
  destruct v as [s|]; simpl; [|tauto].
  destruct (String.eqb_spec s ""); subst; simpl; intuition congruence.
Qed.

Lemma py_truthy_true_iff (v : text) :
  py_truthy v = true <-> exists s, v = Some s /\ s <> "".
Proof.
  destruct v as [s|]; simpl; [|split; [discriminate|intros (? & ? & _); discriminate]].
  destruct (String.eqb_spec s ""); subst; simpl.
  - split; [discriminate|]. intros (s' & [= <-] & ?). congruence.
  - split; [eauto|auto].
Qed.

Lemma in_int64_spec (z : Z) : in_int64 z = true <-> (INT64_MIN <= z <= INT64_MAX)%Z.
Proof. unfold in_int64. rewrite andb_true_iff, !Z.leb_le. tauto. Qed.

(** stdpp makes [String.append] opaque to [simpl]; these are its two
    defining equations. *)
Lemma append_nil_l (s : string) : "" +:+ s = s.
Proof. reflexivity. Qed.

Lemma append_cons (c : ascii) (s1 s2 : string) :
  String c s1 +:+ s2 = String c (s1 +:+ s2).
Proof. reflexivity. Qed.

Lemma length_append (s1 s2 : string) :
  String.length (s1 +:+ s2) = String.length s1 + String.length s2.
Proof. induction s1; rewrite ?append_nil_l, ?append_cons; simpl; lia. Qed.

Lemma zpad_length w n : String.length (zpad w n) = w.
Proof. induction w; simpl; lia. Qed.

#[export] Hint Rewrite length_append zpad_length : delivery_rw.
#[export] Hint Resolve in_int64_spec : delivery.

(** Push [String.append] through literal prefixes. *)
Ltac simpl_append := repeat first [rewrite append_cons | rewrite append_nil_l].

(** ** Decimal digits: printing and reading back *)

Section Decimal.
Local Open Scope Z_scope.

Lemma digit_val_char (d : Z) : 0 <= d < 10 -> digit_val (digit_char d) = d.
Proof.
  intros Hd. unfold digit_val, digit_char.
  rewrite nat_ascii_embedding by lia. lia.
Qed.

Lemma is_digit_char (d : Z) : 0 <= d < 10 -> is_digit (digit_char d) = true.
Proof.
  intros Hd. unfold is_digit, digit_char.
  rewrite nat_ascii_embedding by lia.
  apply andb_true_iff; split; apply Nat.leb_le; lia.
Qed.

Lemma is_digit_range (c : ascii) :
  is_digit c = true -> (48 <= nat_of_ascii c <= 57)%nat.
Proof. unfold is_digit. rewrite andb_true_iff, !Nat.leb_le. tauto. Qed.

Lemma digit_char_val (c : ascii) : is_digit c = true -> digit_char (digit_val c) = c.
Proof.
  intros Hc%is_digit_range. unfold digit_char, digit_val.
  replace (48 + Z.to_nat (Z.of_nat (nat_of_ascii c) - 48))%nat
    with (nat_of_ascii c) by lia.
  apply ascii_nat_embedding.
Qed.

Lemma digit_val_range (c : ascii) : is_digit c = true -> 0 <= digit_val c < 10.
Proof. intros Hc%is_digit_range. unfold digit_val. lia. Qed.

Lemma pow10_succ (w : nat) : 10 ^ Z.of_nat (S w) = 10 * 10 ^ Z.of_nat w.
Proof. rewrite Nat2Z.inj_succ, Z.pow_succ_r by lia. reflexivity. Qed.

Lemma pow10_pos (w : nat) : 0 < 10 ^ Z.of_nat w.
Proof. apply Z.pow_pos_nonneg; lia. Qed.

(** [n mod 10^(w+1)] splits into the digit of weight [10^w] and the rest. *)
Lemma mod_pow10_succ (n : Z) (w : nat) :
  n mod 10 ^ Z.of_nat (S w)
  = n mod 10 ^ Z.of_nat w + 10 ^ Z.of_nat w * ((n / 10 ^ Z.of_nat w) mod 10).
Proof.
  rewrite pow10_succ, Z.mul_comm. apply Z.rem_mul_r; [|lia].
  pose proof (pow10_pos w). lia.
Qed.

Lemma digits_val_zpad (w : nat) (n acc : Z) :
  digits_val acc (zpad w n) = acc * 10 ^ Z.of_nat w + n mod 10 ^ Z.of_nat w.
Proof.
  revert acc. induction w as [|w IH]; intros acc; simpl zpad; simpl digits_val.
  - rewrite Z.mod_1_r. simpl. lia.
  - rewrite IH, digit_val_char by (apply Z.mod_pos_bound; lia).
    rewrite mod_pow10_succ, pow10_succ. ring.
Qed.

Lemma digits_val_acc (s : string) (acc : Z) :
  digits_val acc s = acc * 10 ^ Z.of_nat (String.length s) + digits_val 0 s.
Proof.
  revert acc. induction s as [|c s IH]; intros acc; simpl digits_val.
  - simpl. lia.
  - rewrite (IH (acc * 10 + _)), (IH (0 * 10 + _)).
    simpl String.length. rewrite pow10_succ. ring.
Qed.

Lemma digits_val_bound (s : string) :
  all_chars is_digit s = true -> 0 <= digits_val 0 s < 10 ^ Z.of_nat (String.length s).
Proof.
  induction s as [|c s IH]; simpl all_chars; intros Hs.
  - simpl. lia.
  - apply andb_true_iff in Hs as [Hc Hs].
    simpl digits_val. rewrite digits_val_acc. simpl String.length.
    rewrite pow10_succ. pose proof (digit_val_range c Hc). specialize (IH Hs). nia.
Qed.

Lemma zpad_mod (w : nat) (n m : Z) :
  n mod 10 ^ Z.of_nat w = m mod 10 ^ Z.of_nat w -> zpad w n = zpad w m.
Proof.
  induction w as [|w IH]; intros Hnm; simpl; [reflexivity|].
  pose proof (pow10_pos w) as Hp.
  rewrite !mod_pow10_succ in Hnm.
  rewrite !(Z.add_comm (_ mod 10 ^ Z.of_nat w)) in Hnm.
  apply Z.div_mod_unique in Hnm as [Hhi Hlo];
    [|left; apply Z.mod_pos_bound; exact Hp..].
  rewrite (IH Hlo), Hhi. reflexivity.
Qed.

Lemma zpad_digits_val (s : string) :
  all_chars is_digit s = true -> zpad (String.length s) (digits_val 0 s) = s.
Proof.
  induction s as [|c s IH]; simpl all_chars; intros Hs; [reflexivity|].
  apply andb_true_iff in Hs as [Hc Hs].
  pose proof (digits_val_bound s Hs) as Hb. pose proof (digit_val_range c Hc).
  pose proof (pow10_pos (String.length s)) as Hp.
  simpl digits_val. rewrite digits_val_acc. simpl String.length. simpl zpad.
  replace ((0 * 10 + digit_val c) * 10 ^ Z.of_nat (String.length s) + digits_val 0 s)
    with (digit_val c * 10 ^ Z.of_nat (String.length s) + digits_val 0 s) by ring.
  rewrite Z.div_add_l, (Z.div_small (digits_val 0 s)), Z.add_0_r, Z.mod_small,
    digit_char_val by (assumption || lia).
  f_equal. transitivity (zpad (String.length s) (digits_val 0 s)); [apply zpad_mod|exact (IH Hs)].
  rewrite Z.add_comm, Z.mod_add by lia. reflexivity.
Qed.

Lemma zpad_all_digits (w : nat) (n : Z) : all_chars is_digit (zpad w n) = true.
Proof.
  induction w as [|w IH]; cbn [zpad all_chars]; [reflexivity|].
  rewrite is_digit_char, IH by (apply Z.mod_pos_bound; lia). reflexivity.
Qed.

End Decimal.

(** ** A stable sort for ORDER BY

    [sort_by leb] sorts by insertion, an element going before the first
    one it is [leb] to; elements that compare equal keep their order. *)

Section SortBy.
Context {A : Type} (leb : A -> A -> bool).

Fixpoint insert_by (x : A) (l : list A) : list A :=
  match l with
  | [] => [x]
  | y :: l' => if leb x y then x :: y :: l' else y :: insert_by x l'
  end.

Fixpoint sort_by (l : list A) : list A :=
  match l with
  | [] => []
  | x :: l' => insert_by x (sort_by l')
  end.

Lemma insert_by_perm (x : A) (l : list A) : Permutation (x :: l) (insert_by x l).
Proof.
  induction l as [|y l IH]; simpl; [reflexivity|].
  destruct (leb x y); [reflexivity|].
  etransitivity; [apply perm_swap|]. apply perm_skip, IH.
Qed.

Lemma sort_by_perm (l : list A) : Permutation l (sort_by l).
Proof.
  induction l as [|x l IH]; simpl; [reflexivity|].
  etransitivity; [apply perm_skip, IH|apply insert_by_perm].
Qed.

Hypothesis leb_total : forall a b, leb a b = true \/ leb b a = true.

Lemma insert_by_head (z x : A) (l : list A) :
  leb z x = true -> HdRel (fun a b => leb a b = true) z l ->
  HdRel (fun a b => leb a b = true) z (insert_by x l).
Proof.
  intros Hzx Hz. destruct l as [|y l]; simpl; [constructor; exact Hzx|].
  inversion Hz; subst. destruct (leb x y); constructor; assumption.
Qed.

Lemma insert_by_sorted (x : A) (l : list A) :
  Sorted (fun a b => leb a b = true) l -> Sorted (fun a b => leb a b = true) (insert_by x l).
Proof.
  induction 1 as [|y l Hl IH Hy]; simpl; [repeat constructor|].
  destruct (leb x y) eqn:Hxy; [constructor; [constructor; assumption|constructor; exact Hxy]|].
  constructor; [exact IH|]. apply insert_by_head; [|exact Hy].
  destruct (leb_total x y) as [H|H]; [congruence|exact H].
Qed.

Lemma sort_by_sorted (l : list A) : Sorted (fun a b => leb a b = true) (sort_by l).
Proof. induction l as [|x l IH]; simpl; [constructor|apply insert_by_sorted, IH]. Qed.

End SortBy.
