(* ===== verification/PyStr.v ===== *)
(** * Python [str] operations used by gui.py, on UTF-8 byte strings

    A Python [str] is held as the bytes of its UTF-8 encoding (a Rocq
    [string]).  This file gives the operations the handlers of gui.py
    apply to the text of the widgets: [strip()] with Python's whitespace
    (str.isspace, including the multi-byte no-break and typographic
    spaces), [split(sep)[0]], [split()] on whitespace, [replace],
    [sub in s], [len] and [s[:n]] counting code points, [c * n],
    [str(n)] and [int(s)] for ASCII digits; with the facts the handlers'
    proofs use: a string made only of whitespace strips to nothing, and
    [s[:n]] keeps [min(n, len(s))] code points. *)

From S2P Require Import Prelude.

(** ** Whitespace *)

Definition byte_str (l : list nat) : string := fold_right (fun n s => String (ascii_of_nat n) s) "" l.

(** The characters with [str.isspace()], as UTF-8 byte sequences:
    \t \n \x0b \x0c \r \x1c-\x1f, space, U+0085, U+00A0, U+1680,
    U+2000-U+200A, U+2028, U+2029, U+202F, U+205F, U+3000. *)
Definition py_spaces : list string :=
  map (fun n => byte_str [n]) [9; 10; 11; 12; 13; 28; 29; 30; 31; 32]
  ++ map byte_str [[194; 133]; [194; 160]; [225; 154; 128]]
  ++ map (fun k => byte_str [226; 128; k]) [128; 129; 130; 131; 132; 133; 134; 135; 136; 137; 138]
  ++ map byte_str [[226; 128; 168]; [226; 128; 169]; [226; 128; 175]; [226; 129; 159];
                   [227; 128; 128]].

Definition drop (n : nat) (s : string) : string := String.substring n (String.length s - n) s.
Definition take (n : nat) (s : string) : string := String.substring 0 n s.

Definition is_suffix (t s : string) : bool :=
  (String.length t <=? String.length s)%nat
  && String.eqb (drop (String.length s - String.length t) s) t.

(** The byte length of the whitespace character that [s] starts (ends)
    with, if any. *)
Definition space_prefix (s : string) : option nat :=
  option_map String.length (List.find (fun t => String.prefix t s) py_spaces).
Definition space_suffix (s : string) : option nat :=
  option_map String.length (List.find (fun t => is_suffix t s) py_spaces).

Fixpoint lstrip_fuel (fuel : nat) (s : string) : string :=
  match fuel with
  | O => s
  | S f => match space_prefix s with Some k => lstrip_fuel f (drop k s) | None => s end
  end.

Fixpoint rstrip_fuel (fuel : nat) (s : string) : string :=
  match fuel with
  | O => s
  | S f => match space_suffix s with
           | Some k => rstrip_fuel f (take (String.length s - k) s)
           | None => s
           end
  end.

(** [s.strip()]; every whitespace character is at least one byte, so the
    length of [s] is enough fuel (see [py_strip_done]). *)
Definition py_lstrip (s : string) : string := lstrip_fuel (String.length s) s.
Definition py_rstrip (s : string) : string := rstrip_fuel (String.length s) s.
Definition py_strip (s : string) : string := py_rstrip (py_lstrip s).

(** ** Searching *)

(** [sub in s] *)
Fixpoint py_contains (sub s : string) : bool :=
  String.prefix sub s
  || match s with EmptyString => false | String _ s' => py_contains sub s' end.

(** [s.split(sep)[0]] for a non-empty separator: the text before the
    first occurrence of [sep]. *)
Fixpoint split_head (sep s : string) : string :=
  if String.prefix sep s then ""
  else match s with
       | EmptyString => ""
       | String c s' => String c (split_head sep s')
       end.

(** [s.replace(old, new)] for a non-empty [old]: every occurrence, left
    to right, without overlaps. *)
Fixpoint replace_fuel (fuel : nat) (old new s : string) : string :=
  match fuel with
  | O => s
  | S f =>
      if String.prefix old s && negb (String.eqb old "")
      then new +:+ replace_fuel f old new (drop (String.length old) s)
      else match s with
           | EmptyString => ""
           | String c s' => String c (replace_fuel f old new s')
           end
  end.
Definition py_replace (old new s : string) : string := replace_fuel (String.length s) old new s.

(** ** Code points *)

(** A UTF-8 continuation byte (10xxxxxx) does not start a code point. *)
Definition is_cont (c : ascii) : bool :=
  (128 <=? nat_of_ascii c)%nat && (nat_of_ascii c <=? 191)%nat.

(** [len(s)]: the number of code points. *)
Fixpoint py_len (s : string) : nat :=
  match s with
  | EmptyString => 0
  | String c s' => (if is_cont c then 0 else 1) + py_len s'
  end.

(** [s[:n]]: the bytes of the first [n] code points. *)
Fixpoint py_prefix (n : nat) (s : string) : string :=
  match s with
  | EmptyString => ""
  | String c s' =>
      if is_cont c then String c (py_prefix n s')
      else match n with O => "" | S n' => String c (py_prefix n' s') end
  end.

(** [s * n] *)
Fixpoint repeat_str (n : nat) (s : string) : string :=
  match n with O => "" | S n' => s +:+ repeat_str n' s end.
Definition py_repeat (s : string) (n : Z) : string := repeat_str (Z.to_nat n) s.

(** ** Integers *)

(** Decimal digits of [n >= 0], most significant first. *)
Fixpoint dec_digits (fuel : nat) (n : Z) (acc : string) : string :=
  match fuel with
  | O => acc
  | S f =>
      let acc' := String (digit_char (n mod 10)) acc in
      if (n <? 10)%Z then acc' else dec_digits f (n / 10) acc'
  end.

Definition dec_fuel (n : Z) : nat := S (Pos.size_nat (Z.to_pos n)).

(** [str(n)] *)
Definition py_str_int (n : Z) : string :=
  if (n <? 0)%Z then "-" +:+ dec_digits (dec_fuel (- n)) (- n) ""
  else dec_digits (dec_fuel n) n "".

(** The digits of [int()]: ASCII digits, a single [_] allowed between two
    digits. *)
Fixpoint digits_us_ok (prev_digit : bool) (s : string) : bool :=
  match s with
  | EmptyString => prev_digit
  | String c s' =>
      if is_digit c then digits_us_ok true s'
      else if Ascii.eqb c "_" then prev_digit && digits_us_ok false s'
      else false
  end.

Fixpoint digits_us_val (acc : Z) (s : string) : Z :=
  match s with
  | EmptyString => acc
  | String c s' =>
      if Ascii.eqb c "_" then digits_us_val acc s'
      else digits_us_val (acc * 10 + digit_val c)%Z s'
  end.

(** [int(s)]: [None] where Python raises [ValueError]. *)
Definition py_int (s : string) : option Z :=
  let t := py_strip s in
  let '(sign, body) :=
    match t with
    | String c r => if Ascii.eqb c "-" then ((-1)%Z, r)
                    else if Ascii.eqb c "+" then (1%Z, r) else (1%Z, t)
    | EmptyString => (1%Z, t)
    end in
  if digits_us_ok false body then Some (sign * digits_us_val 0 body)%Z else None.

(** [s.split()]: the words between runs of whitespace. *)
Fixpoint split_ws_fuel (fuel : nat) (word s : string) : list string :=
  let flush := if String.eqb word "" then [] else [word] in
  match fuel with
  | O => flush
  | S f =>
      match s with
      | EmptyString => flush
      | String c s' =>
          match space_prefix s with
          | Some k => (flush ++ split_ws_fuel f "" (drop k s))%list
          | None => split_ws_fuel f (word +:+ String c "") s'
          end
      end
  end.
Definition py_split_ws (s : string) : list string := split_ws_fuel (S (String.length s)) "" s.

(** ** Formatting *)

Definition nl : string := String (ascii_of_nat 10) "".

(** [f"{v}"] for a value read from a row: [None] prints as "None". *)
Definition py_fmt (v : text) : string := match v with Some s => s | None => "None" end.

(** ** [urllib.parse.quote(s)] (safe="/")

    The UTF-8 bytes of [s]; letters, digits, [_.-~] and [/] are kept,
    every other byte becomes [%XX] with upper-case hex digits. *)
Definition quote_safe (c : ascii) : bool :=
  let n := nat_of_ascii c in
  (((65 <=? n) && (n <=? 90)) || ((97 <=? n) && (n <=? 122)) || ((48 <=? n) && (n <=? 57))
   || (n =? 95) || (n =? 46) || (n =? 45) || (n =? 126) || (n =? 47))%nat.

Definition hex_char (d : nat) : ascii := if (d <? 10)%nat then ascii_of_nat (48 + d)
                                         else ascii_of_nat (55 + d).

Fixpoint py_quote (s : string) : string :=
  match s with
  | EmptyString => ""
  | String c s' =>
      if quote_safe c then String c (py_quote s')
      else String "%" (String (hex_char (nat_of_ascii c / 16))
             (String (hex_char (nat_of_ascii c mod 16)) (py_quote s')))
  end.

(** [urllib.parse.unquote_to_bytes(s)], the decoding a browser and the
    map service apply to the query: [%XX] with two hex digits (either
    case) is the byte [XX], every other byte stands for itself.  gui.py
    does not call it; it is the reference [py_quote] is checked against. *)
Definition hex_val (c : ascii) : option nat :=
  let n := nat_of_ascii c in
  if ((48 <=? n) && (n <=? 57))%nat then Some (n - 48)%nat
  else if ((65 <=? n) && (n <=? 70))%nat then Some (n - 55)%nat
  else if ((97 <=? n) && (n <=? 102))%nat then Some (n - 87)%nat
  else None.

Fixpoint unquote_to_bytes (s : string) : string :=
  match s with
  | EmptyString => ""
  | String c s1 =>
      if Ascii.eqb c "%" then
        match s1 with
        | String h1 (String h2 rest) =>
            match hex_val h1, hex_val h2 with
            | Some a, Some b => String (ascii_of_nat (a * 16 + b)) (unquote_to_bytes rest)
            | _, _ => String c (unquote_to_bytes s1)
            end
        | _ => String c (unquote_to_bytes s1)
        end
      else String c (unquote_to_bytes s1)
  end.

(** ** Runs *)

Example py_strip_run :
  py_strip (byte_str [32; 9; 32] +:+ "Анна" +:+ byte_str [194; 160; 10]) = "Анна".
Proof. vm_compute. reflexivity. Qed.

Example py_int_run : py_int " -1_000 " = Some (-1000)%Z /\ py_int "1__0" = None.
Proof. vm_compute. split; reflexivity. Qed.

Example py_str_int_run : py_str_int 9223372036854775807 = "9223372036854775807".
Proof. vm_compute. reflexivity. Qed.

Example py_prefix_run : py_len "Привет" = 6 /\ py_prefix 3 "Привет" = "При".
Proof. vm_compute. split; reflexivity. Qed.

Example py_split_ws_run :
  py_split_ws ("Посылка AB-123456 | От: Москва..." +:+ nl) = ["Посылка"; "AB-123456"; "|"; "От:"; "Москва..."].
Proof. vm_compute. reflexivity. Qed.

Example py_quote_run : py_quote "Москва, ул. Тверская 1" =
  "%D0%9C%D0%BE%D1%81%D0%BA%D0%B2%D0%B0%2C%20%D1%83%D0%BB.%20%D0%A2%D0%B2%D0%B5%D1%80%D1%81%D0%BA%D0%B0%D1%8F%201".
Proof. vm_compute. reflexivity. Qed.

(** ** Properties *)

Lemma append_nil_r (s : string) : s +:+ "" = s.
Proof. induction s as [|c s IH]; [done|]. rewrite append_cons, IH. reflexivity. Qed.

Lemma prefix_app (t r : string) : String.prefix t (t +:+ r) = true.
Proof.
  induction t as [|c t IH]; [destruct r; reflexivity|].
  rewrite append_cons. cbn [String.prefix]. destruct (ascii_dec c c); [exact IH|congruence].
Qed.

Lemma prefix_head_ne (c0 c : ascii) (t s : string) :
  c0 <> c -> String.prefix (String c0 t) (String c s) = false.
Proof. intros Hne. cbn [String.prefix]. destruct (ascii_dec c0 c); congruence. Qed.

Lemma all_chars_app (p : ascii -> bool) (a b : string) :
  all_chars p (a +:+ b) = all_chars p a && all_chars p b.
Proof.
  induction a as [|c a IH]; [reflexivity|].
  rewrite append_cons. cbn [all_chars]. rewrite IH. apply andb_assoc.
Qed.

Lemma all_chars_impl (p q : ascii -> bool) (s : string) :
  (forall c, p c = true -> q c = true) -> all_chars p s = true -> all_chars q s = true.
Proof.
  intros Hpq. induction s as [|c s IH]; cbn [all_chars]; [done|].
  rewrite !andb_true_iff. intros [Hc Hs]. auto.
Qed.

Lemma all_chars_prefix (p : ascii -> bool) (t s : string) :
  String.prefix t s = true -> all_chars p s = true -> all_chars p t = true.
Proof.
  revert s. induction t as [|c t IH]; intros [|c' s]; cbn [String.prefix all_chars];
    try done.
  destruct (ascii_dec c c') as [<-|]; [|done].
  rewrite !andb_true_iff. intros Hp [Hc Hs]. eauto.
Qed.

Lemma all_chars_substring (p : ascii -> bool) (n m : nat) (s : string) :
  all_chars p s = true -> all_chars p (String.substring n m s) = true.
Proof.
  revert n m. induction s as [|c s IH]; intros [|n] [|m]; cbn [String.substring all_chars];
    rewrite ?andb_true_iff; try done; intros [Hc Hs]; cbn [all_chars];
    rewrite ?andb_true_iff; auto.
Qed.

Lemma all_chars_suffix (p : ascii -> bool) (t s : string) :
  is_suffix t s = true -> all_chars p s = true -> all_chars p t = true.
Proof.
  unfold is_suffix, drop. rewrite andb_true_iff, String.eqb_eq. intros [_ <-].
  apply all_chars_substring.
Qed.

Lemma find_none_forall {A} (P : A -> Prop) (f : A -> bool) (l : list A) :
  Forall P l -> (forall x, P x -> f x = false) -> List.find f l = None.
Proof. intros Hl Hf. induction Hl as [|x l Hx _ IH]; [done|]. cbn. rewrite Hf by done. exact IH. Qed.

(** [strip()] leaves a string alone when none of its bytes can be part of
    a whitespace character. *)
Section StripId.
Variable q : ascii -> bool.
Hypothesis q_no_space : Forall (fun t => all_chars q t = false) py_spaces.

Lemma space_prefix_none (s : string) : all_chars q s = true -> space_prefix s = None.
Proof.
  intros Hs. unfold space_prefix. rewrite (find_none_forall _ _ _ q_no_space); [done|].
  intros t Ht. destruct (String.prefix t s) eqn:Hp; [|done].
  rewrite (all_chars_prefix q t s Hp Hs) in Ht. discriminate.
Qed.

Lemma space_suffix_none (s : string) : all_chars q s = true -> space_suffix s = None.
Proof.
  intros Hs. unfold space_suffix. rewrite (find_none_forall _ _ _ q_no_space); [done|].
  intros t Ht. destruct (is_suffix t s) eqn:Hp; [|done].
  rewrite (all_chars_suffix q t s Hp Hs) in Ht. discriminate.
Qed.

Lemma py_strip_id (s : string) : all_chars q s = true -> py_strip s = s.
Proof.
  intros Hs. unfold py_strip, py_rstrip, py_lstrip.
  assert (Hl : lstrip_fuel (String.length s) s = s)
    by (destruct (String.length s); cbn [lstrip_fuel]; rewrite ?space_prefix_none; done).
  rewrite Hl. destruct (String.length s); cbn [rstrip_fuel]; rewrite ?space_suffix_none; done.
Qed.

End StripId.

(** The characters of [str(n)]. *)
Definition int_char (c : ascii) : bool := is_digit c || Ascii.eqb c "-".

Lemma spaces_not_int_chars : Forall (fun t => all_chars int_char t = false) py_spaces.
Proof. vm_compute. repeat constructor. Qed.

Lemma is_digit_not_special (c : ascii) :
  is_digit c = true ->
  Ascii.eqb c "_" = false /\ Ascii.eqb c "-" = false /\ Ascii.eqb c "+" = false.
Proof.
  intros Hc. repeat split;
    match goal with |- Ascii.eqb c ?k = false =>
      destruct (Ascii.eqb_spec c k) as [->|]; [discriminate Hc|reflexivity] end.
Qed.

Lemma int_char_not (k c : ascii) :
  int_char k = false -> int_char c = true -> Ascii.eqb c k = false.
Proof. intros Hk Hc. destruct (Ascii.eqb_spec c k) as [->|]; congruence. Qed.

Lemma digits_us_ok_digits (s : string) : all_chars is_digit s = true -> digits_us_ok true s = true.
Proof.
  induction s as [|c s IH]; cbn [all_chars digits_us_ok]; [done|].
  rewrite andb_true_iff. intros [-> Hs]. auto.
Qed.

Lemma digits_us_val_digits (acc : Z) (s : string) :
  all_chars is_digit s = true -> digits_us_val acc s = digits_val acc s.
Proof.
  revert acc. induction s as [|c s IH]; intros acc; cbn [all_chars digits_us_val digits_val];
    [done|].
  rewrite andb_true_iff. intros [Hc Hs].
  destruct (is_digit_not_special c Hc) as (-> & _). auto.
Qed.

(** [int(s)] of a non-empty string of decimal digits. *)
Lemma py_int_digits (s : string) :
  all_chars is_digit s = true -> s <> "" -> py_int s = Some (digits_val 0 s).
Proof.
  intros Hs Hne. unfold py_int.
  rewrite (py_strip_id int_char spaces_not_int_chars)
    by (apply (all_chars_impl is_digit); [unfold int_char; intros c ->|]; done).
  destruct s as [|c s]; [done|]. cbn [all_chars] in Hs. apply andb_true_iff in Hs as [Hc Hs].
  destruct (is_digit_not_special c Hc) as (_ & -> & ->).
  cbn [digits_us_ok]. rewrite Hc, digits_us_ok_digits by done.
  rewrite digits_us_val_digits by (cbn [all_chars]; rewrite Hc; done). f_equal. lia.
Qed.

Lemma pos_size_bound (p : positive) : (Zpos p < 2 ^ Z.of_nat (Pos.size_nat p))%Z.
Proof.
  induction p as [p IH|p IH|]; [| |reflexivity]; cbn [Pos.size_nat];
    rewrite Nat2Z.inj_succ, Z.pow_succ_r by lia.
  - rewrite Pos2Z.inj_xI. lia.
  - rewrite Pos2Z.inj_xO. lia.
Qed.

Lemma dec_fuel_bound (n : Z) : (0 <= n)%Z -> (n < 10 ^ Z.of_nat (dec_fuel n))%Z.
Proof.
  intros Hn. unfold dec_fuel. rewrite Nat2Z.inj_succ, Z.pow_succ_r by lia.
  destruct n as [|p|p]; [|cbn [Z.to_pos]|lia].
  - pose proof (Z.pow_pos_nonneg 10 (Z.of_nat (Pos.size_nat 1)) ltac:(lia) ltac:(lia)). lia.
  - pose proof (pos_size_bound p).
    pose proof (Z.pow_le_mono_l 2 10 (Z.of_nat (Pos.size_nat p)) ltac:(lia)). lia.
Qed.

Lemma dec_digits_nonempty (f : nat) (n : Z) (acc : string) : dec_digits (S f) n acc <> "".
Proof.
  revert n acc. induction f as [|f IH]; intros n acc; cbn [dec_digits];
    destruct (n <? 10)%Z; [discriminate|discriminate|discriminate|apply IH].
Qed.

Lemma dec_digits_spec (f : nat) (n : Z) (acc : string) :
  (0 <= n < 10 ^ Z.of_nat f)%Z ->
  all_chars is_digit (dec_digits f n acc) = all_chars is_digit acc
  /\ digits_val 0 (dec_digits f n acc)
     = (n * 10 ^ Z.of_nat (String.length acc) + digits_val 0 acc)%Z.
Proof.
  revert n acc. induction f as [|f IH]; intros n acc Hn; cbn [dec_digits].
  - cbn in Hn. assert (n = 0)%Z as -> by lia. split; [done|]. lia.
  - pose proof (Z.mod_pos_bound n 10 ltac:(lia)) as Hm.
    assert (Hacc' : all_chars is_digit (String (digit_char (n mod 10)) acc)
                    = all_chars is_digit acc
                    /\ digits_val 0 (String (digit_char (n mod 10)) acc)
                       = ((n mod 10) * 10 ^ Z.of_nat (String.length acc) + digits_val 0 acc)%Z).
    { cbn [all_chars digits_val]. rewrite is_digit_char, digits_val_acc, digit_val_char by lia.
      split; [done|]. lia. }
    destruct (Z.ltb_spec n 10).
    + destruct Hacc' as [Ha Hv]. split; [exact Ha|].
      rewrite Hv, (Z.mod_small n 10) by lia. reflexivity.
    + rewrite Nat2Z.inj_succ, Z.pow_succ_r in Hn by lia.
      destruct (IH (n / 10)%Z (String (digit_char (n mod 10)) acc)) as [Ha Hv].
      { split; [apply Z.div_pos; lia|]. apply Z.div_lt_upper_bound; lia. }
      rewrite Ha, Hv. destruct Hacc' as [-> ->]. split; [done|].
      cbn [String.length]. rewrite Nat2Z.inj_succ, Z.pow_succ_r by lia.
      rewrite (Z.div_mod n 10) at 3 by lia. ring.
Qed.

Lemma dec_digits_of (n : Z) :
  (0 <= n)%Z ->
  all_chars is_digit (dec_digits (dec_fuel n) n "") = true
  /\ dec_digits (dec_fuel n) n "" <> ""
  /\ digits_val 0 (dec_digits (dec_fuel n) n "") = n.
Proof.
  intros Hn. destruct (dec_digits_spec (dec_fuel n) n "") as [Ha Hv].
  { split; [exact Hn|apply dec_fuel_bound, Hn]. }
  split; [exact Ha|]. split; [apply dec_digits_nonempty|]. rewrite Hv. cbn. lia.
Qed.

(** [int(str(n)) == n] *)
Lemma py_int_str_int (n : Z) : py_int (py_str_int n) = Some n.
Proof.
  unfold py_str_int. destruct (Z.ltb_spec n 0) as [Hn|Hn].
  - destruct (dec_digits_of (- n) ltac:(lia)) as (Ha & Hne & Hv).
    remember (dec_digits (dec_fuel (- n)) (- n) "") as ds eqn:E. clear E.
    unfold py_int. rewrite (py_strip_id int_char spaces_not_int_chars).
    + rewrite append_cons, append_nil_l.
      destruct ds as [|c s]; [done|].
      cbn [all_chars] in Ha. apply andb_true_iff in Ha as [Hc Hs].
      cbn [Ascii.eqb Bool.eqb andb digits_us_ok]. rewrite Hc, digits_us_ok_digits by done.
      cbn [andb]. rewrite digits_us_val_digits by (cbn [all_chars]; rewrite Hc; done).
      rewrite Hv. f_equal. lia.
    + rewrite append_cons, append_nil_l. cbn [all_chars]. apply (all_chars_impl is_digit);
        [unfold int_char; intros c ->; done|exact Ha].
  - destruct (dec_digits_of n ltac:(lia)) as (Ha & Hne & Hv).
    rewrite py_int_digits, Hv by done. reflexivity.
Qed.

(** [split(sep)[0]] and [replace] pass over characters that cannot start
    the separator. *)
Definition not_char (k c : ascii) : bool := negb (Ascii.eqb c k).

Lemma split_head_cons (sep : string) (c : ascii) (s : string) :
  String.prefix sep (String c s) = false -> split_head sep (String c s) = String c (split_head sep s).
Proof. intros Hp. cbn [split_head]. rewrite Hp. reflexivity. Qed.

Lemma split_head_prefix (sep s : string) : String.prefix sep s = true -> split_head sep s = "".
Proof. intros Hp. destruct s; cbn [split_head]; rewrite Hp; reflexivity. Qed.

Lemma split_head_skip (c0 : ascii) (t a s : string) :
  all_chars (not_char c0) a = true ->
  split_head (String c0 t) (a +:+ s) = a +:+ split_head (String c0 t) s.
Proof.
  induction a as [|c a IH]; [done|]. cbn [all_chars]. unfold not_char at 1.
  rewrite andb_true_iff, negb_true_iff. intros [Hc Ha].
  rewrite append_cons, split_head_cons, IH by
    (done || (apply prefix_head_ne; intros ->; rewrite Ascii.eqb_refl in Hc; discriminate)).
  reflexivity.
Qed.

Lemma replace_fuel_skip (c0 : ascii) (t new : string) (f : nat) (s : string) :
  all_chars (not_char c0) s = true -> replace_fuel f (String c0 t) new s = s.
Proof.
  revert s. induction f as [|f IH]; intros [|c s]; cbn [all_chars replace_fuel]; try done.
  unfold not_char at 1. rewrite andb_true_iff, negb_true_iff. intros [Hc Hs].
  rewrite prefix_head_ne by (intros ->; rewrite Ascii.eqb_refl in Hc; discriminate).
  cbn [andb]. rewrite IH by done. reflexivity.
Qed.

Lemma substring_full (s : string) : String.substring 0 (String.length s) s = s.
Proof. induction s as [|c s IH]; [done|]. cbn. rewrite IH. reflexivity. Qed.

Lemma drop_app (a b : string) : drop (String.length a) (a +:+ b) = b.
Proof.
  unfold drop. rewrite length_append, Nat.add_sub_swap, Nat.sub_diag by lia. cbn [Nat.add].
  induction a as [|c a IH]; [apply substring_full|]. rewrite append_cons. exact IH.
Qed.

(** [s.replace(old, "")] of [old + rest], when [rest] holds no character
    that starts [old]. *)
Lemma py_replace_head (c0 : ascii) (t rest : string) :
  all_chars (not_char c0) rest = true ->
  py_replace (String c0 t) "" (String c0 t +:+ rest) = rest.
Proof.
  intros Hr. unfold py_replace. rewrite length_append. cbn [String.length Nat.add replace_fuel].
  rewrite prefix_app. cbn [andb negb String.eqb]. rewrite append_nil_l.
  pose proof (drop_app (String c0 t) rest) as Hd. cbn [String.length] in Hd. rewrite Hd.
  apply replace_fuel_skip, Hr.
Qed.

Lemma digits_int_chars (s : string) : all_chars is_digit s = true -> all_chars int_char s = true.
Proof. apply all_chars_impl. unfold int_char. intros c ->. reflexivity. Qed.

(** [str(n)] is a non-empty string of digits and minus signs. *)
Lemma py_str_int_chars (n : Z) : all_chars int_char (py_str_int n) = true /\ py_str_int n <> "".
Proof.
  unfold py_str_int. destruct (Z.ltb_spec n 0) as [Hn|Hn].
  - destruct (dec_digits_of (- n) ltac:(lia)) as (Ha & _ & _).
    rewrite append_cons, append_nil_l. split; [|discriminate].
    cbn [all_chars]. rewrite digits_int_chars by exact Ha. reflexivity.
  - destruct (dec_digits_of n Hn) as (Ha & Hne & _). split; [apply digits_int_chars, Ha|exact Hne].
Qed.

Lemma int_chars_not (k : ascii) (s : string) :
  int_char k = false -> all_chars int_char s = true -> all_chars (not_char k) s = true.
Proof.
  intros Hk. apply all_chars_impl. intros c Hc. unfold not_char.
  rewrite (int_char_not k c Hk Hc). reflexivity.
Qed.

(** ** [split()] over words *)

(** The first bytes of the UTF-8 encodings of Python's whitespace. *)
Definition space_lead (c : ascii) : bool :=
  let n := nat_of_ascii c in
  ((9 <=? n) && (n <=? 13) || (28 <=? n) && (n <=? 32) || (n =? 194)
   || (225 <=? n) && (n <=? 227))%nat.

Lemma spaces_lead : Forall (fun t => match t with String b _ => space_lead b = true
                                              | EmptyString => False end) py_spaces.
Proof. vm_compute. repeat constructor. Qed.

Lemma space_prefix_word (c : ascii) (s : string) :
  space_lead c = false -> space_prefix (String c s) = None.
Proof.
  intros Hc. unfold space_prefix. rewrite (find_none_forall _ _ _ spaces_lead); [done|].
  intros [|b t] Ht; [contradiction|]. cbn [String.prefix].
  destruct (ascii_dec b c) as [->|]; [congruence|reflexivity].
Qed.

Lemma append_assoc (a b c : string) : (a +:+ b) +:+ c = a +:+ (b +:+ c).
Proof. induction a as [|x a IH]; [done|]. rewrite !append_cons, IH. reflexivity. Qed.

Lemma split_ws_word (a : string) (f : nat) (w s : string) :
  all_chars (fun c => negb (space_lead c)) a = true -> (String.length a <= f)%nat ->
  split_ws_fuel f w (a +:+ s) = split_ws_fuel (f - String.length a) (w +:+ a) s.
Proof.
  revert f w. induction a as [|c a IH]; intros f w Ha Hf.
  - rewrite append_nil_l, append_nil_r, Nat.sub_0_r. reflexivity.
  - cbn [all_chars] in Ha. apply andb_true_iff in Ha as [Hc Ha]. apply negb_true_iff in Hc.
    cbn [String.length] in Hf. destruct f as [|f]; [lia|].
    rewrite append_cons. cbn [split_ws_fuel]. rewrite space_prefix_word by exact Hc.
    rewrite IH by (exact Ha || lia). rewrite append_assoc. reflexivity.
Qed.

Lemma split_ws_space (f : nat) (w s : string) :
  split_ws_fuel (S f) w (String " " s)
  = ((if String.eqb w "" then [] else [w]) ++ split_ws_fuel f "" s)%list.
Proof.
  cbn [split_ws_fuel]. replace (space_prefix (String " " s)) with (Some 1) by (destruct s; reflexivity).
  unfold drop. cbn [String.length String.substring]. rewrite Nat.sub_1_r, Nat.pred_succ, substring_full.
  reflexivity.
Qed.

Lemma split_ws_end (f : nat) (w : string) :
  split_ws_fuel f w "" = if String.eqb w "" then [] else [w].
Proof. destruct f; reflexivity. Qed.

Lemma space_lead_range (c : ascii) :
  (33 <= nat_of_ascii c <= 193)%nat -> space_lead c = false.
Proof.
  intros Hc. apply not_true_iff_false. unfold space_lead. intros Hs.
  rewrite !orb_true_iff, !andb_true_iff, !Nat.leb_le, !Nat.eqb_eq in Hs. lia.
Qed.

(** The second word of [a + " " + b + rest], where [rest] is empty or
    starts with a space. *)
Lemma split_ws_second (a b rest : string) :
  a <> "" -> b <> "" ->
  all_chars (fun c => negb (space_lead c)) a = true ->
  all_chars (fun c => negb (space_lead c)) b = true ->
  (rest = "" \/ exists r, rest = String " " r) ->
  nth_error (py_split_ws (a +:+ String " " (b +:+ rest))) 1 = Some b.
Proof.
  intros Ha Hb Hwa Hwb Hrest. unfold py_split_ws.
  rewrite split_ws_word by (exact Hwa || (rewrite length_append; lia)).
  rewrite append_nil_l, length_append. cbn [String.length].
  replace (S (String.length a + S (String.length (b +:+ rest))) - String.length a)
    with (S (S (String.length b + String.length rest))) by (rewrite length_append; lia).
  rewrite split_ws_space. destruct a as [|x a]; [contradiction|]. cbn [String.eqb app nth_error].
  rewrite split_ws_word by (exact Hwb || lia).
  replace (S (String.length b + String.length rest) - String.length b)
    with (S (String.length rest)) by lia.
  rewrite append_nil_l. destruct b as [|y b]; [contradiction|].
  destruct Hrest as [->|(r & ->)]; [rewrite split_ws_end|rewrite split_ws_space]; reflexivity.
Qed.

(** [sub in s] for a one-character [sub]. *)
Lemma py_contains_char_absent (k : ascii) (s : string) :
  all_chars (not_char k) s = true -> py_contains (String k "") s = false.
Proof.
  induction s as [|c s IH]; [reflexivity|]. cbn [all_chars]. unfold not_char at 1.
  rewrite andb_true_iff, negb_true_iff. intros [Hc Hs]. cbn [py_contains].
  rewrite prefix_head_ne, IH by (exact Hs || (intros ->; rewrite Ascii.eqb_refl in Hc; discriminate)).
  reflexivity.
Qed.

Lemma py_contains_char_at (k : ascii) (a b : string) :
  py_contains (String k "") (a +:+ String k b) = true.
Proof.
  induction a as [|c a IH].
  - rewrite append_nil_l. cbn [py_contains String.prefix].
    destruct (ascii_dec k k); [destruct b; reflexivity|congruence].
  - rewrite append_cons. cbn [py_contains]. rewrite IH, orb_true_r. reflexivity.
Qed.

Lemma split_head_char_at (k : ascii) (a b : string) :
  all_chars (not_char k) a = true -> split_head (String k "") (a +:+ String k b) = a.
Proof.
  intros Ha. rewrite split_head_skip by exact Ha.
  rewrite split_head_prefix by exact (prefix_app (String k "") b). apply append_nil_r.
Qed.

(** ** [strip()] runs to the end within its fuel *)

Lemma prefix_length (t s : string) :
  String.prefix t s = true -> (String.length t <= String.length s)%nat.
Proof.
  revert s. induction t as [|c t IH]; intros [|c' s]; cbn [String.prefix String.length];
    try (done || lia).
  destruct (ascii_dec c c'); [intros Hp; specialize (IH s Hp); lia|done].
Qed.

Lemma substring_length (n m : nat) (s : string) :
  (n + m <= String.length s)%nat -> String.length (String.substring n m s) = m.
Proof.
  revert n m. induction s as [|c s IH]; intros [|n] [|m] Hle; cbn in *; try lia.
  - f_equal. apply IH. lia.
  - apply IH. lia.
  - apply IH. lia.
Qed.

Lemma spaces_nonempty : Forall (fun t => (1 <= String.length t)%nat) py_spaces.
Proof. vm_compute. repeat constructor. Qed.

Lemma space_prefix_some (s : string) (k : nat) :
  space_prefix s = Some k ->
  (1 <= k <= String.length s)%nat /\ String.length (drop k s) = (String.length s - k)%nat.
Proof.
  unfold space_prefix. destruct (List.find _ _) as [t|] eqn:E; [|discriminate].
  intros [= <-]. apply find_some in E as [Ht Hp].
  pose proof (proj1 (Forall_forall _ _) spaces_nonempty t Ht) as H1. cbv beta in H1.
  pose proof (prefix_length t s Hp) as H2. split; [lia|].
  unfold drop. apply substring_length. lia.
Qed.

Lemma space_suffix_some (s : string) (k : nat) :
  space_suffix s = Some k ->
  (1 <= k <= String.length s)%nat
  /\ String.length (take (String.length s - k) s) = (String.length s - k)%nat.
Proof.
  unfold space_suffix. destruct (List.find _ _) as [t|] eqn:E; [|discriminate].
  intros [= <-]. apply find_some in E as [Ht Hp].
  pose proof (proj1 (Forall_forall _ _) spaces_nonempty t Ht) as H1. cbv beta in H1.
  unfold is_suffix in Hp. apply andb_true_iff in Hp as [Hle _]. apply Nat.leb_le in Hle.
  split; [lia|]. unfold take. apply substring_length. lia.
Qed.

Lemma space_prefix_empty : space_prefix "" = None.
Proof. reflexivity. Qed.

Lemma space_suffix_empty : space_suffix "" = None.
Proof. reflexivity. Qed.

Lemma lstrip_fuel_done (f : nat) (s : string) :
  (String.length s <= f)%nat -> space_prefix (lstrip_fuel f s) = None.
Proof.
  revert s. induction f as [|f IH]; intros s Hf; cbn [lstrip_fuel].
  - destruct s; [reflexivity|cbn in Hf; lia].
  - destruct (space_prefix s) as [k|] eqn:E; [|exact E].
    destruct (space_prefix_some s k E) as [Hk Hl]. apply IH. lia.
Qed.

Lemma rstrip_fuel_done (f : nat) (s : string) :
  (String.length s <= f)%nat -> space_suffix (rstrip_fuel f s) = None.
Proof.
  revert s. induction f as [|f IH]; intros s Hf; cbn [rstrip_fuel].
  - destruct s; [reflexivity|cbn in Hf; lia].
  - destruct (space_suffix s) as [k|] eqn:E; [|exact E].
    destruct (space_suffix_some s k E) as [Hk Hl]. apply IH. lia.
Qed.

Lemma prefix_refl (s : string) : String.prefix s s = true.
Proof. pose proof (prefix_app s "") as H. rewrite append_nil_r in H. exact H. Qed.

Lemma prefix_trans (a b c : string) :
  String.prefix a b = true -> String.prefix b c = true -> String.prefix a c = true.
Proof.
  revert b c. induction a as [|x a IH]; intros [|y b] [|z c]; cbn [String.prefix]; try done.
  destruct (ascii_dec x y) as [<-|]; [|done]. destruct (ascii_dec x z) as [<-|]; [|done].
  apply IH.
Qed.

Lemma prefix_take (n : nat) (s : string) : String.prefix (take n s) s = true.
Proof.
  unfold take. revert n. induction s as [|c s IH]; intros [|n]; cbn [String.substring String.prefix];
    try (destruct s; reflexivity) || reflexivity.
  destruct (ascii_dec c c); [apply IH|congruence].
Qed.

Lemma rstrip_fuel_prefix (f : nat) (s : string) : String.prefix (rstrip_fuel f s) s = true.
Proof.
  revert s. induction f as [|f IH]; intros s; cbn [rstrip_fuel]; [apply prefix_refl|].
  destruct (space_suffix s); [|apply prefix_refl].
  eapply prefix_trans; [apply IH|apply prefix_take].
Qed.

Lemma space_prefix_of_prefix (r s : string) :
  space_prefix s = None -> String.prefix r s = true -> space_prefix r = None.
Proof.
  unfold space_prefix. destruct (List.find (fun t => String.prefix t r) py_spaces) as [t|] eqn:E;
    [|reflexivity].
  apply find_some in E as [Ht Hp]. intros Hs Hr.
  destruct (List.find (fun t => String.prefix t s) py_spaces) eqn:E'; [discriminate|].
  apply (find_none _ _ E') in Ht. rewrite (prefix_trans t r s Hp Hr) in Ht. discriminate.
Qed.

(** [strip()] stops only when no whitespace is left at either end: the
    length of the string is enough fuel for both loops. *)
Lemma py_strip_done (s : string) :
  space_prefix (py_strip s) = None /\ space_suffix (py_strip s) = None.
Proof.
  unfold py_strip, py_rstrip, py_lstrip. split.
  - apply (space_prefix_of_prefix _ (lstrip_fuel (String.length s) s)).
    + apply lstrip_fuel_done. lia.
    + apply rstrip_fuel_prefix.
  - apply rstrip_fuel_done. lia.
Qed.

(** ** [quote] and its decoding *)

Lemma hex_char_val (d : nat) : d < 16 -> hex_val (hex_char d) = Some d.
Proof.
  intros Hd. unfold hex_char, hex_val.
  destruct (Nat.ltb_spec d 10);
    rewrite nat_ascii_embedding by lia;
    repeat match goal with |- context [(?a <=? ?b)%nat] => destruct (Nat.leb_spec a b) end;
    cbn [andb]; f_equal; lia.
Qed.

Lemma quote_safe_not_percent (c : ascii) : quote_safe c = true -> Ascii.eqb c "%" = false.
Proof. intros Hc. destruct (Ascii.eqb_spec c "%") as [->|]; [discriminate Hc|reflexivity]. Qed.

Lemma unquote_quote (s : string) : unquote_to_bytes (py_quote s) = s.
Proof.
  induction s as [|c s IH]; [reflexivity|]. cbn [py_quote].
  destruct (quote_safe c) eqn:Hc.
  - cbn [unquote_to_bytes]. rewrite quote_safe_not_percent, IH by exact Hc. reflexivity.
  - cbn [unquote_to_bytes Ascii.eqb]. pose proof (nat_ascii_bounded c) as Hb.
    rewrite !hex_char_val by (apply Nat.mod_upper_bound || apply Nat.Div0.div_lt_upper_bound; lia).
    rewrite IH. f_equal.
    rewrite Nat.mul_comm, <- Nat.div_mod_eq. apply ascii_nat_embedding.
Qed.

Definition url_char (c : ascii) : bool := quote_safe c || Ascii.eqb c "%".

Lemma hex_char_safe (d : nat) : d < 16 -> quote_safe (hex_char d) = true.
Proof.
  intros Hd. unfold quote_safe, hex_char.
  destruct (Nat.ltb_spec d 10); rewrite nat_ascii_embedding by lia;
    repeat match goal with |- context [(?a <=? ?b)%nat] => destruct (Nat.leb_spec a b) end;
    cbn [andb orb]; try reflexivity; lia.
Qed.

Lemma quote_url_chars (s : string) : all_chars url_char (py_quote s) = true.
Proof.
  induction s as [|c s IH]; [reflexivity|]. cbn [py_quote].
  destruct (quote_safe c) eqn:Hc; cbn [all_chars]; unfold url_char at 1.
  - rewrite Hc, IH. reflexivity.
  - pose proof (nat_ascii_bounded c) as Hb. unfold url_char at 1 2.
    rewrite !hex_char_safe, IH by (apply Nat.mod_upper_bound || apply Nat.Div0.div_lt_upper_bound; lia).
    reflexivity.
Qed.

(** ** Slicing by code points *)

Lemma prefix_cons (c : ascii) (t s : string) :
  String.prefix (String c t) (String c s) = String.prefix t s.
Proof. cbn [String.prefix]. destruct (ascii_dec c c); [reflexivity|congruence]. Qed.

(** [s[:n]] keeps [min(n, len(s))] code points, is a prefix of the bytes
    of [s], and is [s] itself when [s] has at most [n] code points. *)
Lemma py_prefix_len (n : nat) (s : string) :
  py_len (py_prefix n s) = Nat.min n (py_len s)
  /\ String.prefix (py_prefix n s) s = true
  /\ ((py_len s <= n)%nat -> py_prefix n s = s).
Proof.
  revert n. induction s as [|c s IH]; intros n; cbn [py_prefix py_len].
  { rewrite Nat.min_0_r. split; [reflexivity|split; reflexivity]. }
  destruct (is_cont c) eqn:Ec.
  - destruct (IH n) as (Hl & Hp & Hs). cbn [py_len]. rewrite Ec, prefix_cons, Hl.
    split; [reflexivity|split; [exact Hp|]]. intros Hle. rewrite Hs; [reflexivity|lia].
  - destruct n as [|n]; [split; [reflexivity|split; [reflexivity|lia]]|].
    destruct (IH n) as (Hl & Hp & Hs). cbn [py_len]. rewrite Ec, prefix_cons, Hl.
    split; [lia|split; [exact Hp|]]. intros Hle. rewrite Hs; [reflexivity|lia].
Qed.

(** [in] on a concatenation *)

Lemma py_contains_app_r (sub a s : string) :
  py_contains sub s = true -> py_contains sub (a +:+ s) = true.
Proof.
  intros Hs. induction a as [|c a IH]; [exact Hs|].
  rewrite append_cons. cbn [py_contains]. rewrite IH. apply orb_true_r.
Qed.

Lemma py_contains_app_l (sub s c : string) :
  py_contains sub s = true -> py_contains sub (s +:+ c) = true.
Proof.
  induction s as [|x s IH]; cbn [py_contains].
  - destruct sub as [|k sub]; [intros _; destruct c; reflexivity|discriminate].
  - rewrite append_cons. cbn [py_contains]. intros [Hp|Hr]%orb_true_iff.
    + apply orb_true_iff. left. eapply prefix_trans; [exact Hp|]. rewrite <- append_cons. apply prefix_app.
    + rewrite (IH Hr). apply orb_true_r.
Qed.

(** ** A string of whitespace strips to nothing *)

Lemma prefix_common (u t s : string) :
  String.prefix u s = true -> String.prefix t s = true ->
  String.prefix u t = true \/ String.prefix t u = true.
Proof.
  revert t s. induction u as [|x u IH]; intros t s Hu Ht; [left; destruct t; reflexivity|].
  destruct s as [|z s]; [discriminate|]. destruct t as [|y t]; [right; reflexivity|].
  cbn [String.prefix] in *.
  destruct (ascii_dec x z) as [<-|]; [|discriminate]. destruct (ascii_dec y x) as [<-|]; [|discriminate].
  destruct (ascii_dec y y) as [_|]; [|congruence]. exact (IH t s Hu Ht).
Qed.

(** No whitespace character of [py_spaces] is a prefix of another. *)
Lemma spaces_prefix_free (u t : string) :
  In u py_spaces -> In t py_spaces -> String.prefix u t = true -> u = t.
Proof.
  assert (Hall : forallb (fun u => forallb (fun t => negb (String.prefix u t) || String.eqb u t)
                                      py_spaces) py_spaces = true) by (vm_compute; reflexivity).
  intros Hu Ht Hp. rewrite forallb_forall in Hall. specialize (Hall u Hu).
  rewrite forallb_forall in Hall. specialize (Hall t Ht). rewrite Hp in Hall.
  apply String.eqb_eq, Hall.
Qed.

Lemma space_prefix_app (t r : string) :
  In t py_spaces -> space_prefix (t +:+ r) = Some (String.length t).
Proof.
  intros Ht. unfold space_prefix.
  destruct (List.find (fun u => String.prefix u (t +:+ r)) py_spaces) as [u|] eqn:E.
  - apply find_some in E as [Hu Hp]. cbn [option_map]. f_equal. f_equal.
    destruct (prefix_common u t (t +:+ r) Hp (prefix_app t r)) as [H|H];
      [apply spaces_prefix_free|symmetry; apply spaces_prefix_free]; assumption.
  - apply (find_none _ _ E) in Ht. rewrite prefix_app in Ht. discriminate.
Qed.

Lemma lstrip_blank (ws : list string) (f : nat) :
  Forall (fun t => In t py_spaces) ws ->
  (String.length (fold_right String.append "" ws) <= f)%nat ->
  lstrip_fuel f (fold_right String.append "" ws) = "".
Proof.
  intros Hws. revert f. induction Hws as [|t ws Ht Hws IH]; intros f Hf.
  - destruct f; reflexivity.
  - cbn [fold_right] in *. rewrite length_append in Hf.
    pose proof (proj1 (Forall_forall _ _) spaces_nonempty t Ht) as Hne. cbv beta in Hne.
    destruct f as [|f]; [lia|]. cbn [lstrip_fuel]. rewrite space_prefix_app, drop_app by exact Ht.
    apply IH. lia.
Qed.

(** [s.strip()] of a string made only of whitespace characters is empty. *)
Lemma py_strip_blank (ws : list string) :
  Forall (fun t => In t py_spaces) ws -> py_strip (fold_right String.append "" ws) = "".
Proof.
  intros Hws. unfold py_strip, py_lstrip. rewrite (lstrip_blank ws _ Hws (le_n _)).
  reflexivity.
Qed.

