(* ===== verification/Clock.v ===== *)
(** * Timestamps: the [created_at] column

    database.py stores [datetime.now()] in the [created_at] columns.  The
    sqlite3 module converts a [datetime] with its default adapter,
    [val.isoformat(" ")], so the column holds the text
    "YYYY-MM-DD HH:MM:SS" followed by ".ffffff" when the microseconds are
    not zero.  The reviews and the packages are listed [ORDER BY created_at
    DESC], a comparison of these texts; this file proves that comparing
    the texts is comparing the times ([adapt_datetime_order]). *)

From S2P Require Import Prelude PyStr.

Record datetime := mk_datetime {
  year : Z; month : Z; day : Z;
  hour : Z; minute : Z; second : Z; microsecond : Z
}.

(** [datetime.isoformat(sep)] with the default [timespec="auto"]. *)
Definition isoformat (sep : ascii) (d : datetime) : string :=
  zpad 4 (year d) +:+ "-" +:+ zpad 2 (month d) +:+ "-" +:+ zpad 2 (day d)
  +:+ String sep ""
  +:+ zpad 2 (hour d) +:+ ":" +:+ zpad 2 (minute d) +:+ ":" +:+ zpad 2 (second d)
  +:+ (if Z.eqb (microsecond d) 0 then "" else "." +:+ zpad 6 (microsecond d)).

(** The text up to the seconds, [d.strftime("%Y-%m-%d" + sep + "%H:%M:%S")]. *)
Definition iso_seconds (sep : ascii) (d : datetime) : string :=
  zpad 4 (year d) +:+ "-" +:+ zpad 2 (month d) +:+ "-" +:+ zpad 2 (day d)
  +:+ String sep ""
  +:+ zpad 2 (hour d) +:+ ":" +:+ zpad 2 (minute d) +:+ ":" +:+ zpad 2 (second d).

(** The sqlite3 module's [adapt_datetime]: the value bound for a
    [datetime] parameter of [cursor.execute]. *)
Definition adapt_datetime (d : datetime) : string := isoformat " " d.

(** ** Chronological order

    Python compares [datetime]s field by field, most significant first. *)
Definition cmp_then (c k : comparison) : comparison :=
  match c with Eq => k | Lt => Lt | Gt => Gt end.

Definition dt_compare (a b : datetime) : comparison :=
  cmp_then (Z.compare (year a) (year b))
  (cmp_then (Z.compare (month a) (month b))
  (cmp_then (Z.compare (day a) (day b))
  (cmp_then (Z.compare (hour a) (hour b))
  (cmp_then (Z.compare (minute a) (minute b))
  (cmp_then (Z.compare (second a) (second b))
     (Z.compare (microsecond a) (microsecond b))))))).

(** Every field fits the width [isoformat] prints it with (Python's own
    ranges are narrower). *)
Definition dt_valid (d : datetime) : Prop :=
  (0 <= year d < 10 ^ 4 /\ 0 <= month d < 10 ^ 2 /\ 0 <= day d < 10 ^ 2
   /\ 0 <= hour d < 10 ^ 2 /\ 0 <= minute d < 10 ^ 2 /\ 0 <= second d < 10 ^ 2
   /\ 0 <= microsecond d < 10 ^ 6)%Z.

Example adapt_datetime_run :
  adapt_datetime (mk_datetime 2024 5 7 9 3 0 42) = "2024-05-07 09:03:00.000042".
Proof. vm_compute. reflexivity. Qed.

Example adapt_datetime_whole_second :
  adapt_datetime (mk_datetime 2024 12 31 23 59 59 0) = "2024-12-31 23:59:59".
Proof. vm_compute. reflexivity. Qed.

(** ** Comparing timestamp texts *)

Lemma compare_app_same_length (a b x y : string) :
  String.length a = String.length b ->
  String.compare (a +:+ x) (b +:+ y) = cmp_then (String.compare a b) (String.compare x y).
Proof.
  revert b. induction a as [|c a IH]; intros [|c' b] Hlen; try discriminate; [reflexivity|].
  rewrite !append_cons. cbn [String.compare]. cbn [String.length] in Hlen.
  destruct (Ascii.compare c c'); [apply IH; lia|reflexivity|reflexivity].
Qed.

Lemma compare_cons_same (c : ascii) (x y : string) :
  String.compare (String c x) (String c y) = String.compare x y.
Proof. cbn [String.compare]. unfold Ascii.compare. rewrite N.compare_refl. reflexivity. Qed.

Lemma N_of_digit_char (d : Z) :
  (0 <= d < 10)%Z -> N_of_ascii (digit_char d) = N.of_nat (48 + Z.to_nat d).
Proof. intros Hd. unfold digit_char, ascii_of_nat. apply N_ascii_embedding. lia. Qed.

Lemma digit_char_compare (m n : Z) :
  (0 <= m < 10)%Z -> (0 <= n < 10)%Z ->
  Ascii.compare (digit_char m) (digit_char n) = Z.compare m n.
Proof.
  intros Hm Hn. unfold Ascii.compare. rewrite !N_of_digit_char by assumption.
  destruct (Z.compare_spec m n);
    [apply N.compare_eq_iff|apply N.compare_lt_iff|apply N.compare_gt_iff]; lia.
Qed.

Lemma compare_div_mod (p m n : Z) :
  (0 < p)%Z -> (0 <= m)%Z -> (0 <= n)%Z ->
  cmp_then (Z.compare (m / p) (n / p)) (Z.compare (m mod p) (n mod p)) = Z.compare m n.
Proof.
  intros Hp Hm Hn.
  pose proof (Z.div_mod m p ltac:(lia)). pose proof (Z.div_mod n p ltac:(lia)).
  pose proof (Z.mod_pos_bound m p Hp). pose proof (Z.mod_pos_bound n p Hp).
  destruct (Z.compare_spec (m / p) (n / p)) as [Hq|Hq|Hq]; cbn [cmp_then].
  - destruct (Z.compare_spec (m mod p) (n mod p)); symmetry;
      [apply Z.compare_eq_iff|apply Z.compare_lt_iff|apply Z.compare_gt_iff]; nia.
  - symmetry. apply Z.compare_lt_iff. nia.
  - symmetry. apply Z.compare_gt_iff. nia.
Qed.

(** Zero-padded numbers of one width compare as the numbers do. *)
Lemma zpad_compare (w : nat) (m n : Z) :
  (0 <= m < 10 ^ Z.of_nat w)%Z -> (0 <= n < 10 ^ Z.of_nat w)%Z ->
  String.compare (zpad w m) (zpad w n) = Z.compare m n.
Proof.
  revert m n. induction w as [|w IH]; intros m n Hm Hn.
  - cbn in Hm, Hn. assert (m = 0)%Z as -> by lia. assert (n = 0)%Z as -> by lia. reflexivity.
  - pose proof (pow10_pos w) as Hp. rewrite pow10_succ in Hm, Hn.
    assert (Hqm : (0 <= m / 10 ^ Z.of_nat w < 10)%Z)
      by (split; [apply Z.div_pos|apply Z.div_lt_upper_bound]; lia).
    assert (Hqn : (0 <= n / 10 ^ Z.of_nat w < 10)%Z)
      by (split; [apply Z.div_pos|apply Z.div_lt_upper_bound]; lia).
    cbn [zpad String.compare]. rewrite !(Z.mod_small (_ / _) 10) by assumption.
    rewrite digit_char_compare by assumption.
    rewrite (zpad_mod w m (m mod 10 ^ Z.of_nat w)), (zpad_mod w n (n mod 10 ^ Z.of_nat w))
      by (rewrite Z.mod_mod; lia).
    rewrite IH by (apply Z.mod_pos_bound; lia).
    exact (compare_div_mod (10 ^ Z.of_nat w) m n ltac:(lia) ltac:(lia) ltac:(lia)).
Qed.

Lemma compare_same (s : string) : String.compare s s = Eq.
Proof.
  induction s as [|c s IH]; [reflexivity|].
  cbn [String.compare]. unfold Ascii.compare. rewrite N.compare_refl. exact IH.
Qed.

Lemma cmp_then_Eq (k : comparison) : cmp_then Eq k = k.
Proof. reflexivity. Qed.

(** The fractional part [isoformat] adds when the microseconds are not
    zero. *)
Lemma micro_compare (m n : Z) :
  (0 <= m < 10 ^ 6)%Z -> (0 <= n < 10 ^ 6)%Z ->
  String.compare (if Z.eqb m 0 then "" else "." +:+ zpad 6 m)
                 (if Z.eqb n 0 then "" else "." +:+ zpad 6 n) = Z.compare m n.
Proof.
  intros Hm Hn.
  destruct (Z.eqb_spec m 0) as [->|Hm0], (Z.eqb_spec n 0) as [->|Hn0]; try reflexivity.
  - symmetry. apply Z.compare_lt_iff. lia.
  - symmetry. apply Z.compare_gt_iff. lia.
  - rewrite !append_cons, !append_nil_l, compare_cons_same. apply zpad_compare; cbn; lia.
Qed.

Lemma adapt_datetime_compare (a b : datetime) :
  dt_valid a -> dt_valid b ->
  String.compare (adapt_datetime a) (adapt_datetime b) = dt_compare a b.
Proof.
  unfold dt_valid. intros Ha Hb. unfold adapt_datetime, isoformat, dt_compare.
  repeat (rewrite compare_app_same_length by (rewrite ?zpad_length; reflexivity)).
  rewrite !compare_same, !cmp_then_Eq, !zpad_compare, micro_compare by (cbn; lia).
  reflexivity.
Qed.

(** C25: for timestamps whose fields fit their printed widths, the texts
    the sqlite3 module stores for [datetime.now()] compare (byte-wise, as
    SQLite's BINARY collation does) exactly as the times do: ORDER BY
    created_at is chronological order, and DESC lists the newest first. *)
Theorem adapt_datetime_order (a b : datetime) :
  dt_valid a -> dt_valid b ->
  String.compare (adapt_datetime a) (adapt_datetime b) = dt_compare a b.
Proof. apply adapt_datetime_compare. Qed.

Lemma adapt_datetime_order_witness :
  dt_valid (mk_datetime 2024 5 7 9 3 0 42) /\ dt_valid (mk_datetime 2024 5 7 9 3 0 0)
  /\ String.compare (adapt_datetime (mk_datetime 2024 5 7 9 3 0 42))
                    (adapt_datetime (mk_datetime 2024 5 7 9 3 0 0))
     = dt_compare (mk_datetime 2024 5 7 9 3 0 42) (mk_datetime 2024 5 7 9 3 0 0).
Proof.
  assert (Ha : dt_valid (mk_datetime 2024 5 7 9 3 0 42)) by (unfold dt_valid; cbn; lia).
  assert (Hb : dt_valid (mk_datetime 2024 5 7 9 3 0 0)) by (unfold dt_valid; cbn; lia).
  split; [exact Ha|]. split; [exact Hb|]. exact (adapt_datetime_order _ _ Ha Hb).
Defined.

Lemma isoformat_seconds (sep : ascii) (d : datetime) :
  isoformat sep d
  = iso_seconds sep d
    +:+ (if Z.eqb (microsecond d) 0 then "" else "." +:+ zpad 6 (microsecond d)).
Proof. unfold isoformat, iso_seconds. rewrite !append_assoc. reflexivity. Qed.
