(* ===== verification/Tracking.v ===== *)
(** * Tracking numbers: [generate_tracking_number] of package_service.py

    The generator draws two characters of [string.ascii_uppercase] and six
    of [string.digits] with [random.choices] and joins them as
    [f"{letters}-{numbers}"].  The random module is reached through the
    [RandomSource] interface: all the code relies on is that
    [floor(random() * n)] is an index below [n].  The file also gives the
    format of the docstring ("XX-999999"), the bijection between
    well-formed codes and [0 .. 26^2 * 10^6 - 1], and the theorems that
    the generator only produces well-formed codes and can produce all of
    them. *)

From S2P Require Import Prelude.

(** ** The populations of [random.choices] *)

Definition ascii_uppercase : string := "ABCDEFGHIJKLMNOPQRSTUVWXYZ".
Definition digits : string := "0123456789".

(** [population[i]]; the default is never reached for [i < len(population)]. *)
Definition nth_char (i : nat) (population : string) : ascii :=
  match String.get i population with Some c => c | None => " "%char end.

(** ** The interface of Python's [random] module

    [rand_below n g] is [floor(random() * n)] with the generator state
    threaded explicitly; the law is the only property [random.choices]
    needs for its indexing to succeed. *)
Class RandomSource (G : Type) := {
  rand_below : nat -> G -> nat * G;
  rand_below_lt : forall n g, 0 < n -> fst (rand_below n g) < n
}.

Section Generator.
Context {G : Type} `{RandomSource G}.

(** [random.choices(population, k=k)]: [k] independent draws, first
    draw first, joined into a string. *)
Fixpoint choices (population : string) (k : nat) (g : G) : string * G :=
  match k with
  | O => ("", g)
  | S k' =>
      let '(i, g1) := rand_below (String.length population) g in
      let '(rest, g2) := choices population k' g1 in
      (String (nth_char i population) rest, g2)
  end.

(** [generate_tracking_number()] *)
Definition generate_tracking_number (g : G) : string * G :=
  let '(letters, g1) := choices ascii_uppercase 2 g in
  let '(numbers, g2) := choices digits 6 g1 in
  (letters +:+ "-" +:+ numbers, g2).

End Generator.

(** ** The format "XX-999999" ([A-Z]{2}-[0-9]{6}) *)

Definition is_tracking_format (s : string) : bool :=
  match s with
  | String a (String b (String dash rest)) =>
      is_upper a && is_upper b && Ascii.eqb dash "-"
      && (String.length rest =? 6)%nat && all_chars is_digit rest
  | _ => false
  end.

(** Number of well-formed codes. *)
Definition TRACKING_SPACE : Z := 26 * 26 * 10 ^ 6.

Definition letter_val (c : ascii) : Z := (Z.of_nat (nat_of_ascii c) - 65)%Z.
Definition letter_char (i : Z) : ascii := ascii_of_nat (65 + Z.to_nat i).

(** The index of a well-formed code: letters in base 26, then the six
    digits. *)
Definition tracking_index (s : string) : option Z :=
  if is_tracking_format s then
    match s with
    | String a (String b (String _ rest)) =>
        Some ((letter_val a * 26 + letter_val b) * 10 ^ 6 + digits_val 0 rest)%Z
    | _ => None
    end
  else None.

Definition tracking_of_index (n : Z) : string :=
  let l := (n / 10 ^ 6)%Z in
  String (letter_char (l / 26)) (String (letter_char (l mod 26))
    (String "-" (zpad 6 n))).

(** ** A recorded sequence of draws

    A source that replays a list of indices; it is the source the coverage
    theorem exhibits, and it runs under [vm_compute] in the examples. *)
Definition replay_below (n : nat) (l : list nat) : nat * list nat :=
  match l with [] => (0, []) | i :: l' => (i mod n, l') end.

Lemma replay_below_lt n l : 0 < n -> fst (replay_below n l) < n.
Proof. destruct l as [|i l]; simpl; intros Hn; [lia|apply Nat.mod_upper_bound; lia]. Qed.

#[export] Instance replay_source : RandomSource (list nat) :=
  {| rand_below := replay_below; rand_below_lt := replay_below_lt |}.

(** ** Lemmas on the populations *)

Lemma all_chars_nth_char (p : ascii -> bool) (s : string) i :
  all_chars p s = true -> i < String.length s -> p (nth_char i s) = true.
Proof.
  revert i. induction s as [|c s IH]; intros i Hs Hi; simpl in Hi; [lia|].
  apply andb_true_iff in Hs as [Hc Hs].
  destruct i as [|i]; [exact Hc|]. apply IH; [exact Hs|lia].
Qed.

Lemma letter_val_char (i : Z) : (0 <= i < 26)%Z -> letter_val (letter_char i) = i.
Proof.
  intros Hi. unfold letter_val, letter_char. rewrite nat_ascii_embedding by lia. lia.
Qed.

Lemma is_upper_letter_char (i : Z) : (0 <= i < 26)%Z -> is_upper (letter_char i) = true.
Proof.
  intros Hi. unfold is_upper, letter_char. rewrite nat_ascii_embedding by lia.
  apply andb_true_iff; split; apply Nat.leb_le; lia.
Qed.

Lemma is_upper_range (c : ascii) : is_upper c = true -> (65 <= nat_of_ascii c <= 90)%nat.
Proof. unfold is_upper. rewrite andb_true_iff, !Nat.leb_le. tauto. Qed.

Lemma letter_char_val (c : ascii) : is_upper c = true -> letter_char (letter_val c) = c.
Proof.
  intros Hc%is_upper_range. unfold letter_char, letter_val.
  replace (65 + Z.to_nat (Z.of_nat (nat_of_ascii c) - 65))%nat with (nat_of_ascii c) by lia.
  apply ascii_nat_embedding.
Qed.

Lemma letter_val_range (c : ascii) : is_upper c = true -> (0 <= letter_val c < 26)%Z.
Proof. intros Hc%is_upper_range. unfold letter_val. lia. Qed.

Lemma nth_char_uppercase (i : nat) :
  i < 26 -> nth_char i ascii_uppercase = letter_char (Z.of_nat i).
Proof. intros Hi. do 26 (destruct i as [|i]; [reflexivity|]). lia. Qed.

Lemma nth_char_digits (i : nat) : i < 10 -> nth_char i digits = digit_char (Z.of_nat i).
Proof. intros Hi. do 10 (destruct i as [|i]; [reflexivity|]). lia. Qed.

Section ChoicesSpec.
Context {G : Type} `{RandomSource G}.

(** [random.choices] returns [k] characters, each one of the population. *)
Lemma choices_spec (p : ascii -> bool) (population : string) (k : nat) (g : G) :
  0 < String.length population -> all_chars p population = true ->
  String.length (fst (choices population k g)) = k
  /\ all_chars p (fst (choices population k g)) = true.
Proof.
  intros Hlen Hpop. revert g. induction k as [|k IH]; intros g; [split; reflexivity|].
  simpl choices. pose proof (rand_below_lt _ g Hlen) as Hi.
  destruct (rand_below _ g) as [i g1]. simpl in Hi.
  specialize (IH g1). destruct (choices population k g1) as [rest g2]. simpl in *.
  destruct IH as [IHl IHp]. rewrite IHl, IHp, all_chars_nth_char by assumption.
  split; reflexivity.
Qed.

End ChoicesSpec.

(** ** The generator's output is a well-formed code *)

Lemma generated_code_wellformed {G} `{RandomSource G} (g : G) :
  is_tracking_format (fst (generate_tracking_number g)) = true.
Proof.
  unfold generate_tracking_number.
  destruct (choices_spec is_upper ascii_uppercase 2 g) as [Hl1 Hp1];
    [simpl; lia|reflexivity|].
  destruct (choices ascii_uppercase 2 g) as [letters g1]. simpl in Hl1, Hp1.
  destruct (choices_spec is_digit digits 6 g1) as [Hl2 Hp2]; [simpl; lia|reflexivity|].
  destruct (choices digits 6 g1) as [numbers g2]. simpl in Hl2, Hp2.
  destruct letters as [|a [|b [|? ?]]]; simpl in Hl1; try discriminate.
  simpl in Hp1. apply andb_true_iff in Hp1 as [Ha Hp1]. apply andb_true_iff in Hp1 as [Hb _].
  cbn [fst]. simpl_append. cbn [is_tracking_format].
  rewrite Ha, Hb, Hl2, Hp2. reflexivity.
Qed.

Lemma tracking_format_length (s : string) :
  is_tracking_format s = true -> String.length s = 9.
Proof.
  destruct s as [|a [|b [|dash rest]]]; try discriminate. cbn [is_tracking_format].
  rewrite !andb_true_iff. intros ((((_ & _) & _) & Hlen%Nat.eqb_eq) & _). simpl. lia.
Qed.

(** C1: every call of [generate_tracking_number], whatever the state of the
    random source, returns a string of the form [A-Z]{2}-[0-9]{6}. *)
Theorem generate_tracking_number_format {G} `{RandomSource G} (g : G) :
  is_tracking_format (fst (generate_tracking_number g)) = true.
Proof. apply generated_code_wellformed. Qed.

(** ** Well-formed codes are exactly the images of [0 .. TRACKING_SPACE - 1] *)

Lemma div_mod_small (q r b : Z) :
  (0 < b)%Z -> (0 <= r < b)%Z -> ((q * b + r) / b = q /\ (q * b + r) mod b = r)%Z.
Proof.
  intros Hb Hr. split.
  - rewrite Z.div_add_l, Z.div_small; lia.
  - rewrite Z.add_comm, Z.mod_add, Z.mod_small; lia.
Qed.

(** Decomposition of an index into its two letters and its digits. *)
Lemma tracking_index_split (n : Z) :
  (0 <= n < TRACKING_SPACE)%Z ->
  let l := (n / 10 ^ 6)%Z in
  (n = (l / 26 * 26 + l mod 26) * 10 ^ 6 + n mod 10 ^ 6
   /\ 0 <= l / 26 < 26 /\ 0 <= l mod 26 < 26)%Z.
Proof.
  intros Hn l. unfold TRACKING_SPACE in Hn. subst l.
  change (10 ^ 6)%Z with 1000000%Z in *.
  pose proof (Z.div_mod n 1000000 ltac:(lia)).
  pose proof (Z.mod_pos_bound n 1000000 ltac:(lia)).
  pose proof (Z.div_mod (n / 1000000) 26 ltac:(lia)).
  pose proof (Z.mod_pos_bound (n / 1000000) 26 ltac:(lia)).
  lia.
Qed.

Lemma tracking_of_index_format (n : Z) :
  (0 <= n < TRACKING_SPACE)%Z -> is_tracking_format (tracking_of_index n) = true.
Proof.
  intros Hn. destruct (tracking_index_split n Hn) as (_ & Ha & Hb).
  unfold tracking_of_index. cbn [is_tracking_format].
  rewrite !is_upper_letter_char, zpad_length, zpad_all_digits by assumption.
  reflexivity.
Qed.

(** Printing an index in range and reading it back gives the index. *)
Theorem tracking_index_of_index (n : Z) :
  (0 <= n < TRACKING_SPACE)%Z -> tracking_index (tracking_of_index n) = Some n.
Proof.
  intros Hn. unfold tracking_index. rewrite tracking_of_index_format by exact Hn.
  destruct (tracking_index_split n Hn) as (Hsplit & Ha & Hb).
  unfold tracking_of_index. rewrite !letter_val_char, digits_val_zpad by assumption.
  f_equal. change (10 ^ Z.of_nat 6)%Z with (10 ^ 6)%Z. lia.
Qed.

(** A string that reads as an index is the printed form of that index,
    and the index is in range. *)
Theorem tracking_of_index_of_tracking (s : string) (n : Z) :
  tracking_index s = Some n -> tracking_of_index n = s /\ (0 <= n < TRACKING_SPACE)%Z.
Proof.
  unfold tracking_index. destruct (is_tracking_format s) eqn:Hf; [|discriminate].
  destruct s as [|a [|b [|dash rest]]]; try discriminate. intros [= <-].
  cbn [is_tracking_format] in Hf. rewrite !andb_true_iff in Hf.
  destruct Hf as ((((Ha & Hb) & Hdash%Ascii.eqb_eq) & Hlen%Nat.eqb_eq) & Hdig). subst dash.
  pose proof (letter_val_range a Ha). pose proof (letter_val_range b Hb).
  pose proof (digits_val_bound rest Hdig) as Hv. rewrite Hlen in Hv.
  change (10 ^ Z.of_nat 6)%Z with (10 ^ 6)%Z in Hv.
  destruct (div_mod_small (letter_val a * 26 + letter_val b) (digits_val 0 rest) (10 ^ 6))
    as [Hq Hr]; [lia|lia|].
  destruct (div_mod_small (letter_val a) (letter_val b) 26) as [Hq' Hr']; [lia|lia|].
  split; [|unfold TRACKING_SPACE; lia].
  unfold tracking_of_index. rewrite Hq, Hq', Hr', !letter_char_val by assumption.
  do 3 f_equal. transitivity (zpad 6 (digits_val 0 rest)).
  - apply zpad_mod. change (10 ^ Z.of_nat 6)%Z with (10 ^ 6)%Z.
    rewrite Hr, Z.mod_small; lia.
  - rewrite <- Hlen. apply zpad_digits_val, Hdig.
Qed.



(** ** Every code can be generated *)

Definition digit_index (c : ascii) : nat := Z.to_nat (digit_val c).
Definition letter_index (c : ascii) : nat := Z.to_nat (letter_val c).

Lemma choices_replay (population : string) (k i : nat) (l : list nat) :
  choices population (S k) (i :: l)
  = (String (nth_char (i mod String.length population) population)
       (fst (choices population k l)), snd (choices population k l)).
Proof. simpl. destruct (choices population k l); reflexivity. Qed.

Lemma choices_digits_replay (rest : string) (tail : list nat) :
  all_chars is_digit rest = true ->
  choices digits (String.length rest)
    (map digit_index (String.list_ascii_of_string rest) ++ tail)%list = (rest, tail).
Proof.
  induction rest as [|c rest IH]; intros Hd; [reflexivity|].
  apply andb_true_iff in Hd as [Hc Hd]. pose proof (digit_val_range c Hc).
  cbn [String.length String.list_ascii_of_string map app].
  rewrite choices_replay, (IH Hd). cbn [fst snd]. unfold digit_index. change (String.length digits) with 10.
  rewrite Nat.mod_small, nth_char_digits, Z2Nat.id, digit_char_val by (assumption || lia).
  reflexivity.
Qed.

(** Every well-formed code is returned on some sequence of draws. *)
Lemma generate_covers_codes (s : string) :
  is_tracking_format s = true ->
  exists draws : list nat, fst (generate_tracking_number draws) = s.
Proof.
  destruct s as [|a [|b [|dash rest]]]; try discriminate. intros Hf.
  cbn [is_tracking_format] in Hf. rewrite !andb_true_iff in Hf.
  destruct Hf as ((((Ha & Hb) & Hdash%Ascii.eqb_eq) & Hlen%Nat.eqb_eq) & Hdig). subst dash.
  exists (letter_index a :: letter_index b :: map digit_index (String.list_ascii_of_string rest)).
  pose proof (letter_val_range a Ha). pose proof (letter_val_range b Hb).
  unfold generate_tracking_number.
  rewrite !(choices_replay ascii_uppercase).
  change (choices ascii_uppercase 0 ?l) with ("", l). cbn [fst snd].
  change (String.length ascii_uppercase) with 26.
  rewrite <- (app_nil_r (map digit_index _)), <- Hlen, choices_digits_replay by exact Hdig.
  unfold letter_index. rewrite !Nat.mod_small, !nth_char_uppercase, !Z2Nat.id,
    !letter_char_val by (assumption || lia).
  cbn [fst]. simpl_append. reflexivity.
Qed.

(** C17: the generator can produce every well-formed code: for each one
    there is a sequence of draws of the random source on which
    [generate_tracking_number] returns it. *)
Theorem generate_covers_all_codes (s : string) :
  is_tracking_format s = true ->
  exists draws : list nat, fst (generate_tracking_number draws) = s.
Proof. apply generate_covers_codes. Qed.

(** Well-formed codes are exactly the images of the index range. *)
Lemma tracking_format_index (s : string) :
  is_tracking_format s = true <-> exists n, (0 <= n < TRACKING_SPACE)%Z /\ tracking_of_index n = s.
Proof.
  split.
  - intros Hf. destruct (tracking_index s) as [n|] eqn:Hi.
    + exists n. apply tracking_of_index_of_tracking in Hi as [Hs Hn]. auto.
    + exfalso. unfold tracking_index in Hi. rewrite Hf in Hi.
      destruct s as [|a [|b [|dash rest]]]; discriminate.
  - intros (n & Hn & <-). apply tracking_of_index_format, Hn.
Qed.

(** C16: [generate_tracking_number] draws from a space of exactly
    26 * 26 * 10^6 = 676,000,000 codes: whatever the random source, the
    code it returns is [tracking_of_index n] for an [n] in
    [0 .. 676,000,000 - 1]; [tracking_of_index] is injective on that
    range; and every code of the range is returned on some draws. *)
Theorem tracking_code_space :
  TRACKING_SPACE = 676000000%Z
  /\ (forall n m, (0 <= n < TRACKING_SPACE)%Z -> (0 <= m < TRACKING_SPACE)%Z ->
        tracking_of_index n = tracking_of_index m -> n = m)
  /\ (forall (G : Type) (H : RandomSource G) (g : G),
        exists n, (0 <= n < TRACKING_SPACE)%Z /\ fst (generate_tracking_number g) = tracking_of_index n)
  /\ (forall n, (0 <= n < TRACKING_SPACE)%Z ->
        exists draws : list nat, fst (generate_tracking_number draws) = tracking_of_index n).
Proof.
  split; [reflexivity|split; [|split]].
  - intros n m Hn Hm Heq. apply (f_equal tracking_index) in Heq.
    rewrite !tracking_index_of_index in Heq by assumption. congruence.
  - intros G H g. destruct (proj1 (tracking_format_index _) (generated_code_wellformed g))
      as (n & Hn & Heq). exists n. split; [exact Hn|symmetry; exact Heq].
  - intros n Hn. apply generate_covers_codes, tracking_of_index_format, Hn.
Qed.

(** ** Concrete runs and witnesses *)

Example generate_tracking_number_run :
  generate_tracking_number [1; 25; 0; 9; 3; 4; 5; 6] = ("BZ-093456", []).
Proof. vm_compute. reflexivity. Qed.

Example tracking_format_rejects_lowercase : is_tracking_format "bz-093456" = false.
Proof. reflexivity. Qed.

Lemma generate_tracking_number_format_witness :
  is_tracking_format (fst (generate_tracking_number [27; 3; 15; 0; 0; 7; 9; 2])) = true.
Proof. apply generate_tracking_number_format. Defined.

Lemma tracking_code_space_witness :
  (0 <= 675999999 < TRACKING_SPACE)%Z
  /\ exists draws : list nat, fst (generate_tracking_number draws) = tracking_of_index 675999999.
Proof.
  assert (Hn : (0 <= 675999999 < TRACKING_SPACE)%Z) by (unfold TRACKING_SPACE; lia).
  split; [exact Hn|]. exact (proj2 (proj2 (proj2 tracking_code_space)) 675999999%Z Hn).
Defined.

Lemma generate_covers_all_codes_witness :
  is_tracking_format "QX-400215" = true
  /\ exists draws : list nat, fst (generate_tracking_number draws) = "QX-400215".
Proof. split; [reflexivity|]. apply generate_covers_all_codes. reflexivity. Defined.
