(* ===== verification/Store.v ===== *)
(** * The store: database.py

    The three tables created by [initialize_db], their rows as records, and
    every function of database.py as a function from a database state to
    its Python result and the next state.  What SQLite does on the way is
    written out: the AUTOINCREMENT rowid (the [sqlite_sequence] entry, and
    [SQLITE_FULL] once 2^63-1 is used), the NOT NULL and UNIQUE constraints
    of the schema, the [OverflowError] of the sqlite3 module for a Python
    [int] outside 64 bits, [rowcount], and the ORDER BY of the listings
    (a stable sort of the rowid-ordered table).  A failed statement is not
    committed: the state is unchanged and the Python function returns
    [False] (or [None], or [[]]). *)

From S2P Require Import Prelude Clock.

(** ** Rows *)

(** [packages (id, tracking_number, description, status, sender, recipient,
    sender_address, recipient_address, created_at)] *)
Record package := mk_package {
  pkg_id : Z;
  tracking_number : text;
  description : text;
  status : text;
  sender : text;
  recipient : text;
  sender_address : text;
  recipient_address : text;
  created_at : text
}.

(** [couriers (id, name, phone, email, status, created_at)] *)
Record courier := mk_courier {
  courier_id : Z;
  name : text;
  phone : text;
  email : text;
  courier_status : text;
  courier_created_at : text
}.

(** [reviews (id, tracking_number, customer_name, rating, comment,
    created_at)]; the FOREIGN KEY clause is not enforced, since the
    connection never runs [PRAGMA foreign_keys = ON]. *)
Record review := mk_review {
  review_id : Z;
  review_tracking_number : text;
  customer_name : text;
  rating : Z;
  comment : text;
  review_created_at : text
}.

(** A table: its rows in rowid order (the order of a table scan) and its
    [sqlite_sequence] entry, the largest rowid it has ever used. *)
Record table (A : Type) := mk_table { rows : list A; sqlite_seq : Z }.
Arguments mk_table {A} rows sqlite_seq.
Arguments rows {A} t.
Arguments sqlite_seq {A} t.

Record db := mk_db {
  packages : table package;
  couriers : table courier;
  reviews : table review
}.

Definition set_packages (d : db) (t : table package) : db := mk_db t (couriers d) (reviews d).
Definition set_couriers (d : db) (t : table courier) : db := mk_db (packages d) t (reviews d).
Definition set_reviews (d : db) (t : table review) : db := mk_db (packages d) (couriers d) t.

(** ** Errors raised by [cursor.execute] *)

Inductive sqlite_error :=
| IntegrityError (constraint : string)   (** sqlite3.IntegrityError *)
| FullError                              (** SQLITE_FULL: no rowid left *)
| OverflowError.                         (** Python int too large for INTEGER *)

(** ** [initialize_db]: CREATE TABLE IF NOT EXISTS

    [None] is a database file that does not exist yet; an existing one is
    left as it is. *)
Definition empty_table {A} : table A := mk_table [] 0.

Definition initialize_db (file : option db) : db :=
  match file with
  | Some d => d
  | None => mk_db empty_table empty_table empty_table
  end.

(** ** SQL comparisons *)

(** [col = ?] in a WHERE clause: a comparison with NULL is never true. *)
Definition sql_eq (a b : text) : bool :=
  match a, b with
  | Some x, Some y => String.eqb x y
  | _, _ => false
  end.

(** The BINARY collation of ORDER BY: NULL first, then byte-wise order. *)
Definition text_leb (a b : text) : bool :=
  match a, b with
  | None, _ => true
  | Some _, None => false
  | Some x, Some y => match String.compare x y with Gt => false | _ => true end
  end.

(** ** AUTOINCREMENT *)

Definition max_rowid {A} (id : A -> Z) (l : list A) : Z :=
  fold_right (fun r m => Z.max (id r) m) 0%Z l.

(** One more than the largest rowid the table has ever held, or [None]
    (SQLITE_FULL) when that would exceed 2^63-1. *)
Definition next_rowid {A} (id : A -> Z) (t : table A) : option Z :=
  let n := Z.max (sqlite_seq t) (max_rowid id (rows t)) in
  if (n <? INT64_MAX)%Z then Some (n + 1)%Z else None.

(** Append a row built from its new rowid, and record the rowid in
    [sqlite_sequence]. *)
Definition insert_row {A} (id : A -> Z) (mk : Z -> A) (t : table A)
  : sqlite_error + table A :=
  match next_rowid id t with
  | Some i => inr (mk_table (rows t ++ [mk i])%list i)
  | None => inl FullError
  end.

(** ** Packages *)

Definition SENT : string := "Отправлена".

(** The INSERT of [create_package]: status "Отправлена", created_at
    [datetime.now()]; NOT NULL and UNIQUE on tracking_number. *)
Definition insert_package (tn desc sdr rcp sa ra : text) (now : datetime)
  (t : table package) : sqlite_error + table package :=
  match tn with
  | None => inl (IntegrityError "NOT NULL constraint failed: packages.tracking_number")
  | Some _ =>
      if existsb (fun p => sql_eq (tracking_number p) tn) (rows t)
      then inl (IntegrityError "UNIQUE constraint failed: packages.tracking_number")
      else insert_row pkg_id
             (fun i => mk_package i tn desc (Some SENT) sdr rcp sa ra
                         (Some (adapt_datetime now))) t
  end.

(** [create_package(tracking_number, description, sender, recipient,
    sender_address, recipient_address)] *)
Definition create_package (tn desc sdr rcp sa ra : text) (now : datetime) (d : db)
  : bool * db :=
  match insert_package tn desc sdr rcp sa ra now (packages d) with
  | inr t => (true, set_packages d t)
  | inl _ => (false, d)
  end.

(** [get_package_by_tracking(tracking_number)]: [fetchone()] of the
    SELECT, [None] when no row matches. *)
Definition get_package_by_tracking (tn : text) (d : db) : option package :=
  List.find (fun p => sql_eq (tracking_number p) tn) (rows (packages d)).

Definition set_status (st : text) (p : package) : package :=
  mk_package (pkg_id p) (tracking_number p) (description p) st (sender p)
    (recipient p) (sender_address p) (recipient_address p) (created_at p).

(** The UPDATE of [update_package_status] and its [rowcount]; writing NULL
    into a matched row violates NOT NULL on status. *)
Definition update_status_rows (tn st : text) (t : table package)
  : sqlite_error + (table package * nat) :=
  let n := length (List.filter (fun p => sql_eq (tracking_number p) tn) (rows t)) in
  if (n =? 0)%nat then inr (t, 0)
  else match st with
       | None => inl (IntegrityError "NOT NULL constraint failed: packages.status")
       | Some _ =>
           inr (mk_table (map (fun p => if sql_eq (tracking_number p) tn
                                         then set_status st p else p) (rows t))
                         (sqlite_seq t), n)
       end.

(** [update_package_status(tracking_number, new_status)]:
    [cursor.rowcount > 0]. *)
Definition update_package_status (tn st : text) (d : db) : bool * db :=
  match update_status_rows tn st (packages d) with
  | inr (t, n) => ((0 <? n)%nat, set_packages d t)
  | inl _ => (false, d)
  end.

(** ** Couriers *)

Definition ACTIVE : string := "Активен".

(** [create_courier(name, phone, email)]: status takes its DEFAULT. *)
Definition insert_courier (nm ph em : text) (now : datetime) (t : table courier)
  : sqlite_error + table courier :=
  match nm with
  | None => inl (IntegrityError "NOT NULL constraint failed: couriers.name")
  | Some _ =>
      insert_row courier_id
        (fun i => mk_courier i nm ph em (Some ACTIVE) (Some (adapt_datetime now))) t
  end.

Definition create_courier (nm ph em : text) (now : datetime) (d : db) : bool * db :=
  match insert_courier nm ph em now (couriers d) with
  | inr t => (true, set_couriers d t)
  | inl _ => (false, d)
  end.

(** [delete_courier(courier_id)]: the DELETE and its [rowcount]. *)
Definition delete_courier_rows (cid : Z) (t : table courier)
  : sqlite_error + (table courier * nat) :=
  if in_int64 cid then
    let kept := List.filter (fun c => negb (Z.eqb (courier_id c) cid)) (rows t) in
    inr (mk_table kept (sqlite_seq t), (length (rows t) - length kept)%nat)
  else inl OverflowError.

Definition delete_courier (cid : Z) (d : db) : bool * db :=
  match delete_courier_rows cid (couriers d) with
  | inr (t, n) => ((0 <? n)%nat, set_couriers d t)
  | inl _ => (false, d)
  end.

(** ** Reviews *)

(** [create_review(tracking_number, customer_name, rating, comment)]: no
    CHECK constraint on the rating; only its binding can fail. *)
Definition insert_review (tn cn : text) (r : Z) (cm : text) (now : datetime)
  (t : table review) : sqlite_error + table review :=
  if in_int64 r then
    insert_row review_id (fun i => mk_review i tn cn r cm (Some (adapt_datetime now))) t
  else inl OverflowError.

Definition create_review (tn cn : text) (r : Z) (cm : text) (now : datetime) (d : db)
  : bool * db :=
  match insert_review tn cn r cm now (reviews d) with
  | inr t => (true, set_reviews d t)
  | inl _ => (false, d)
  end.

(** ** Listings: ORDER BY *)

Lemma text_leb_total (a b : text) : text_leb a b = true \/ text_leb b a = true.
Proof.
  destruct a as [x|], b as [y|]; simpl; auto.
  rewrite (String.compare_antisym y x). destruct (String.compare x y); auto.
Qed.

(** The ORDER BY keys: name ascending; created_at descending. *)
Definition courier_by_name (c1 c2 : courier) : bool := text_leb (name c1) (name c2).
Definition review_by_date_desc (r1 r2 : review) : bool :=
  text_leb (review_created_at r2) (review_created_at r1).
Definition package_by_date_desc (p1 p2 : package) : bool :=
  text_leb (created_at p2) (created_at p1).

(** [get_all_couriers()]: SELECT * FROM couriers ORDER BY name *)
Definition get_all_couriers (d : db) : list courier := sort_by courier_by_name (rows (couriers d)).

(** [get_all_reviews()]: SELECT * FROM reviews ORDER BY created_at DESC *)
Definition get_all_reviews (d : db) : list review := sort_by review_by_date_desc (rows (reviews d)).

(** [get_all_packages()]: SELECT * FROM packages ORDER BY created_at DESC *)
Definition get_all_packages (d : db) : list package :=
  sort_by package_by_date_desc (rows (packages d)).

(** ** Well-formed tables *)

Section TableWf.
Context {A : Type} (id : A -> Z).

(** Rowids are positive, at most the [sqlite_sequence] entry, and the rows
    are in increasing rowid order; the entry itself is a 64-bit rowid. *)
Definition table_wf (t : table A) : Prop :=
  (0 <= sqlite_seq t <= INT64_MAX)%Z
  /\ StronglySorted (fun a b => id a < id b)%Z (rows t)
  /\ Forall (fun r => 0 < id r <= sqlite_seq t)%Z (rows t).

Lemma max_rowid_le (l : list A) (s : Z) :
  (0 <= s)%Z -> Forall (fun r => 0 < id r <= s)%Z l -> (max_rowid id l <= s)%Z.
Proof. intros Hs Hl. induction Hl; simpl; lia. Qed.

Lemma next_rowid_wf (t : table A) :
  table_wf t ->
  next_rowid id t = if (sqlite_seq t <? INT64_MAX)%Z then Some (sqlite_seq t + 1)%Z else None.
Proof.
  intros (Hs & _ & Hl). unfold next_rowid.
  rewrite Z.max_l by (apply max_rowid_le; [lia|exact Hl]). reflexivity.
Qed.

Lemma StronglySorted_snoc (R : A -> A -> Prop) (l : list A) (x : A) :
  StronglySorted R l -> Forall (fun y => R y x) l -> StronglySorted R (l ++ [x])%list.
Proof.
  induction 1 as [|a l Hl IH Ha]; intros Hx; simpl.
  - repeat constructor.
  - inversion Hx; subst. constructor; [auto|].
    apply Forall_app; split; [exact Ha|repeat constructor; assumption].
Qed.

(** The two outcomes of an AUTOINCREMENT insert into a well-formed table. *)
Lemma insert_row_spec (mk : Z -> A) (t : table A) :
  table_wf t ->
  insert_row id mk t
  = if (sqlite_seq t <? INT64_MAX)%Z
    then inr (mk_table (rows t ++ [mk (sqlite_seq t + 1)%Z])%list (sqlite_seq t + 1)%Z)
    else inl FullError.
Proof.
  intros Hwf. unfold insert_row. rewrite next_rowid_wf by exact Hwf.
  destruct (sqlite_seq t <? INT64_MAX)%Z; reflexivity.
Qed.

Lemma insert_row_wf (mk : Z -> A) (t t' : table A) :
  table_wf t -> (forall i, id (mk i) = i) -> insert_row id mk t = inr t' -> table_wf t'.
Proof.
  intros Hwf Hid. rewrite insert_row_spec by exact Hwf.
  destruct Hwf as (Hs & Hsort & Hl).
  destruct (sqlite_seq t <? INT64_MAX)%Z eqn:Hlt; [|discriminate]. intros [= <-].
  apply Z.ltb_lt in Hlt. split; [simpl; lia|split]; simpl.
  - apply StronglySorted_snoc; [exact Hsort|].
    eapply Forall_impl; [|exact Hl]. intros r Hr. cbn beta in *. rewrite Hid. lia.
  - apply Forall_app; split.
    + eapply Forall_impl; [|exact Hl]. intros r Hr. cbn beta in *. lia.
    + constructor; [rewrite Hid; lia|constructor].
Qed.

Lemma StronglySorted_filter (R : A -> A -> Prop) (P : A -> bool) (l : list A) :
  StronglySorted R l -> StronglySorted R (List.filter P l).
Proof.
  induction 1 as [|a l Hl IH Ha]; simpl; [constructor|].
  destruct (P a); [|exact IH]. constructor; [exact IH|].
  apply Forall_forall. intros y Hy%filter_In. exact (proj1 (Forall_forall _ _) Ha y (proj1 Hy)).
Qed.

Lemma filter_wf (P : A -> bool) (t : table A) :
  table_wf t -> table_wf (mk_table (List.filter P (rows t)) (sqlite_seq t)).
Proof.
  intros (Hs & Hsort & Hl). split; [exact Hs|split]; simpl.
  - apply StronglySorted_filter, Hsort.
  - apply Forall_forall. intros y Hy%filter_In. exact (proj1 (Forall_forall _ _) Hl y (proj1 Hy)).
Qed.

Lemma map_wf (f : A -> A) (t : table A) :
  (forall r, id (f r) = id r) -> table_wf t -> table_wf (mk_table (map f (rows t)) (sqlite_seq t)).
Proof.
  intros Hf (Hs & Hsort & Hl). split; [exact Hs|split]; simpl.
  - induction Hsort as [|a l Hl' IH Ha]; simpl; constructor.
    + apply IH. inversion Hl; assumption.
    + apply Forall_map. eapply Forall_impl; [|exact Ha]. intros r. rewrite !Hf. auto.
  - apply Forall_map. eapply Forall_impl; [|exact Hl]. intros r. rewrite Hf. auto.
Qed.

Lemma empty_table_wf : table_wf empty_table.
Proof. split; [unfold INT64_MAX; simpl; lia|split; constructor]. Qed.

End TableWf.

#[export] Hint Resolve empty_table_wf filter_wf : delivery.

(** ** The database invariant *)

Definition package_ok (p : package) : Prop := tracking_number p <> None /\ status p <> None.
Definition courier_ok (c : courier) : Prop := name c <> None /\ courier_status c <> None.

(** What the schema and AUTOINCREMENT guarantee of every database the
    program builds: well-formed tables, tracking numbers unique (UNIQUE),
    and the NOT NULL columns filled. *)
Record db_wf (d : db) : Prop := {
  wf_packages : table_wf pkg_id (packages d);
  wf_couriers : table_wf courier_id (couriers d);
  wf_reviews : table_wf review_id (reviews d);
  wf_unique_tracking : NoDup (map tracking_number (rows (packages d)));
  wf_package_cols : Forall package_ok (rows (packages d));
  wf_courier_cols : Forall courier_ok (rows (couriers d))
}.

Lemma sql_eq_Some (a : text) (n : string) : sql_eq a (Some n) = true <-> a = Some n.
Proof.
  destruct a as [x|]; simpl; [|split; discriminate].
  rewrite String.eqb_eq. split; congruence.
Qed.

Lemma sql_eq_None_r (a : text) : sql_eq a NULL = false.
Proof. destruct a; reflexivity. Qed.

Lemma Forall_filter_bool {A} (P : A -> Prop) (f : A -> bool) (l : list A) :
  Forall P l -> Forall P (List.filter f l).
Proof.
  intros Hl. apply Forall_forall. intros y Hy%filter_In.
  exact (proj1 (Forall_forall _ _) Hl y (proj1 Hy)).
Qed.

Lemma existsb_tracking_false (rs : list package) (n : string) :
  existsb (fun p => sql_eq (tracking_number p) (Some n)) rs = false ->
  Some n ∉ map tracking_number rs.
Proof.
  intros Hex Hin. apply list_elem_of_In, in_map_iff in Hin as (p & Hp & Hin).
  assert (existsb (fun p => sql_eq (tracking_number p) (Some n)) rs = true) as Htrue
    by (apply existsb_exists; exists p; rewrite sql_eq_Some; auto).
  congruence.
Qed.

#[export] Hint Resolve Forall_filter_bool : delivery.

(** *** The operations, branch by branch, on a well-formed database *)

Lemma create_package_spec tn desc sdr rcp sa ra now d :
  db_wf d ->
  create_package tn desc sdr rcp sa ra now d =
  match tn with
  | None => (false, d)
  | Some _ =>
      if existsb (fun p => sql_eq (tracking_number p) tn) (rows (packages d)) then (false, d)
      else if (sqlite_seq (packages d) <? INT64_MAX)%Z then
        (true, set_packages d
           (mk_table (rows (packages d) ++
              [mk_package (sqlite_seq (packages d) + 1) tn desc (Some SENT) sdr rcp sa ra
                 (Some (adapt_datetime now))])%list
              (sqlite_seq (packages d) + 1)))
      else (false, d)
  end.
Proof.
  intros Hwf. unfold create_package, insert_package. destruct tn as [n|]; [|reflexivity].
  destruct existsb; [reflexivity|].
  rewrite insert_row_spec by apply Hwf. destruct (_ <? _)%Z; reflexivity.
Qed.

Lemma create_courier_spec nm ph em now d :
  db_wf d ->
  create_courier nm ph em now d =
  match nm with
  | None => (false, d)
  | Some _ =>
      if (sqlite_seq (couriers d) <? INT64_MAX)%Z then
        (true, set_couriers d
           (mk_table (rows (couriers d) ++
              [mk_courier (sqlite_seq (couriers d) + 1) nm ph em (Some ACTIVE)
                 (Some (adapt_datetime now))])%list
              (sqlite_seq (couriers d) + 1)))
      else (false, d)
  end.
Proof.
  intros Hwf. unfold create_courier, insert_courier. destruct nm as [n|]; [|reflexivity].
  rewrite insert_row_spec by apply Hwf. destruct (_ <? _)%Z; reflexivity.
Qed.

Lemma create_review_spec tn cn r cm now d :
  db_wf d ->
  create_review tn cn r cm now d =
  if in_int64 r then
    if (sqlite_seq (reviews d) <? INT64_MAX)%Z then
      (true, set_reviews d
         (mk_table (rows (reviews d) ++
            [mk_review (sqlite_seq (reviews d) + 1) tn cn r cm
               (Some (adapt_datetime now))])%list
            (sqlite_seq (reviews d) + 1)))
    else (false, d)
  else (false, d).
Proof.
  intros Hwf. unfold create_review, insert_review. destruct (in_int64 r); [|reflexivity].
  rewrite insert_row_spec by apply Hwf. destruct (_ <? _)%Z; reflexivity.
Qed.

(** *** Each mutating function preserves the invariant *)

Lemma initialize_db_wf (file : option db) :
  match file with Some d => db_wf d | None => True end -> db_wf (initialize_db file).
Proof.
  destruct file as [d|]; simpl; [tauto|intros _].
  split; simpl; auto using empty_table_wf; constructor.
Qed.

Lemma create_package_wf tn desc sdr rcp sa ra now d :
  db_wf d -> db_wf (snd (create_package tn desc sdr rcp sa ra now d)).
Proof.
  intros Hwf. unfold create_package.
  destruct (insert_package tn desc sdr rcp sa ra now (packages d)) as [e|t] eqn:Hins;
    [exact Hwf|].
  unfold insert_package in Hins. destruct tn as [n|]; [|discriminate].
  destruct existsb eqn:Hex; [discriminate|].
  pose proof Hins as Hins'. rewrite insert_row_spec in Hins' by apply Hwf.
  destruct (_ <? _)%Z; [|discriminate]. injection Hins' as <-.
  destruct Hwf as [Hp Hc Hr Hu Hpc Hcc]. split; simpl; try assumption.
  - eapply insert_row_wf; [exact Hp| |exact Hins]. reflexivity.
  - rewrite map_app. apply list.NoDup_app. split; [exact Hu|split; [|apply list.NoDup_singleton]].
    intros x Hx. simpl. rewrite list_elem_of_singleton. intros ->.
    exact (existsb_tracking_false _ _ Hex Hx).
  - apply Forall_app; split; [exact Hpc|repeat constructor; simpl; discriminate].
Qed.

Lemma update_package_status_wf tn st d :
  db_wf d -> db_wf (snd (update_package_status tn st d)).
Proof.
  intros Hwf. unfold update_package_status, update_status_rows.
  destruct (_ =? 0)%nat; [destruct Hwf; split; assumption|].
  destruct st as [s|]; [|exact Hwf].
  destruct Hwf as [Hp Hc Hr Hu Hpc Hcc]. split; simpl; try assumption.
  - apply map_wf; [|exact Hp]. intros p. destruct sql_eq; reflexivity.
  - rewrite map_map.
    erewrite map_ext; [exact Hu|]. intros p. destruct sql_eq; reflexivity.
  - apply Forall_map. eapply Forall_impl; [|exact Hpc].
    intros p [Htn Hst]. destruct sql_eq; split; simpl; congruence.
Qed.

Lemma create_courier_wf nm ph em now d :
  db_wf d -> db_wf (snd (create_courier nm ph em now d)).
Proof.
  intros Hwf. unfold create_courier.
  destruct (insert_courier nm ph em now (couriers d)) as [e|t] eqn:Hins; [exact Hwf|].
  unfold insert_courier in Hins. destruct nm as [n|]; [|discriminate].
  pose proof Hins as Hins'. rewrite insert_row_spec in Hins' by apply Hwf.
  destruct (_ <? _)%Z; [|discriminate]. injection Hins' as <-.
  destruct Hwf as [Hp Hc Hr Hu Hpc Hcc]. split; simpl; try assumption.
  - eapply insert_row_wf; [exact Hc| |exact Hins]. reflexivity.
  - apply Forall_app; split; [exact Hcc|repeat constructor; simpl; discriminate].
Qed.

Lemma delete_courier_wf cid d : db_wf d -> db_wf (snd (delete_courier cid d)).
Proof.
  intros Hwf. unfold delete_courier, delete_courier_rows.
  destruct (in_int64 cid); [|exact Hwf].
  destruct Hwf as [Hp Hc Hr Hu Hpc Hcc]. split; simpl; try assumption.
  - apply filter_wf, Hc.
  - apply Forall_filter_bool, Hcc.
Qed.

Lemma create_review_wf tn cn r cm now d :
  db_wf d -> db_wf (snd (create_review tn cn r cm now d)).
Proof.
  intros Hwf. unfold create_review.
  destruct (insert_review tn cn r cm now (reviews d)) as [e|t] eqn:Hins; [exact Hwf|].
  unfold insert_review in Hins. destruct (in_int64 r); [|discriminate].
  destruct Hwf as [Hp Hc Hr Hu Hpc Hcc]. split; simpl; try assumption.
  eapply insert_row_wf; [exact Hr| |exact Hins]. reflexivity.
Qed.

#[export] Hint Resolve create_package_wf update_package_status_wf create_courier_wf
  delete_courier_wf create_review_wf : delivery.

(** ** The BINARY collation is a total preorder *)

Lemma string_compare_le_trans (x y z : string) :
  String.compare x y <> Gt -> String.compare y z <> Gt -> String.compare x z <> Gt.
Proof.
  revert y z. induction x as [|a x IH]; intros [|b y] [|c z]; simpl; try congruence.
  unfold Ascii.compare.
  destruct (N.compare_spec (N_of_ascii a) (N_of_ascii b));
  destruct (N.compare_spec (N_of_ascii b) (N_of_ascii c));
  destruct (N.compare_spec (N_of_ascii a) (N_of_ascii c));
  intros Hxy Hyz; try congruence; try lia; eauto.
Qed.

Lemma text_leb_trans (a b c : text) :
  text_leb a b = true -> text_leb b c = true -> text_leb a c = true.
Proof.
  destruct a as [x|], b as [y|], c as [z|]; simpl; try congruence.
  intros Hxy Hyz.
  assert (String.compare x z <> Gt) as Hxz.
  { apply (string_compare_le_trans x y z);
      [destruct (String.compare x y)|destruct (String.compare y z)]; congruence. }
  destruct (String.compare x z); congruence.
Qed.

(** ** List helpers *)

Lemma find_none_existsb {A} (f : A -> bool) (l : list A) :
  List.find f l = None <-> existsb f l = false.
Proof.
  induction l as [|x l IH]; simpl; [tauto|].
  destruct (f x); simpl; [split; discriminate|exact IH].
Qed.

Lemma find_snoc_none {A} (f : A -> bool) (l : list A) (x : A) :
  existsb f l = false -> List.find f (l ++ [x])%list = if f x then Some x else None.
Proof.
  induction l as [|y l IH]; simpl; [reflexivity|].
  destruct (f y); simpl; [discriminate|exact IH].
Qed.

Lemma filter_all_true {A} (f : A -> bool) (l : list A) :
  (forall x, In x l -> f x = true) -> List.filter f l = l.
Proof.
  induction l as [|x l IH]; intros Hall; simpl; [reflexivity|].
  rewrite (Hall x (or_introl eq_refl)), IH by (intros y Hy; apply Hall; right; exact Hy).
  reflexivity.
Qed.

Lemma filter_length_lt {A} (f : A -> bool) (l : list A) (x : A) :
  In x l -> f x = false -> (length (List.filter f l) < length l)%nat.
Proof.
  induction l as [|y l IH]; intros Hin Hx; simpl in *; [contradiction|].
  pose proof (filter_length_le f l) as Hle.
  destruct Hin as [->|Hin]; [rewrite Hx; lia|].
  destruct (f y); simpl; [specialize (IH Hin Hx)|]; lia.
Qed.

Lemma set_couriers_same (d : db) : set_couriers d (couriers d) = d.
Proof. destruct d; reflexivity. Qed.

Lemma set_packages_same (d : db) : set_packages d (packages d) = d.
Proof. destruct d; reflexivity. Qed.

Lemma mk_table_eta {A} (t : table A) : mk_table (rows t) (sqlite_seq t) = t.
Proof. destruct t; reflexivity. Qed.

(** *** What each function leaves alone *)

Lemma insert_row_rows {A} (id : A -> Z) (mk : Z -> A) (t t' : table A) :
  insert_row id mk t = inr t' ->
  exists i, rows t' = (rows t ++ [mk i])%list /\ sqlite_seq t' = i /\ (sqlite_seq t < i)%Z.
Proof.
  unfold insert_row, next_rowid. destruct (_ <? _)%Z; [|discriminate].
  intros [= <-]. eexists. split; [reflexivity|]. simpl. lia.
Qed.

(** Packages: only [create_package] appends and [update_package_status]
    rewrites statuses; the other tables are untouched by both. *)
Lemma create_package_tables tn desc sdr rcp sa ra now d :
  let d' := snd (create_package (Some tn) desc sdr rcp sa ra now d) in
  couriers d' = couriers d /\ reviews d' = reviews d
  /\ (rows (packages d') = rows (packages d)
      \/ exists i, rows (packages d') = (rows (packages d) ++
           [mk_package i (Some tn) desc (Some SENT) sdr rcp sa ra
              (Some (adapt_datetime now))])%list).
Proof.
  unfold create_package, insert_package.
  destruct existsb; [simpl; auto|].
  destruct (insert_row _ _ _) as [e|t] eqn:Hins; simpl; [auto|].
  apply insert_row_rows in Hins as (i & Hrows & _). eauto.
Qed.

Lemma update_package_status_tables tn st d :
  let d' := snd (update_package_status tn st d) in
  couriers d' = couriers d /\ reviews d' = reviews d
  /\ (rows (packages d') = rows (packages d)
      \/ rows (packages d') = map (fun p => if sql_eq (tracking_number p) tn
                                            then set_status st p else p) (rows (packages d))).
Proof.
  unfold update_package_status, update_status_rows.
  destruct (_ =? 0)%nat; [simpl; auto|]. destruct st; simpl; auto.
Qed.

Lemma create_courier_tables nm ph em now d :
  let d' := snd (create_courier nm ph em now d) in
  packages d' = packages d /\ reviews d' = reviews d
  /\ (couriers d' = couriers d
      \/ exists i, rows (couriers d') = (rows (couriers d) ++
           [mk_courier i nm ph em (Some ACTIVE) (Some (adapt_datetime now))])%list
           /\ sqlite_seq (couriers d') = i /\ (sqlite_seq (couriers d) < i)%Z).
Proof.
  unfold create_courier, insert_courier. destruct nm as [n|]; [|simpl; auto].
  destruct (insert_row _ _ _) as [e|t] eqn:Hins; simpl; [auto|].
  apply insert_row_rows in Hins. auto.
Qed.

Lemma delete_courier_tables cid d :
  let d' := snd (delete_courier cid d) in
  packages d' = packages d /\ reviews d' = reviews d
  /\ sqlite_seq (couriers d') = sqlite_seq (couriers d)
  /\ forall c, In c (rows (couriers d')) -> In c (rows (couriers d)).
Proof.
  unfold delete_courier, delete_courier_rows. destruct (in_int64 cid); simpl; [|auto].
  repeat split; try reflexivity. intros c Hc%filter_In. tauto.
Qed.

Lemma create_review_tables tn cn r cm now d :
  let d' := snd (create_review tn cn r cm now d) in
  packages d' = packages d /\ couriers d' = couriers d
  /\ (rows (reviews d') = rows (reviews d)
      \/ exists i, rows (reviews d') = (rows (reviews d) ++
           [mk_review i tn cn r cm (Some (adapt_datetime now))])%list).
Proof.
  unfold create_review, insert_review. destruct (in_int64 r); [|simpl; auto].
  destruct (insert_row _ _ _) as [e|t] eqn:Hins; simpl; [auto|].
  apply insert_row_rows in Hins as (i & Hrows & _). eauto.
Qed.

(** Two rows of a well-formed table with the same rowid are the same row. *)
Lemma table_wf_id_unique {A} (id : A -> Z) (t : table A) (a b : A) :
  table_wf id t -> In a (rows t) -> In b (rows t) -> id a = id b -> a = b.
Proof.
  intros (_ & Hsort & _). induction Hsort as [|x l Hl IH Hx]; [contradiction|].
  intros [<-|Ha] [<-|Hb] Hid; auto.
  - pose proof (proj1 (Forall_forall _ _) Hx b Hb). cbn beta in *. lia.
  - pose proof (proj1 (Forall_forall _ _) Hx a Ha). cbn beta in *. lia.
Qed.

Lemma set_status_eta (p : package) : set_status (status p) p = p.
Proof. destruct p; reflexivity. Qed.

Lemma set_status_twice (s1 s2 : text) (p : package) :
  set_status s2 (set_status s1 p) = set_status s2 p.
Proof. reflexivity. Qed.

(** ** Properties of database.py *)

(** C7: every function of database.py that writes ([create_package],
    [update_package_status], [create_courier], [delete_courier],
    [create_review]) maps a well-formed database to a well-formed one:
    tracking numbers stay unique, NOT NULL columns stay filled, rowids stay
    increasing and bounded by [sqlite_sequence]. *)
Theorem store_ops_preserve_wf (d : db) :
  db_wf d ->
  (forall tn desc sdr rcp sa ra now, db_wf (snd (create_package tn desc sdr rcp sa ra now d)))
  /\ (forall tn st, db_wf (snd (update_package_status tn st d)))
  /\ (forall nm ph em now, db_wf (snd (create_courier nm ph em now d)))
  /\ (forall cid, db_wf (snd (delete_courier cid d)))
  /\ (forall tn cn r cm now, db_wf (snd (create_review tn cn r cm now d))).
Proof.
  intros Hwf. split; [|split; [|split; [|split]]]; intros; auto with delivery.
Qed.

(** What a successful [create_package] did: the number was free, and the
    new row is appended and found by [get_package_by_tracking]. *)
Lemma create_package_true (tn : string) desc sdr rcp sa ra now d d' :
  db_wf d ->
  create_package (Some tn) desc sdr rcp sa ra now d = (true, d') ->
  let row := mk_package (sqlite_seq (packages d) + 1) (Some tn) desc (Some SENT)
               sdr rcp sa ra (Some (adapt_datetime now)) in
  get_package_by_tracking (Some tn) d = None
  /\ d' = set_packages d (mk_table (rows (packages d) ++ [row])%list
                                    (sqlite_seq (packages d) + 1))
  /\ get_package_by_tracking (Some tn) d' = Some row.
Proof.
  intros Hwf. rewrite create_package_spec by exact Hwf.
  destruct existsb eqn:Hex; [discriminate|].
  destruct (_ <? _)%Z; [|discriminate]. intros [= <-]. cbv zeta.
  unfold get_package_by_tracking. rewrite find_none_existsb. split; [exact Hex|].
  split; [reflexivity|]. simpl.
  rewrite find_snoc_none by exact Hex. simpl. rewrite String.eqb_refl. reflexivity.
Qed.

(** C12: a package inserted under a fresh tracking number is what
    [get_package_by_tracking] returns for that number afterwards: the next
    rowid, the given description, sender, recipient and addresses, status
    "Отправлена" and the insertion time. *)
Theorem create_package_then_get (tn : string) desc sdr rcp sa ra now d :
  db_wf d ->
  get_package_by_tracking (Some tn) d = None ->
  (sqlite_seq (packages d) < INT64_MAX)%Z ->
  let '(ok, d') := create_package (Some tn) desc sdr rcp sa ra now d in
  ok = true
  /\ get_package_by_tracking (Some tn) d'
     = Some (mk_package (sqlite_seq (packages d) + 1) (Some tn) desc (Some SENT)
               sdr rcp sa ra (Some (adapt_datetime now))).
Proof.
  intros Hwf Hnone Hroom.
  assert (create_package (Some tn) desc sdr rcp sa ra now d
          = (true, set_packages d
               (mk_table (rows (packages d) ++
                  [mk_package (sqlite_seq (packages d) + 1) (Some tn) desc (Some SENT)
                     sdr rcp sa ra (Some (adapt_datetime now))])%list
                  (sqlite_seq (packages d) + 1)))) as Hok.
  { rewrite create_package_spec by exact Hwf.
    unfold get_package_by_tracking in Hnone. apply find_none_existsb in Hnone.
    rewrite Hnone. apply Z.ltb_lt in Hroom. rewrite Hroom. reflexivity. }
  rewrite Hok. split; [reflexivity|].
  apply (create_package_true tn desc sdr rcp sa ra now d _ Hwf Hok).
Qed.

(** C9: inserting a package under a tracking number that is already
    stored fails (UNIQUE constraint) and leaves the database unchanged. *)
Theorem create_package_duplicate (tn : string) p desc sdr rcp sa ra now d :
  db_wf d ->
  get_package_by_tracking (Some tn) d = Some p ->
  create_package (Some tn) desc sdr rcp sa ra now d = (false, d).
Proof.
  intros Hwf Hsome. rewrite create_package_spec by exact Hwf.
  destruct existsb eqn:Hex; [reflexivity|].
  apply find_none_existsb in Hex. unfold get_package_by_tracking in Hsome. congruence.
Qed.

(** C5: [delete_courier] of an id no courier has reports failure and
    changes nothing; of an id a courier has, it reports success and the
    next [get_all_couriers] lists no courier with that id. *)
Theorem delete_courier_behaviour (cid : Z) (d : db) :
  db_wf d ->
  ((forall c, In c (rows (couriers d)) -> courier_id c <> cid) ->
   delete_courier cid d = (false, d))
  /\ ((exists c, In c (rows (couriers d)) /\ courier_id c = cid) ->
      fst (delete_courier cid d) = true
      /\ forall c, In c (get_all_couriers (snd (delete_courier cid d))) -> courier_id c <> cid).
Proof.
  intros Hwf. unfold delete_courier, delete_courier_rows. split.
  - intros Hnone. destruct (in_int64 cid); [|reflexivity].
    rewrite filter_all_true, Nat.sub_diag, mk_table_eta, set_couriers_same; [reflexivity|].
    intros c Hc. apply negb_true_iff, Z.eqb_neq, Hnone, Hc.
  - intros (c & Hin & <-).
    destruct (wf_couriers d Hwf) as (Hs & _ & Hids).
    pose proof (proj1 (Forall_forall _ _) Hids c Hin) as Hc. cbn beta in Hc.
    replace (in_int64 (courier_id c)) with true
      by (symmetry; apply in_int64_spec; unfold INT64_MIN in *; lia).
    split.
    + simpl. apply Nat.ltb_lt.
      pose proof (filter_length_lt (fun c' => negb (courier_id c' =? courier_id c)%Z)
                    (rows (couriers d)) c Hin) as Hlt.
      specialize (Hlt ltac:(cbn beta; rewrite Z.eqb_refl; reflexivity)). lia.
    + intros c' Hc'. unfold get_all_couriers in Hc'. simpl in Hc'.
      apply (Permutation_in _ (Permutation_sym (sort_by_perm _ _))) in Hc'.
      apply filter_In in Hc' as [_ Hneq]. apply negb_true_iff, Z.eqb_neq in Hneq. exact Hneq.
Qed.

(** C14: AUTOINCREMENT in [create_courier].  Once rowid 2^63-1 has been
    used, every insert fails with SQLITE_FULL and nothing changes;
    otherwise the new courier gets rowid [sqlite_sequence + 1], larger than
    the rowid of every courier in the table, with the DEFAULT status. *)
Theorem create_courier_rowid (nm : string) ph em now (d : db) :
  db_wf d ->
  (sqlite_seq (couriers d) = INT64_MAX -> create_courier (Some nm) ph em now d = (false, d))
  /\ ((sqlite_seq (couriers d) < INT64_MAX)%Z ->
      exists c, create_courier (Some nm) ph em now d
                = (true, set_couriers d (mk_table (rows (couriers d) ++ [c])%list (courier_id c)))
             /\ courier_id c = (sqlite_seq (couriers d) + 1)%Z
             /\ name c = Some nm /\ courier_status c = Some ACTIVE
             /\ Forall (fun c' => courier_id c' < courier_id c)%Z (rows (couriers d))).
Proof.
  intros Hwf. rewrite create_courier_spec by exact Hwf. split.
  - intros ->. rewrite Z.ltb_irrefl. reflexivity.
  - intros Hroom. apply Z.ltb_lt in Hroom as Hb. rewrite Hb.
    exists (mk_courier (sqlite_seq (couriers d) + 1) (Some nm) ph em (Some ACTIVE)
              (Some (adapt_datetime now))).
    split; [reflexivity|]. simpl. do 3 (split; [reflexivity|]).
    destruct (wf_couriers d Hwf) as (_ & _ & Hids).
    eapply Forall_impl; [|exact Hids]. cbn beta. lia.
Qed.

(** C15: [get_all_couriers] meets the contract of ORDER BY name: it
    returns exactly the rows of the table (a permutation), and every
    courier comes before the ones after it in the BINARY collation of
    their names. *)
Theorem get_all_couriers_ordered (d : db) :
  Permutation (rows (couriers d)) (get_all_couriers d)
  /\ StronglySorted (fun c1 c2 => text_leb (name c1) (name c2) = true) (get_all_couriers d).
Proof.
  split; [apply sort_by_perm|].
  apply Sorted_StronglySorted; [|apply sort_by_sorted].
  - intros c1 c2 c3. apply text_leb_trans.
  - intros c1 c2. apply text_leb_total.
Qed.

Lemma find_map_same {A} (f : A -> bool) (g : A -> A) (l : list A) :
  (forall x, f (g x) = f x) -> List.find f (map g l) = option_map g (List.find f l).
Proof.
  intros Hfg. induction l as [|x l IH]; simpl; [reflexivity|].
  rewrite Hfg. destruct (f x); [reflexivity|exact IH].
Qed.

Lemma find_none_filter {A} (f : A -> bool) (l : list A) :
  List.find f l = None -> List.filter f l = [].
Proof.
  induction l as [|x l IH]; simpl; [reflexivity|].
  destruct (f x); [discriminate|exact IH].
Qed.

(** C13: [update_package_status] on a stored tracking number sets that
    package's status and nothing else and reports success; on an unknown
    number it reports failure and changes nothing; writing NULL is refused
    (NOT NULL) and changes nothing. *)
Theorem update_package_status_behaviour (tn st : string) (d : db) :
  db_wf d ->
  (get_package_by_tracking (Some tn) d = None ->
   update_package_status (Some tn) (Some st) d = (false, d))
  /\ (forall p, get_package_by_tracking (Some tn) d = Some p ->
      let '(ok, d') := update_package_status (Some tn) (Some st) d in
      ok = true /\ get_package_by_tracking (Some tn) d' = Some (set_status (Some st) p))
  /\ update_package_status (Some tn) NULL d = (false, d).
Proof.
  intros Hwf. unfold update_package_status, update_status_rows, get_package_by_tracking.
  split; [|split].
  - intros Hnone. rewrite (find_none_filter _ _ Hnone). simpl. apply pair_equal_spec.
    split; [reflexivity|apply set_packages_same].
  - intros p Hp. pose proof (find_some _ _ Hp) as [Hin Hf].
    assert (In p (List.filter (fun p => sql_eq (tracking_number p) (Some tn))
                    (rows (packages d)))) as Hinf by (apply filter_In; auto).
    destruct (List.filter _ _) as [|q qs]; [contradiction|]. simpl.
    split; [reflexivity|].
    rewrite find_map_same, Hp; [simpl; rewrite Hf; reflexivity|].
    intros x. destruct (sql_eq (tracking_number x) (Some tn)) eqn:Hx; [|rewrite Hx; reflexivity].
    exact Hx.
  - destruct (length _ =? 0)%nat; [|reflexivity].
    apply pair_equal_spec. split; [reflexivity|apply set_packages_same].
Qed.

(** ** A database built by the program, and witnesses *)

Definition sample_now : datetime := mk_datetime 2024 5 7 9 3 0 42.

Definition sample_db : db :=
  snd (create_courier (Some "Иван") (Some "+7 900 000-00-00") NULL sample_now
    (snd (create_package (Some "AB-123456") (Some "Книги") (Some "Анна") (Some "Борис")
            (Some "Москва") (Some "Казань") sample_now (initialize_db None)))).

Lemma sample_db_wf : db_wf sample_db.
Proof. apply create_courier_wf, create_package_wf, initialize_db_wf. exact I. Qed.

Example sample_db_contents :
  map courier_id (rows (couriers sample_db)) = [1%Z]
  /\ map tracking_number (rows (packages sample_db)) = [Some "AB-123456"].
Proof. split; reflexivity. Qed.

Lemma store_ops_preserve_wf_witness :
  db_wf sample_db /\ db_wf (snd (delete_courier 1 sample_db)).
Proof.
  split; [exact sample_db_wf|].
  apply (store_ops_preserve_wf sample_db sample_db_wf).
Defined.

Lemma create_package_then_get_witness :
  db_wf sample_db
  /\ get_package_by_tracking (Some "XY-000001") sample_db = None
  /\ (sqlite_seq (packages sample_db) < INT64_MAX)%Z
  /\ (let '(ok, d') := create_package (Some "XY-000001") (Some "Чай") (Some "Вера")
                         (Some "Глеб") NULL NULL sample_now sample_db in
      ok = true
      /\ get_package_by_tracking (Some "XY-000001") d'
         = Some (mk_package (sqlite_seq (packages sample_db) + 1) (Some "XY-000001")
                   (Some "Чай") (Some SENT) (Some "Вера") (Some "Глеб") NULL NULL
                   (Some (adapt_datetime sample_now)))).
Proof.
  split; [exact sample_db_wf|split; [reflexivity|split; [vm_compute; reflexivity|]]].
  apply create_package_then_get; [exact sample_db_wf|reflexivity|vm_compute; reflexivity].
Defined.

Lemma create_package_duplicate_witness :
  db_wf sample_db
  /\ get_package_by_tracking (Some "AB-123456") sample_db
     = List.head (rows (packages sample_db))
  /\ create_package (Some "AB-123456") (Some "Чай") (Some "Вера") (Some "Глеб") NULL NULL
       sample_now sample_db = (false, sample_db).
Proof.
  split; [exact sample_db_wf|split; [reflexivity|]].
  eapply create_package_duplicate; [exact sample_db_wf|reflexivity].
Defined.

Lemma delete_courier_behaviour_witness :
  db_wf sample_db
  /\ delete_courier 7 sample_db = (false, sample_db)
  /\ fst (delete_courier 1 sample_db) = true.
Proof.
  split; [exact sample_db_wf|].
  destruct (delete_courier_behaviour 7 sample_db sample_db_wf) as [Hno _].
  destruct (delete_courier_behaviour 1 sample_db sample_db_wf) as [_ Hyes].
  split.
  - apply Hno. intros c [<-|[]]. discriminate.
  - apply Hyes. eexists. split; [left; reflexivity|reflexivity].
Defined.

Lemma create_courier_rowid_witness :
  db_wf sample_db /\ (sqlite_seq (couriers sample_db) < INT64_MAX)%Z
  /\ exists c, create_courier (Some "Олег") NULL NULL sample_now sample_db
               = (true, set_couriers sample_db
                          (mk_table (rows (couriers sample_db) ++ [c])%list (courier_id c)))
             /\ courier_id c = 2%Z.
Proof.
  split; [exact sample_db_wf|split; [vm_compute; reflexivity|]].
  destruct (create_courier_rowid "Олег" NULL NULL sample_now sample_db sample_db_wf)
    as [_ Hroom].
  destruct (Hroom ltac:(vm_compute; reflexivity)) as (c & Hc & Hid & _).
  exists c. split; [exact Hc|rewrite Hid; reflexivity].
Defined.

Lemma update_package_status_behaviour_witness :
  db_wf sample_db
  /\ update_package_status (Some "ZZ-999999") (Some "Доставлена") sample_db = (false, sample_db)
  /\ update_package_status (Some "AB-123456") NULL sample_db = (false, sample_db).
Proof.
  split; [exact sample_db_wf|].
  destruct (update_package_status_behaviour "ZZ-999999" "Доставлена" sample_db sample_db_wf)
    as [Hno _].
  destruct (update_package_status_behaviour "AB-123456" "Доставлена" sample_db sample_db_wf)
    as (_ & _ & Hnull).
  split; [apply Hno; reflexivity|exact Hnull].
Defined.
