(* ===== verification/StoreMap.v ===== *)
(** * The packages and couriers tables as finite maps

    What database.py promises of its [packages] and [couriers] tables,
    stated on finite maps (stdpp [gmap]): the packages under their tracking
    numbers, the couriers under their ids, each with its AUTOINCREMENT
    counter.  [create_package] inserts under a new key (and refuses a key
    already present, a NULL key or a full rowid space),
    [update_package_status] alters the row under a present key,
    [get_package_by_tracking] is a lookup, [create_courier] inserts under
    the next id, [delete_courier] deletes a key.  [abs] reads the abstract
    state off a database; the refinement theorem shows that any sequence of
    these calls on a well-formed database answers as the map operations do
    and leaves the database whose abstraction is the state they compute.

    The section [TableMap] holds what both tables share: a table read as
    the map from the key of each row ([table_map]), and how appending,
    rewriting and filtering rows act on it. *)

From stdpp Require Import gmap.
From S2P Require Import Prelude Clock Store.

(** ** A table as a finite map *)

Section TableMap.
Context {A K : Type} `{Countable K}.
Variable key : A -> option K.

Definition keyed (a : A) : option (K * A) := (fun k => (k, a)) <$> key a.

(** The rows under their keys; the first row wins where two share one, as
    [fetchone()] does. *)
Definition table_map (l : list A) : gmap K A := list_to_map (omap keyed l).

Definition key_is (k : K) (a : A) : bool := bool_decide (key a = Some k).

Lemma lookup_table_map (l : list A) (k : K) : table_map l !! k = List.find (key_is k) l.
Proof.
  induction l as [|a l IH]; [reflexivity|]. unfold table_map in *.
  cbn [omap list_omap List.find]. unfold keyed at 1, key_is at 1.
  destruct (key a) as [k'|]; cbn [fmap option_fmap option_map]; [|exact IH].
  rewrite list_to_map_cons, lookup_insert.
  destruct (decide (k' = k)) as [->|Hne]; [rewrite bool_decide_true; reflexivity|].
  rewrite bool_decide_false by congruence. exact IH.
Qed.

Lemma find_app_first (f : A -> bool) (l1 l2 : list A) :
  List.find f (l1 ++ l2)%list
  = match List.find f l1 with Some x => Some x | None => List.find f l2 end.
Proof. induction l1 as [|x l1 IH]; simpl; [reflexivity|]. destruct (f x); [reflexivity|exact IH]. Qed.

(** Appending a row under a key not yet present inserts it. *)
Lemma table_map_snoc (l : list A) (a : A) (k : K) :
  key a = Some k -> table_map l !! k = None ->
  table_map (l ++ [a])%list = <[k := a]> (table_map l).
Proof.
  intros Hk Hnone. apply map_eq. intros j.
  rewrite lookup_table_map, find_app_first, lookup_insert, lookup_table_map.
  rewrite lookup_table_map in Hnone. cbn [List.find]. unfold key_is at 2. rewrite Hk.
  destruct (decide (k = j)) as [<-|Hne].
  - rewrite Hnone, bool_decide_true by reflexivity. reflexivity.
  - rewrite bool_decide_false by congruence. destruct (List.find (key_is j) l); reflexivity.
Qed.

(** Rewriting the rows under one key alters the map there. *)
Lemma table_map_alter (l : list A) (k : K) (h : A -> A) :
  (forall a, key (h a) = key a) ->
  table_map (map (fun a => if key_is k a then h a else a) l) = alter h k (table_map l).
Proof.
  intros Hh. apply map_eq. intros j.
  rewrite lookup_table_map, find_map_same, lookup_alter, !lookup_table_map
    by (intros a; unfold key_is; destruct (bool_decide (key a = Some k)); [rewrite Hh|]; reflexivity).
  destruct (List.find (key_is j) l) as [a|] eqn:Ef;
    [|destruct decide as [<-|]; [rewrite Ef|]; reflexivity].
  pose proof (find_some _ _ Ef) as [_ Hj]. unfold key_is in Hj. apply bool_decide_eq_true in Hj.
  cbn [option_map]. unfold key_is at 1. rewrite Hj.
  destruct (decide (k = j)) as [<-|Hne].
  - rewrite bool_decide_true, Ef by reflexivity. reflexivity.
  - rewrite bool_decide_false by congruence. reflexivity.
Qed.

(** Dropping the rows under one key deletes it. *)
Lemma table_map_filter (l : list A) (k : K) :
  table_map (List.filter (fun a => negb (key_is k a)) l) = delete k (table_map l).
Proof.
  apply map_eq. intros j. rewrite lookup_table_map, lookup_delete, lookup_table_map.
  induction l as [|a l IH]; [destruct decide; reflexivity|]. cbn [List.filter List.find].
  destruct (decide (k = j)) as [<-|Hne].
  - destruct (key_is k a) eqn:Ea; cbn [negb]; [exact IH|]. cbn [List.find]. rewrite Ea. exact IH.
  - destruct (key_is k a) eqn:Ea; cbn [negb List.find].
    + replace (key_is j a) with false; [exact IH|].
      unfold key_is in *. apply bool_decide_eq_true in Ea. rewrite Ea.
      symmetry. apply bool_decide_false. congruence.
    + destruct (key_is j a); [reflexivity|exact IH].
Qed.

(** Some row is under a key exactly when the key is present. *)
Lemma count_key_present (l : list A) (k : K) :
  (0 < length l - length (List.filter (fun a => negb (key_is k a)) l))%nat
  <-> is_Some (table_map l !! k).
Proof.
  rewrite lookup_table_map.
  induction l as [|a l IH]; cbn [List.filter List.find length];
    [split; [lia|intros []; discriminate]|].
  pose proof (filter_length_le (fun a => negb (key_is k a)) l).
  destruct (key_is k a); cbn [negb length]; [split; [eauto|lia]|].
  rewrite <- IH. lia.
Qed.

End TableMap.

(** ** The abstract state *)

Definition package_map (d : db) : gmap string package :=
  table_map tracking_number (rows (packages d)).

Definition courier_key (c : courier) : option Z := Some (courier_id c).

Definition courier_map (d : db) : gmap Z courier := table_map courier_key (rows (couriers d)).

(** A table seen as a map with its AUTOINCREMENT counter. *)
Record tstate (K V : Type) `{Countable K} := mk_tstate { tmap : gmap K V; tseq : Z }.
Arguments mk_tstate {K V _ _}.
Arguments tmap {K V _ _}.
Arguments tseq {K V _ _}.

Record astate := mk_astate {
  a_packages : tstate string package;
  a_couriers : tstate Z courier
}.

Definition abs (d : db) : astate :=
  mk_astate (mk_tstate (package_map d) (sqlite_seq (packages d)))
            (mk_tstate (courier_map d) (sqlite_seq (couriers d))).

(** ** The abstract operations *)

Definition new_package (i : Z) (tn desc sdr rcp sa ra : text) (now : datetime) : package :=
  mk_package i tn desc (Some SENT) sdr rcp sa ra (Some (adapt_datetime now)).

Definition spec_create (tn desc sdr rcp sa ra : text) (now : datetime)
  (s : tstate string package) : bool * tstate string package :=
  match tn with
  | None => (false, s)
  | Some k =>
      match tmap s !! k with
      | Some _ => (false, s)
      | None =>
          if (tseq s <? INT64_MAX)%Z then
            let i := (tseq s + 1)%Z in
            (true, mk_tstate (<[k := new_package i tn desc sdr rcp sa ra now]> (tmap s)) i)
          else (false, s)
      end
  end.

Definition spec_update (tn st : text) (s : tstate string package) : bool * tstate string package :=
  match tn, st with
  | Some k, Some _ =>
      match tmap s !! k with
      | Some _ => (true, mk_tstate (alter (set_status st) k (tmap s)) (tseq s))
      | None => (false, s)
      end
  | _, _ => (false, s)
  end.

Definition spec_get (tn : text) (s : tstate string package) : option package :=
  match tn with Some k => tmap s !! k | None => None end.

Definition spec_add_courier (nm ph em : text) (now : datetime) (s : tstate Z courier)
  : bool * tstate Z courier :=
  match nm with
  | None => (false, s)
  | Some _ =>
      if (tseq s <? INT64_MAX)%Z then
        let i := (tseq s + 1)%Z in
        (true, mk_tstate (<[i := mk_courier i nm ph em (Some ACTIVE) (Some (adapt_datetime now))]>
                            (tmap s)) i)
      else (false, s)
  end.

Definition spec_delete_courier (cid : Z) (s : tstate Z courier) : bool * tstate Z courier :=
  if in_int64 cid then (bool_decide (is_Some (tmap s !! cid)), mk_tstate (delete cid (tmap s)) (tseq s))
  else (false, s).

(** ** Sequences of calls *)

Inductive store_call :=
| CallCreate (tn desc sdr rcp sa ra : text) (now : datetime)
| CallUpdate (tn st : text)
| CallGet (tn : text)
| CallAddCourier (nm ph em : text) (now : datetime)
| CallDeleteCourier (cid : Z).

Inductive store_answer := AnsBool (b : bool) | AnsPackage (p : option package).

Definition impl_call (c : store_call) (d : db) : store_answer * db :=
  match c with
  | CallCreate tn desc sdr rcp sa ra now =>
      let '(b, d') := create_package tn desc sdr rcp sa ra now d in (AnsBool b, d')
  | CallUpdate tn st => let '(b, d') := update_package_status tn st d in (AnsBool b, d')
  | CallGet tn => (AnsPackage (get_package_by_tracking tn d), d)
  | CallAddCourier nm ph em now => let '(b, d') := create_courier nm ph em now d in (AnsBool b, d')
  | CallDeleteCourier cid => let '(b, d') := delete_courier cid d in (AnsBool b, d')
  end.

Definition spec_call (c : store_call) (s : astate) : store_answer * astate :=
  match c with
  | CallCreate tn desc sdr rcp sa ra now =>
      let '(b, p) := spec_create tn desc sdr rcp sa ra now (a_packages s) in
      (AnsBool b, mk_astate p (a_couriers s))
  | CallUpdate tn st =>
      let '(b, p) := spec_update tn st (a_packages s) in (AnsBool b, mk_astate p (a_couriers s))
  | CallGet tn => (AnsPackage (spec_get tn (a_packages s)), s)
  | CallAddCourier nm ph em now =>
      let '(b, c) := spec_add_courier nm ph em now (a_couriers s) in
      (AnsBool b, mk_astate (a_packages s) c)
  | CallDeleteCourier cid =>
      let '(b, c) := spec_delete_courier cid (a_couriers s) in (AnsBool b, mk_astate (a_packages s) c)
  end.

Fixpoint impl_run (cs : list store_call) (d : db) : list store_answer * db :=
  match cs with
  | [] => ([], d)
  | c :: cs' =>
      let '(a, d1) := impl_call c d in
      let '(as_, d2) := impl_run cs' d1 in (a :: as_, d2)
  end.

Fixpoint spec_run (cs : list store_call) (s : astate) : list store_answer * astate :=
  match cs with
  | [] => ([], s)
  | c :: cs' =>
      let '(a, s1) := spec_call c s in
      let '(as_, s2) := spec_run cs' s1 in (a :: as_, s2)
  end.

(** ** The SQL conditions as keys *)

Lemma find_ext_eq {A} (f g : A -> bool) (l : list A) :
  (forall x, f x = g x) -> List.find f l = List.find g l.
Proof. intros Hfg. induction l as [|x l IH]; simpl; [reflexivity|]. rewrite Hfg, IH. reflexivity. Qed.

Lemma filter_nil_find {A} (f : A -> bool) (l : list A) :
  List.filter f l = [] -> List.find f l = None.
Proof.
  induction l as [|x l IH]; simpl; [reflexivity|].
  destruct (f x); [discriminate|exact IH].
Qed.

Lemma sql_eq_key (a : text) (k : string) : sql_eq a (Some k) = bool_decide (a = Some k).
Proof.
  destruct a as [x|]; [|rewrite bool_decide_false by discriminate; reflexivity].
  simpl. destruct (String.eqb_spec x k), (bool_decide_reflect (Some x = Some k)); congruence.
Qed.

Lemma courier_id_key (cid : Z) (c : courier) : Z.eqb (courier_id c) cid = key_is courier_key cid c.
Proof.
  unfold key_is, courier_key.
  destruct (Z.eqb_spec (courier_id c) cid), (bool_decide_reflect (Some (courier_id c) = Some cid));
    congruence.
Qed.

(** The lookup in the map is the [SELECT ... WHERE tracking_number = ?]
    with [fetchone()]. *)
Lemma package_map_lookup (d : db) (k : string) :
  package_map d !! k = get_package_by_tracking (Some k) d.
Proof.
  unfold package_map, get_package_by_tracking. rewrite lookup_table_map.
  apply find_ext_eq. intros p. unfold key_is. symmetry. apply sql_eq_key.
Qed.

Lemma find_sql_null (l : list package) :
  List.find (fun p => sql_eq (tracking_number p) NULL) l = None.
Proof. induction l as [|p l IH]; simpl; [reflexivity|]. rewrite sql_eq_None_r. exact IH. Qed.

(** The id AUTOINCREMENT gives next is not in the table. *)
Lemma courier_map_fresh (d : db) :
  db_wf d -> courier_map d !! (sqlite_seq (couriers d) + 1)%Z = None.
Proof.
  intros Hwf. destruct (wf_couriers d Hwf) as (_ & _ & Hl). unfold courier_map.
  rewrite lookup_table_map. induction Hl as [|c l Hc Hl IH]; [reflexivity|].
  cbn [List.find]. unfold key_is at 1, courier_key.
  rewrite bool_decide_false by (intros [= E]; lia). exact IH.
Qed.

(** ** Each call refines its map operation *)

Lemma spec_get_abs (tn : text) (d : db) :
  spec_get tn (a_packages (abs d)) = get_package_by_tracking tn d.
Proof. destruct tn as [k|]; [apply package_map_lookup|]. symmetry. apply find_sql_null. Qed.

Lemma create_package_abs tn desc sdr rcp sa ra now d :
  db_wf d ->
  let '(b, d') := create_package tn desc sdr rcp sa ra now d in
  (b, a_packages (abs d')) = spec_create tn desc sdr rcp sa ra now (a_packages (abs d))
  /\ a_couriers (abs d') = a_couriers (abs d).
Proof.
  intros Hwf. rewrite (create_package_spec _ _ _ _ _ _ _ _ Hwf).
  destruct tn as [k|]; [|split; reflexivity]. cbn [spec_create a_packages abs tmap tseq].
  rewrite package_map_lookup. unfold get_package_by_tracking.
  destruct (existsb _ _) eqn:Ex.
  - destruct (List.find _ _) eqn:Ef; [split; reflexivity|].
    apply find_none_existsb in Ef. congruence.
  - pose proof (proj2 (find_none_existsb _ _) Ex) as Ef. rewrite Ef.
    destruct (_ <? _)%Z; [|split; reflexivity]. split; [|reflexivity].
    unfold abs, package_map. cbn [packages set_packages rows sqlite_seq a_packages].
    rewrite (table_map_snoc _ _ _ k); [reflexivity..|].
    change (package_map d !! k = None). rewrite package_map_lookup. exact Ef.
Qed.

Lemma update_package_status_abs tn st d :
  let '(b, d') := update_package_status tn st d in
  (b, a_packages (abs d')) = spec_update tn st (a_packages (abs d))
  /\ a_couriers (abs d') = a_couriers (abs d).
Proof.
  unfold update_package_status, update_status_rows, spec_update. cbn [a_packages abs tmap tseq].
  destruct tn as [k|].
  - rewrite package_map_lookup. unfold get_package_by_tracking.
    destruct (List.find _ _) as [p|] eqn:Ef.
    + destruct (length (List.filter _ _) =? 0)%nat eqn:Hn.
      { apply Nat.eqb_eq, length_zero_iff_nil in Hn.
        apply filter_nil_find in Hn. congruence. }
      destruct st as [s|]; [|split; reflexivity]. apply Nat.eqb_neq in Hn.
      replace (0 <? _)%nat with true by (symmetry; apply Nat.ltb_lt; lia).
      split; [|reflexivity]. unfold abs, package_map. cbn [packages set_packages rows sqlite_seq].
      erewrite (map_ext _ (fun a => if key_is tracking_number k a then set_status (Some s) a else a))
        by (intros q; unfold key_is; rewrite sql_eq_key; reflexivity).
      rewrite table_map_alter by reflexivity. reflexivity.
    + rewrite (find_none_filter _ _ Ef). cbn. rewrite set_packages_same.
      destruct st; split; reflexivity.
  - rewrite (find_none_filter _ _ (find_sql_null _)). cbn. rewrite set_packages_same.
    split; reflexivity.
Qed.

Lemma create_courier_abs nm ph em now d :
  db_wf d ->
  let '(b, d') := create_courier nm ph em now d in
  (b, a_couriers (abs d')) = spec_add_courier nm ph em now (a_couriers (abs d))
  /\ a_packages (abs d') = a_packages (abs d).
Proof.
  intros Hwf. rewrite (create_courier_spec _ _ _ _ _ Hwf). unfold spec_add_courier.
  destruct nm as [n|]; [|split; reflexivity]. cbn [a_couriers abs tseq tmap].
  destruct (_ <? _)%Z; [|split; reflexivity]. split; [|reflexivity].
  unfold abs, courier_map. cbn [couriers set_couriers rows sqlite_seq a_couriers].
  rewrite (table_map_snoc _ _ _ (sqlite_seq (couriers d) + 1)%Z); [reflexivity..|].
  apply courier_map_fresh, Hwf.
Qed.

Lemma delete_courier_abs cid d :
  let '(b, d') := delete_courier cid d in
  (b, a_couriers (abs d')) = spec_delete_courier cid (a_couriers (abs d))
  /\ a_packages (abs d') = a_packages (abs d).
Proof.
  unfold delete_courier, delete_courier_rows, spec_delete_courier. cbn [a_couriers abs tmap tseq].
  destruct (in_int64 cid); [|split; reflexivity].
  rewrite (filter_ext _ (fun c => negb (key_is courier_key cid c)))
    by (intros c; rewrite courier_id_key; reflexivity).
  split; [|reflexivity]. unfold abs, courier_map. cbn [couriers set_couriers rows sqlite_seq].
  rewrite table_map_filter. f_equal.
  pose proof (count_key_present courier_key (rows (couriers d)) cid) as Hc.
  destruct (bool_decide_reflect (is_Some (table_map courier_key (rows (couriers d)) !! cid)))
    as [HP|HP].
  - apply Nat.ltb_lt, Hc, HP.
  - apply Nat.ltb_ge. rewrite <- Hc in HP. lia.
Qed.

Lemma impl_call_abs (c : store_call) (d : db) :
  db_wf d ->
  db_wf (snd (impl_call c d))
  /\ (fst (impl_call c d), abs (snd (impl_call c d))) = spec_call c (abs d).
Proof.
  intros Hwf. destruct c as [tn desc sdr rcp sa ra now|tn st|tn|nm ph em now|cid];
    cbn [impl_call spec_call].
  - pose proof (create_package_wf tn desc sdr rcp sa ra now d Hwf) as Hwf'.
    pose proof (create_package_abs tn desc sdr rcp sa ra now d Hwf) as Habs.
    destruct (create_package _ _ _ _ _ _ _ _) as [b d']. destruct Habs as [Hp Hc].
    destruct (spec_create _ _ _ _ _ _ _ _) as [b' p']. injection Hp as <- <-.
    split; [exact Hwf'|]. rewrite <- Hc. reflexivity.
  - pose proof (update_package_status_wf tn st d Hwf) as Hwf'.
    pose proof (update_package_status_abs tn st d) as Habs.
    destruct (update_package_status _ _ _) as [b d']. destruct Habs as [Hp Hc].
    destruct (spec_update _ _ _) as [b' p']. injection Hp as <- <-.
    split; [exact Hwf'|]. rewrite <- Hc. reflexivity.
  - split; [exact Hwf|]. cbn [fst snd]. rewrite spec_get_abs. reflexivity.
  - pose proof (create_courier_wf nm ph em now d Hwf) as Hwf'.
    pose proof (create_courier_abs nm ph em now d Hwf) as Habs.
    destruct (create_courier _ _ _ _ _) as [b d']. destruct Habs as [Hc Hp].
    destruct (spec_add_courier _ _ _ _ _) as [b' c']. injection Hc as <- <-.
    split; [exact Hwf'|]. rewrite <- Hp. reflexivity.
  - pose proof (delete_courier_wf cid d Hwf) as Hwf'.
    pose proof (delete_courier_abs cid d) as Habs.
    destruct (delete_courier _ _) as [b d']. destruct Habs as [Hc Hp].
    destruct (spec_delete_courier _ _) as [b' c']. injection Hc as <- <-.
    split; [exact Hwf'|]. rewrite <- Hp. reflexivity.
Qed.

(** C34: the store refines its finite-map specification: from any
    well-formed database, every sequence of [create_package],
    [update_package_status], [get_package_by_tracking], [create_courier]
    and [delete_courier] calls gives the answers of insert-if-absent,
    alter-if-present and lookup on the map of packages by tracking number,
    and of insert-under-the-next-id and delete on the map of couriers by id
    (each table's AUTOINCREMENT counter numbering new rows), and leaves a
    database whose maps and counters are the ones those operations
    compute. *)
Theorem store_refines_maps (cs : list store_call) (d : db) :
  db_wf d ->
  let '(ans, d') := impl_run cs d in (ans, abs d') = spec_run cs (abs d).
Proof.
  revert d. induction cs as [|c cs IH]; intros d Hwf; [reflexivity|]. cbn [impl_run spec_run].
  destruct (impl_call_abs c d Hwf) as [Hwf' Habs].
  destruct (impl_call c d) as [a d1]. cbn [fst snd] in Habs, Hwf'. rewrite <- Habs.
  specialize (IH d1 Hwf'). destruct (impl_run cs d1) as [ans d2]. rewrite <- IH. reflexivity.
Qed.

(** ** A run *)

Definition sample_calls : list store_call :=
  [CallCreate (Some "DE-111111") (Some "Книги") (Some "Анна") (Some "Борис") NULL
     (Some "Москва") sample_now;
   CallCreate (Some "DE-111111") NULL (Some "Вера") (Some "Глеб") NULL NULL sample_now;
   CallCreate NULL NULL (Some "Вера") (Some "Глеб") NULL NULL sample_now;
   CallUpdate (Some "DE-111111") (Some "Доставлена");
   CallUpdate (Some "DE-222222") (Some "Доставлена");
   CallUpdate (Some "DE-111111") NULL;
   CallAddCourier (Some "Иван") NULL NULL sample_now;
   CallAddCourier (Some "Пётр") NULL NULL sample_now;
   CallDeleteCourier 1; CallDeleteCourier 1; CallAddCourier (Some "Олег") NULL NULL sample_now;
   CallGet (Some "DE-111111"); CallGet (Some "DE-222222")].

Lemma store_refines_maps_witness :
  db_wf (initialize_db None)
  /\ (let '(ans, d') := impl_run sample_calls (initialize_db None) in
      (ans, abs d') = spec_run sample_calls (abs (initialize_db None))).
Proof.
  assert (Hwf : db_wf (initialize_db None)) by (apply initialize_db_wf; exact I).
  split; [exact Hwf|]. exact (store_refines_maps sample_calls (initialize_db None) Hwf).
Defined.

(** The courier deleted keeps its id: the next one is 3, not 1. *)
Example sample_calls_answers :
  fst (impl_run sample_calls (initialize_db None))
  = [AnsBool true; AnsBool false; AnsBool false; AnsBool true; AnsBool false; AnsBool false;
     AnsBool true; AnsBool true; AnsBool true; AnsBool false; AnsBool true;
     AnsPackage (Some (set_status (Some "Доставлена")
                        (new_package 1 (Some "DE-111111") (Some "Книги") (Some "Анна")
                           (Some "Борис") NULL (Some "Москва") sample_now)));
     AnsPackage None]
  /\ map courier_id (rows (couriers (snd (impl_run sample_calls (initialize_db None))))) = [2; 3]%Z.
Proof. vm_compute. split; reflexivity. Qed.
