(* ===== verification/Service.v ===== *)
(** * The service layer: package_service.py

    Each function validates its inputs with Python truthiness, calls the
    store, and turns the store's boolean into a [(success, payload)] pair,
    modelled as an [outcome].  [send_package] also draws a tracking number
    from the random source; the generator state is threaded explicitly, so
    a call that is refused by a guard draws nothing and a call that reaches
    the store draws exactly one number (there is no retry loop). *)

From S2P Require Import Prelude Clock Tracking Store.

(** ** User-facing messages *)

Definition MSG_FILL_REQUIRED : string := "Заполните все обязательные поля".
Definition MSG_CREATE_FAILED : string :=
  "Ошибка при создании посылки. Пожалуйста, попробуйте еще раз.".
Definition MSG_ENTER_TRACKING : string := "Введите номер отслеживания".
Definition MSG_NOT_FOUND : string := "Посылка с таким номером не найдена".
Definition MSG_COURIER_NAME_REQUIRED : string := "Имя курьера обязательно для заполнения".
Definition MSG_COURIER_ADDED : string := "Курьер успешно добавлен".
Definition MSG_COURIER_ADD_FAILED : string := "Ошибка при добавлении курьера".
Definition MSG_COURIER_REMOVED : string := "Курьер успешно удален".
Definition MSG_COURIER_REMOVE_FAILED : string :=
  "Ошибка при удалении курьера или курьер не найден".
Definition MSG_REVIEW_REQUIRED : string :=
  "Имя клиента и рейтинг обязательны для заполнения".
Definition MSG_RATING_RANGE : string := "Рейтинг должен быть от 1 до 5".
Definition MSG_REVIEW_ADDED : string := "Отзыв успешно добавлен".
Definition MSG_REVIEW_ADD_FAILED : string := "Ошибка при добавлении отзыва".

Section Service.
Context {G : Type} `{RandomSource G}.

(** [send_package(description, sender, recipient, sender_address,
    recipient_address)]: the tracking number on success. *)
Definition send_package (desc sdr rcp sa ra : text) (now : datetime) (d : db) (g : G)
  : outcome string * db * G :=
  if negb (py_truthy desc) || negb (py_truthy sdr) || negb (py_truthy rcp)
  then (Err MSG_FILL_REQUIRED, d, g)
  else
    let '(tn, g1) := generate_tracking_number g in
    let '(ok, d1) := create_package (Some tn) desc sdr rcp sa ra now d in
    if ok then (Ok tn, d1, g1) else (Err MSG_CREATE_FAILED, d1, g1).

End Service.

(** [track_package(tracking_number)]: the package row on success. *)
Definition track_package (tn : text) (d : db) : outcome package :=
  if negb (py_truthy tn) then Err MSG_ENTER_TRACKING
  else match get_package_by_tracking tn d with
       | Some p => Ok p
       | None => Err MSG_NOT_FOUND
       end.

(** [update_status(tracking_number, new_status)]: a plain delegation. *)
Definition update_status (tn st : text) (d : db) : bool * db := update_package_status tn st d.

(** [add_courier(name, phone, email)] *)
Definition add_courier (nm ph em : text) (now : datetime) (d : db) : outcome string * db :=
  if negb (py_truthy nm) then (Err MSG_COURIER_NAME_REQUIRED, d)
  else
    let '(ok, d1) := create_courier nm ph em now d in
    if ok then (Ok MSG_COURIER_ADDED, d1) else (Err MSG_COURIER_ADD_FAILED, d1).

(** [get_couriers()] *)
Definition get_couriers (d : db) : list courier := get_all_couriers d.

(** [remove_courier(courier_id)] *)
Definition remove_courier (cid : Z) (d : db) : outcome string * db :=
  let '(ok, d1) := delete_courier cid d in
  if ok then (Ok MSG_COURIER_REMOVED, d1) else (Err MSG_COURIER_REMOVE_FAILED, d1).

(** [add_review(tracking_number, customer_name, rating, comment)]: the
    guard [not rating] comes before the range check, so a rating of 0
    gets the "required" message. *)
Definition add_review (tn cn : text) (r : Z) (cm : text) (now : datetime) (d : db)
  : outcome string * db :=
  if negb (py_truthy cn) || negb (py_truthy_int r) then (Err MSG_REVIEW_REQUIRED, d)
  else if negb ((1 <=? r)%Z && (r <=? 5)%Z) then (Err MSG_RATING_RANGE, d)
  else
    let '(ok, d1) := create_review tn cn r cm now d in
    if ok then (Ok MSG_REVIEW_ADDED, d1) else (Err MSG_REVIEW_ADD_FAILED, d1).

(** [get_reviews()] *)
Definition get_reviews (d : db) : list review := get_all_reviews d.

(** ** Properties of package_service.py *)

Lemma py_truthy_code (tn : string) : is_tracking_format tn = true -> py_truthy (Some tn) = true.
Proof.
  intros Hf%tracking_format_length. simpl.
  destruct tn; [discriminate|reflexivity].
Qed.

Section ServiceProps.
Context {G : Type} `{RandomSource G}.

(** C2: [send_package] with a missing description, sender or recipient
    ([None] or empty) is refused with "Заполните все обязательные поля"
    before anything else happens: no row is written and no random number
    is drawn. *)
Theorem send_package_missing_field desc sdr rcp sa ra now (d : db) (g : G) :
  py_truthy desc = false \/ py_truthy sdr = false \/ py_truthy rcp = false ->
  send_package desc sdr rcp sa ra now d g = (Err MSG_FILL_REQUIRED, d, g).
Proof.
  intros Hmiss. unfold send_package.
  destruct Hmiss as [ -> | [ -> | -> ] ]; rewrite ?orb_true_r; reflexivity.
Qed.

(** C3: after [send_package] succeeds with a tracking number, that number
    is well formed and [track_package] of it returns the package just sent:
    same description, sender, recipient and addresses, status
    "Отправлена". *)
Theorem send_then_track desc sdr rcp sa ra now (d : db) (g : G) tn d' g' :
  db_wf d ->
  send_package desc sdr rcp sa ra now d g = (Ok tn, d', g') ->
  is_tracking_format tn = true
  /\ exists p, track_package (Some tn) d' = Ok p
       /\ tracking_number p = Some tn /\ description p = desc
       /\ sender p = sdr /\ recipient p = rcp
       /\ sender_address p = sa /\ recipient_address p = ra
       /\ status p = Some SENT.
Proof.
  intros Hwf. unfold send_package.
  destruct (negb _ || _ || _); [discriminate|].
  pose proof (generated_code_wellformed g) as Hfmt.
  destruct (generate_tracking_number g) as [code g1]. simpl in Hfmt.
  destruct (create_package (Some code) desc sdr rcp sa ra now d) as [ok d1] eqn:Hcreate.
  destruct ok; [|discriminate]. intros [= <- <- <-].
  destruct (create_package_true code desc sdr rcp sa ra now d d1 Hwf Hcreate)
    as (_ & _ & Hget).
  split; [exact Hfmt|]. eexists. unfold track_package.
  rewrite py_truthy_code, Hget by exact Hfmt. simpl.
  repeat split; reflexivity.
Qed.

(** C8: when the generated number is already stored, [send_package]
    reports "Ошибка при создании посылки. Пожалуйста, попробуйте еще раз."
    and writes nothing; exactly one number has been drawn (no retry). *)
Theorem send_package_collision desc sdr rcp sa ra now (d : db) (g : G) :
  db_wf d ->
  py_truthy desc = true -> py_truthy sdr = true -> py_truthy rcp = true ->
  get_package_by_tracking (Some (fst (generate_tracking_number g))) d <> None ->
  send_package desc sdr rcp sa ra now d g
  = (Err MSG_CREATE_FAILED, d, snd (generate_tracking_number g)).
Proof.
  intros Hwf Hd Hs Hr Htaken. unfold send_package. rewrite Hd, Hs, Hr. simpl.
  destruct (generate_tracking_number g) as [code g1]. simpl in *.
  rewrite create_package_spec by exact Hwf.
  unfold get_package_by_tracking in Htaken.
  destruct existsb eqn:Hex; [reflexivity|].
  apply find_none_existsb in Hex. contradiction.
Qed.

End ServiceProps.

(** C4: [add_review] by a named customer with a rating outside 1..5 is
    refused and writes nothing (a rating of 0 with the "required" message,
    any other with "Рейтинг должен быть от 1 до 5"); with a rating in
    1..5, 1 and 5 included, it succeeds while the table has rowids left,
    and the stored review carries that rating. *)
Theorem add_review_rating tn cn (r : Z) cm now (d : db) :
  db_wf d -> py_truthy cn = true ->
  ((r < 1 \/ 5 < r)%Z ->
   add_review tn cn r cm now d
   = (Err (if (r =? 0)%Z then MSG_REVIEW_REQUIRED else MSG_RATING_RANGE), d))
  /\ ((1 <= r <= 5)%Z -> (sqlite_seq (reviews d) < INT64_MAX)%Z ->
      exists d' rv, add_review tn cn r cm now d = (Ok MSG_REVIEW_ADDED, d')
        /\ rows (reviews d') = (rows (reviews d) ++ [rv])%list
        /\ rating rv = r /\ customer_name rv = cn /\ review_tracking_number rv = tn).
Proof.
  intros Hwf Hcn. unfold add_review, py_truthy_int. rewrite Hcn. simpl. split.
  - intros Hout. destruct (r =? 0)%Z eqn:Hr0; simpl; [reflexivity|].
    replace ((1 <=? r)%Z && (r <=? 5)%Z) with false by lia. reflexivity.
  - intros Hin Hroom. replace (r =? 0)%Z with false by lia.
    replace ((1 <=? r)%Z && (r <=? 5)%Z) with true by lia. simpl.
    rewrite create_review_spec by exact Hwf.
    replace (in_int64 r) with true
      by (symmetry; apply in_int64_spec; unfold INT64_MIN, INT64_MAX; lia).
    apply Z.ltb_lt in Hroom. rewrite Hroom.
    do 2 eexists. split; [reflexivity|]. simpl. repeat split; reflexivity.
Qed.

(** ** The database each service call leaves behind *)

Lemma send_package_db {G} `{RandomSource G} desc sdr rcp sa ra now (d : db) (g : G) :
  snd (fst (send_package desc sdr rcp sa ra now d g)) = d
  \/ exists tn, is_tracking_format tn = true
       /\ snd (fst (send_package desc sdr rcp sa ra now d g))
          = snd (create_package (Some tn) desc sdr rcp sa ra now d).
Proof.
  unfold send_package. destruct (_ || _ || _); [left; reflexivity|right].
  pose proof (generated_code_wellformed g) as Hfmt.
  destruct (generate_tracking_number g) as [tn g1]. exists tn. split; [exact Hfmt|].
  destruct (create_package (Some tn) desc sdr rcp sa ra now d) as [[|] d1]; reflexivity.
Qed.

Lemma add_courier_db nm ph em now (d : db) :
  snd (add_courier nm ph em now d) = d
  \/ snd (add_courier nm ph em now d) = snd (create_courier nm ph em now d).
Proof.
  unfold add_courier. destruct (negb _); [left; reflexivity|right].
  destruct (create_courier nm ph em now d) as [[|] d1]; reflexivity.
Qed.

Lemma remove_courier_db cid (d : db) : snd (remove_courier cid d) = snd (delete_courier cid d).
Proof. unfold remove_courier. destruct (delete_courier cid d) as [[|] d1]; reflexivity. Qed.

Lemma add_review_db tn cn r cm now (d : db) :
  snd (add_review tn cn r cm now d) = d
  \/ ((1 <= r <= 5)%Z /\ snd (add_review tn cn r cm now d) = snd (create_review tn cn r cm now d)).
Proof.
  unfold add_review. destruct (_ || _); [left; reflexivity|].
  destruct (negb _) eqn:Hr; [left; reflexivity|right].
  apply negb_false_iff, andb_true_iff in Hr as [H1 H5]. apply Z.leb_le in H1, H5.
  split; [lia|]. destruct (create_review tn cn r cm now d) as [[|] d1]; reflexivity.
Qed.

(** ** Concrete runs and witnesses *)

Definition sample_send : outcome string * db * list nat :=
  send_package (Some "Книги") (Some "Анна") (Some "Борис") NULL (Some "Тверь") sample_now
    sample_db [3; 4; 1; 2; 3; 4; 5; 6].

Example sample_send_run : fst (fst sample_send) = Ok "DE-123456".
Proof. vm_compute. reflexivity. Qed.

Lemma send_package_missing_field_witness :
  py_truthy (Some "") = false
  /\ send_package (Some "") (Some "Анна") (Some "Борис") NULL NULL sample_now sample_db
       [1; 2; 3] = (Err MSG_FILL_REQUIRED, sample_db, [1; 2; 3]).
Proof. split; [reflexivity|]. apply send_package_missing_field. left. reflexivity. Defined.

Lemma send_then_track_witness :
  db_wf sample_db
  /\ sample_send = (Ok "DE-123456", snd (fst sample_send), [])
  /\ is_tracking_format "DE-123456" = true
  /\ exists p, track_package (Some "DE-123456") (snd (fst sample_send)) = Ok p
       /\ tracking_number p = Some "DE-123456" /\ description p = Some "Книги"
       /\ sender p = Some "Анна" /\ recipient p = Some "Борис"
       /\ sender_address p = NULL /\ recipient_address p = Some "Тверь"
       /\ status p = Some SENT.
Proof.
  assert (sample_send = (Ok "DE-123456", snd (fst sample_send), [])) as Hrun
    by (vm_compute; reflexivity).
  split; [exact sample_db_wf|split; [exact Hrun|]].
  exact (send_then_track _ _ _ _ _ _ _ _ _ _ _ sample_db_wf Hrun).
Defined.

Lemma send_package_collision_witness :
  db_wf sample_db
  /\ fst (generate_tracking_number [0; 1; 1; 2; 3; 4; 5; 6]) = "AB-123456"
  /\ get_package_by_tracking (Some "AB-123456") sample_db <> None
  /\ send_package (Some "Чай") (Some "Вера") (Some "Глеб") NULL NULL sample_now sample_db
       [0; 1; 1; 2; 3; 4; 5; 6]
     = (Err MSG_CREATE_FAILED, sample_db, snd (generate_tracking_number [0; 1; 1; 2; 3; 4; 5; 6])).
Proof.
  split; [exact sample_db_wf|split; [vm_compute; reflexivity|split; [discriminate|]]].
  apply send_package_collision; [exact sample_db_wf|reflexivity|reflexivity|reflexivity|].
  vm_compute. discriminate.
Defined.

Lemma add_review_rating_witness :
  db_wf sample_db /\ py_truthy (Some "Ира") = true
  /\ add_review NULL (Some "Ира") 0 NULL sample_now sample_db
     = (Err MSG_REVIEW_REQUIRED, sample_db)
  /\ add_review NULL (Some "Ира") 6 NULL sample_now sample_db
     = (Err MSG_RATING_RANGE, sample_db)
  /\ exists d' rv, add_review (Some "AB-123456") (Some "Ира") 5 NULL sample_now sample_db
                   = (Ok MSG_REVIEW_ADDED, d')
       /\ rows (reviews d') = (rows (reviews sample_db) ++ [rv])%list
       /\ rating rv = 5%Z /\ customer_name rv = Some "Ира"
       /\ review_tracking_number rv = Some "AB-123456".
Proof.
  split; [exact sample_db_wf|split; [reflexivity|]].
  destruct (add_review_rating NULL (Some "Ира") 0 NULL sample_now sample_db
              sample_db_wf eq_refl) as [H0 _].
  destruct (add_review_rating NULL (Some "Ира") 6 NULL sample_now sample_db
              sample_db_wf eq_refl) as [H6 _].
  destruct (add_review_rating (Some "AB-123456") (Some "Ира") 5 NULL sample_now sample_db
              sample_db_wf eq_refl) as [_ H5].
  split; [apply H0; lia|split; [apply H6; lia|]].
  apply H5; [lia|vm_compute; reflexivity].
Defined.
