(* ===== verification/System.v ===== *)
(** * The application as a transition system

    The state the program keeps between user actions is the database file
    and the state of the random module.  [main()] runs [initialize_db()]
    and starts the window; from then on every user action is one call of
    the service layer (and the map tab reads [get_all_packages] of the
    store directly).  A new start of the program keeps the database and
    reseeds the random module.  [exec] runs one call, [run] a sequence of
    calls, and [reachable] is the set of states of every execution from a
    fresh install; the theorems hold along every such execution. *)

From S2P Require Import Prelude Clock Tracking Store Service.

Section System.
Context {G : Type} `{RandomSource G}.

Record world := mk_world { w_db : db; w_rng : G }.

(** The entry points the presentation layer calls, with their arguments
    and the value of [datetime.now()] where the store reads it. *)
Inductive call :=
| SendPackage (desc sdr rcp sa ra : text) (now : datetime)
| TrackPackage (tn : text)
| UpdateStatus (tn st : text)
| AddCourier (nm ph em : text) (now : datetime)
| GetCouriers
| RemoveCourier (cid : Z)
| AddReview (tn cn : text) (r : Z) (cm : text) (now : datetime)
| GetReviews
| GetAllPackages
| Restart (seed : G).

Inductive response :=
| RSent (o : outcome string)
| RTracked (o : outcome package)
| RUpdated (ok : bool)
| RMessage (o : outcome string)
| RCouriers (l : list courier)
| RReviews (l : list review)
| RPackages (l : list package)
| RStarted.

(** [main()]: [initialize_db()] on the existing file, a freshly seeded
    random module. *)
Definition main (file : option db) (seed : G) : world := mk_world (initialize_db file) seed.

Definition exec (c : call) (w : world) : response * world :=
  match c with
  | SendPackage desc sdr rcp sa ra now =>
      let '(o, d, g) := send_package desc sdr rcp sa ra now (w_db w) (w_rng w) in
      (RSent o, mk_world d g)
  | TrackPackage tn => (RTracked (track_package tn (w_db w)), w)
  | UpdateStatus tn st =>
      let '(ok, d) := update_status tn st (w_db w) in (RUpdated ok, mk_world d (w_rng w))
  | AddCourier nm ph em now =>
      let '(o, d) := add_courier nm ph em now (w_db w) in (RMessage o, mk_world d (w_rng w))
  | GetCouriers => (RCouriers (get_couriers (w_db w)), w)
  | RemoveCourier cid =>
      let '(o, d) := remove_courier cid (w_db w) in (RMessage o, mk_world d (w_rng w))
  | AddReview tn cn r cm now =>
      let '(o, d) := add_review tn cn r cm now (w_db w) in (RMessage o, mk_world d (w_rng w))
  | GetReviews => (RReviews (get_reviews (w_db w)), w)
  | GetAllPackages => (RPackages (get_all_packages (w_db w)), w)
  | Restart seed => (RStarted, main (Some (w_db w)) seed)
  end.

Fixpoint run (cs : list call) (w : world) : list response * world :=
  match cs with
  | [] => ([], w)
  | c :: cs' =>
      let '(r, w1) := exec c w in
      let '(rs, w2) := run cs' w1 in
      (r :: rs, w2)
  end.

Inductive reachable : world -> Prop :=
| reach_main seed : reachable (main None seed)
| reach_exec c w : reachable w -> reachable (snd (exec c w)).

End System.

Arguments world G : clear implicits.
Arguments call G : clear implicits.

(** ** The database after one call *)

Ltac destruct_pairs :=
  repeat match goal with
         | |- context [match ?x with pair _ _ => _ end] => destruct x
         end.

Section Props.
Context {G : Type} `{RandomSource G}.

Lemma exec_db (c : call G) (w : world G) :
  w_db (snd (exec c w))
  = match c with
    | SendPackage desc sdr rcp sa ra now =>
        snd (fst (send_package desc sdr rcp sa ra now (w_db w) (w_rng w)))
    | UpdateStatus tn st => snd (update_status tn st (w_db w))
    | AddCourier nm ph em now => snd (add_courier nm ph em now (w_db w))
    | RemoveCourier cid => snd (remove_courier cid (w_db w))
    | AddReview tn cn r cm now => snd (add_review tn cn r cm now (w_db w))
    | _ => w_db w
    end.
Proof. destruct c; simpl; destruct_pairs; reflexivity. Qed.

Lemma run_cons (c : call G) (cs : list (call G)) (w : world G) :
  snd (run (c :: cs) w) = snd (run cs (snd (exec c w))).
Proof. simpl. destruct (exec c w) as [r w1]. simpl. destruct (run cs w1). reflexivity. Qed.

Lemma run_reachable (cs : list (call G)) (w : world G) :
  reachable w -> reachable (snd (run cs w)).
Proof.
  revert w. induction cs as [|c cs IH]; intros w Hw; [exact Hw|].
  rewrite run_cons. apply IH. constructor. exact Hw.
Qed.

(** ** The invariant of every reachable state *)

(** A stored package has a generated tracking number and the time of its
    INSERT. *)
Definition stored_code_ok (p : package) : Prop :=
  (exists s, tracking_number p = Some s /\ is_tracking_format s = true) /\ created_at p <> None.

Definition world_inv (w : world G) : Prop :=
  db_wf (w_db w)
  /\ Forall stored_code_ok (rows (packages (w_db w)))
  /\ Forall (fun r => (1 <= rating r <= 5)%Z) (rows (reviews (w_db w))).

Lemma Forall_snoc {A} (P : A -> Prop) (l : list A) (x : A) :
  Forall P l -> P x -> Forall P (l ++ [x])%list.
Proof. intros Hl Hx. apply Forall_app. split; [exact Hl|constructor; [exact Hx|constructor]]. Qed.

Lemma exec_inv (c : call G) (w : world G) : world_inv w -> world_inv (snd (exec c w)).
Proof.
  intros (Hwf & Hcodes & Hrat). unfold world_inv. rewrite exec_db.
  destruct c as [desc sdr rcp sa ra now|tn|tn st|nm ph em now| |cid|tn cn r cm now| | |seed];
    try (split; [|split]; assumption).
  - destruct (send_package_db desc sdr rcp sa ra now (w_db w) (w_rng w))
      as [->|(tn & Hfmt & ->)]; [split; [|split]; assumption|].
    destruct (create_package_tables tn desc sdr rcp sa ra now (w_db w))
      as (_ & -> & [-> | (i & ->)]).
    + split; [apply create_package_wf, Hwf|split; assumption].
    + split; [apply create_package_wf, Hwf|split; [|assumption]].
      apply Forall_snoc; [exact Hcodes|]. split; [exists tn; auto|discriminate].
  - unfold update_status.
    destruct (update_package_status_tables tn st (w_db w)) as (_ & -> & [-> | ->]).
    + split; [apply update_package_status_wf, Hwf|split; assumption].
    + split; [apply update_package_status_wf, Hwf|split; [|assumption]].
      apply Forall_map. eapply Forall_impl; [|exact Hcodes].
      intros p Hp. destruct sql_eq; exact Hp.
  - destruct (add_courier_db nm ph em now (w_db w)) as [->| ->];
      [split; [|split]; assumption|].
    destruct (create_courier_tables nm ph em now (w_db w)) as (-> & -> & _).
    split; [apply create_courier_wf, Hwf|split; assumption].
  - rewrite remove_courier_db.
    destruct (delete_courier_tables cid (w_db w)) as (-> & -> & _).
    split; [apply delete_courier_wf, Hwf|split; assumption].
  - destruct (add_review_db tn cn r cm now (w_db w)) as [->|(Hr & ->)];
      [split; [|split]; assumption|].
    destruct (create_review_tables tn cn r cm now (w_db w)) as (-> & _ & [-> | (i & ->)]).
    + split; [apply create_review_wf, Hwf|split; assumption].
    + split; [apply create_review_wf, Hwf|split; [assumption|]].
      apply Forall_snoc; [exact Hrat|exact Hr].
Qed.

Lemma reachable_inv (w : world G) : reachable w -> world_inv w.
Proof.
  induction 1 as [seed|c w _ IH].
  - split; [apply initialize_db_wf; exact I|split; constructor].
  - apply exec_inv, IH.
Qed.

(** C6: in every state the program reaches from a fresh install, through
    any sequence of user actions and restarts, the database is well formed
    (tracking numbers unique, NOT NULL columns filled, rowids increasing
    and bounded by [sqlite_sequence]), every stored tracking number has
    the form [A-Z]{2}-[0-9]{6} and every stored package its [created_at],
    and every stored rating is in 1..5. *)
Theorem reachable_world_inv (w : world G) : reachable w -> world_inv w.
Proof. apply reachable_inv. Qed.


(** ** Couriers: rowids are never reused *)

(** How one call can change the couriers table: [sqlite_sequence] never
    decreases, and every row is an old row or has a rowid above the old
    [sqlite_sequence]. *)
Definition courier_step (t t' : table courier) : Prop :=
  (sqlite_seq t <= sqlite_seq t')%Z
  /\ forall x, In x (rows t') -> In x (rows t) \/ (sqlite_seq t < courier_id x)%Z.

Lemma courier_step_refl (t : table courier) : courier_step t t.
Proof. split; [lia|auto]. Qed.

Lemma exec_courier_step (c : call G) (w : world G) :
  courier_step (couriers (w_db w)) (couriers (w_db (snd (exec c w)))).
Proof.
  rewrite exec_db.
  destruct c as [desc sdr rcp sa ra now|tn|tn st|nm ph em now| |cid|tn cn r cm now| | |seed];
    try apply courier_step_refl.
  - destruct (send_package_db desc sdr rcp sa ra now (w_db w) (w_rng w))
      as [->|(tn & _ & ->)]; [apply courier_step_refl|].
    destruct (create_package_tables tn desc sdr rcp sa ra now (w_db w)) as (-> & _).
    apply courier_step_refl.
  - unfold update_status. destruct (update_package_status_tables tn st (w_db w)) as (-> & _).
    apply courier_step_refl.
  - destruct (add_courier_db nm ph em now (w_db w)) as [->| ->]; [apply courier_step_refl|].
    destruct (create_courier_tables nm ph em now (w_db w))
      as (_ & _ & [-> | (i & Hrows & Hseq & Hlt)]); [apply courier_step_refl|].
    split; [lia|]. rewrite Hrows. intros x [Hx|[<-|[]]]%in_app_or; [left; exact Hx|].
    right. simpl. exact Hlt.
  - rewrite remove_courier_db. destruct (delete_courier_tables cid (w_db w)) as (_ & _ & Hs & Hsub).
    split; [lia|]. intros x Hx. left. apply Hsub, Hx.
  - destruct (add_review_db tn cn r cm now (w_db w)) as [->|(_ & ->)]; [apply courier_step_refl|].
    destruct (create_review_tables tn cn r cm now (w_db w)) as (_ & -> & _).
    apply courier_step_refl.
Qed.

(** C10: a courier id is never given to another courier.  If a courier is
    in the table of a reachable state, then in every later state, after any
    further calls and restarts, a row with the same id is that very row:
    deleting a courier and adding a new one never reuses the id, so a
    stale id in the couriers list can only ever delete the courier it was
    shown for. *)
Theorem courier_ids_never_reused (w : world G) (cs : list (call G)) (c c' : courier) :
  reachable w -> In c (rows (couriers (w_db w))) ->
  In c' (rows (couriers (w_db (snd (run cs w))))) -> courier_id c' = courier_id c -> c' = c.
Proof.
  intros Hreach Hc.
  destruct (reachable_inv w Hreach) as ([_ Hwf _ _ _ _] & _ & _).
  assert (Hbound : (courier_id c <= sqlite_seq (couriers (w_db w)))%Z).
  { destruct Hwf as (_ & _ & Hids). pose proof (proj1 (Forall_forall _ _) Hids c Hc).
    cbn beta in *. lia. }
  assert (Huniq : forall x, In x (rows (couriers (w_db w))) -> courier_id x = courier_id c -> x = c)
    by (intros x Hx; exact (table_wf_id_unique courier_id _ x c Hwf Hx Hc)).
  clear Hreach Hwf Hc. revert w Hbound Huniq.
  induction cs as [|call cs IH]; intros w Hbound Huniq; [exact (Huniq c')|].
  rewrite run_cons. apply IH.
  - destruct (exec_courier_step call w) as [Hs _]. lia.
  - intros x Hx Hid. destruct (exec_courier_step call w) as [_ Hrows].
    destruct (Hrows x Hx) as [Hold|Hnew]; [exact (Huniq x Hold Hid)|lia].
Qed.

(** ** Packages are never deleted *)

Definition package_kept (t t' : table package) : Prop :=
  forall p, In p (rows t) -> exists p', In p' (rows t') /\ p' = set_status (status p') p.

Lemma package_kept_refl (t : table package) : package_kept t t.
Proof. intros p Hp. exists p. rewrite set_status_eta. auto. Qed.

Lemma exec_package_kept (c : call G) (w : world G) :
  package_kept (packages (w_db w)) (packages (w_db (snd (exec c w)))).
Proof.
  rewrite exec_db.
  destruct c as [desc sdr rcp sa ra now|tn|tn st|nm ph em now| |cid|tn cn r cm now| | |seed];
    try apply package_kept_refl.
  - destruct (send_package_db desc sdr rcp sa ra now (w_db w) (w_rng w))
      as [->|(tn & _ & ->)]; [apply package_kept_refl|].
    destruct (create_package_tables tn desc sdr rcp sa ra now (w_db w))
      as (_ & _ & [Hrows | (i & Hrows)]); intros p Hp; exists p;
      rewrite set_status_eta, Hrows; [auto|split; [apply in_or_app; left|]; auto].
  - unfold update_status.
    destruct (update_package_status_tables tn st (w_db w)) as (_ & _ & [Hrows | Hrows]);
      intros p Hp; rewrite Hrows; [exists p; rewrite set_status_eta; auto|].
    exists (if sql_eq (tracking_number p) tn then set_status st p else p).
    split; [exact (in_map (fun p => if sql_eq (tracking_number p) tn then set_status st p else p) _ _ Hp)|].
    destruct sql_eq; [reflexivity|symmetry; apply set_status_eta].
  - destruct (add_courier_db nm ph em now (w_db w)) as [->| ->]; [apply package_kept_refl|].
    destruct (create_courier_tables nm ph em now (w_db w)) as (-> & _).
    apply package_kept_refl.
  - rewrite remove_courier_db. destruct (delete_courier_tables cid (w_db w)) as (-> & _).
    apply package_kept_refl.
  - destruct (add_review_db tn cn r cm now (w_db w)) as [->|(_ & ->)]; [apply package_kept_refl|].
    destruct (create_review_tables tn cn r cm now (w_db w)) as (-> & _).
    apply package_kept_refl.
Qed.

(** C11: a package is never deleted and only its status ever changes:
    after any sequence of calls and restarts, the table holds a row equal
    to the original one except for its status (description, sender,
    recipient, addresses, tracking number, rowid and creation time are
    kept). *)
Theorem packages_never_deleted (w : world G) (cs : list (call G)) (p : package) :
  In p (rows (packages (w_db w))) ->
  exists p', In p' (rows (packages (w_db (snd (run cs w))))) /\ p' = set_status (status p') p.
Proof.
  revert w p. induction cs as [|c cs IH]; intros w p Hp.
  - exists p. rewrite set_status_eta. auto.
  - rewrite run_cons. destruct (exec_package_kept c w p Hp) as (p1 & Hp1 & Heq1).
    destruct (IH _ _ Hp1) as (p2 & Hp2 & Heq2). exists p2. split; [exact Hp2|].
    rewrite Heq2 at 1. rewrite Heq1, set_status_twice. reflexivity.
Qed.

End Props.

(** ** A session, and witnesses *)

Definition sample_session : list (call (list nat)) := [
  SendPackage (Some "Книги") (Some "Анна") (Some "Борис") (Some "Москва") (Some "Казань")
    sample_now;
  AddCourier (Some "Иван") NULL NULL sample_now;
  AddReview NULL (Some "Ира") 5 NULL sample_now;
  RemoveCourier 1;
  Restart [0; 0; 0; 0; 0; 0; 0; 0];
  AddCourier (Some "Олег") NULL NULL sample_now;
  UpdateStatus (Some "DE-123456") (Some "Доставлена")
].

Definition sample_world : world (list nat) :=
  snd (run sample_session (main None [3; 4; 1; 2; 3; 4; 5; 6])).

(** The courier added after the deletion gets rowid 2, not the freed 1. *)
Example sample_world_couriers :
  map courier_id (rows (couriers (w_db sample_world))) = [2%Z]
  /\ map status (rows (packages (w_db sample_world))) = [Some "Доставлена"].
Proof. vm_compute. split; reflexivity. Qed.

Lemma sample_world_reachable : reachable sample_world.
Proof. apply run_reachable. constructor. Qed.

Lemma reachable_world_inv_witness : reachable sample_world /\ world_inv sample_world.
Proof.
  split; [exact sample_world_reachable|].
  apply reachable_world_inv, sample_world_reachable.
Defined.

Definition ivan : courier :=
  mk_courier 1 (Some "Иван") NULL NULL (Some ACTIVE) (Some (adapt_datetime sample_now)).

Definition world_with_ivan : world (list nat) :=
  snd (run [AddCourier (Some "Иван") NULL NULL sample_now] (main None [])).

Lemma courier_ids_never_reused_witness :
  reachable world_with_ivan
  /\ In ivan (rows (couriers (w_db world_with_ivan)))
  /\ In ivan (rows (couriers (w_db (snd (run [GetCouriers; AddCourier (Some "Олег") NULL NULL
                                                 sample_now] world_with_ivan)))))
  /\ ivan = ivan.
Proof.
  assert (Hr : reachable world_with_ivan) by (apply run_reachable; constructor).
  assert (Hin : In ivan (rows (couriers (w_db world_with_ivan))))
    by (vm_compute; left; reflexivity).
  assert (Hin' : In ivan (rows (couriers (w_db (snd (run [GetCouriers;
                   AddCourier (Some "Олег") NULL NULL sample_now] world_with_ivan))))))
    by (vm_compute; left; reflexivity).
  split; [exact Hr|split; [exact Hin|split; [exact Hin'|]]].
  exact (courier_ids_never_reused _ _ ivan ivan Hr Hin Hin' eq_refl).
Defined.

Definition world_with_package : world (list nat) :=
  snd (run [SendPackage (Some "Книги") (Some "Анна") (Some "Борис") NULL NULL sample_now]
         (main None [3; 4; 1; 2; 3; 4; 5; 6])).

Definition sent_package : package :=
  mk_package 1 (Some "DE-123456") (Some "Книги") (Some SENT) (Some "Анна") (Some "Борис")
    NULL NULL (Some (adapt_datetime sample_now)).

Lemma packages_never_deleted_witness :
  In sent_package (rows (packages (w_db world_with_package)))
  /\ exists p', In p' (rows (packages (w_db (snd (run
         [UpdateStatus (Some "DE-123456") (Some "Доставлена"); RemoveCourier 1]
         world_with_package)))))
       /\ p' = set_status (status p') sent_package.
Proof.
  assert (Hin : In sent_package (rows (packages (w_db world_with_package))))
    by (vm_compute; left; reflexivity).
  split; [exact Hin|]. exact (packages_never_deleted _ _ _ Hin).
Defined.

(** ** Statuses in the application *)

(** The calls gui.py makes: every entry point but [update_status], which
    no handler of [DeliveryServiceApp] calls. *)
Definition gui_call {G} (c : call G) : bool :=
  match c with UpdateStatus _ _ => false | _ => true end.

Definition all_sent (t : table package) : Prop := Forall (fun p => status p = Some SENT) (rows t).

Section GuiStatus.
Context {G : Type} `{RandomSource G}.

Lemma exec_all_sent (c : call G) (w : world G) :
  gui_call c = true -> all_sent (packages (w_db w)) ->
  all_sent (packages (w_db (snd (exec c w)))).
Proof.
  intros Hgui Hall. unfold all_sent. rewrite exec_db.
  destruct c as [desc sdr rcp sa ra now|tn|tn st|nm ph em now| |cid|tn cn r cm now| | |seed];
    try exact Hall; try discriminate.
  - destruct (send_package_db desc sdr rcp sa ra now (w_db w) (w_rng w))
      as [->|(tn & _ & ->)]; [exact Hall|].
    destruct (create_package_tables tn desc sdr rcp sa ra now (w_db w))
      as (_ & _ & [-> | (i & ->)]); [exact Hall|].
    apply Forall_snoc; [exact Hall|reflexivity].
  - destruct (add_courier_db nm ph em now (w_db w)) as [->| ->]; [exact Hall|].
    destruct (create_courier_tables nm ph em now (w_db w)) as (-> & _). exact Hall.
  - rewrite remove_courier_db. destruct (delete_courier_tables cid (w_db w)) as (-> & _).
    exact Hall.
  - destruct (add_review_db tn cn r cm now (w_db w)) as [->|(_ & ->)]; [exact Hall|].
    destruct (create_review_tables tn cn r cm now (w_db w)) as (-> & _). exact Hall.
Qed.

End GuiStatus.

