(* ===== verification/Gui.v ===== *)
(** * The presentation layer: the handlers of [DeliveryServiceApp] (gui.py)

    The state of the window the handlers read and write: the text of the
    entries and text areas of each tab, the lines of the three list boxes
    and their selection, the status bar, and the message boxes and browser
    windows opened so far.  Each handler is a function of that state and
    of the program's [world] (database and random state), translated from
    gui.py line by line: it reads and strips the fields, checks them, calls
    the service, and updates labels, lists and fields.  A Tk [Text] widget
    returns its content followed by a newline.  A Python exception inside
    a handler (for instance [int()] of a malformed line) ends the callback:
    the state is what it was when the exception was raised. *)

From S2P Require Import Prelude PyStr Clock Tracking Store Service System.

(** ** Widgets *)

Inductive dialog :=
| ShowError (title msg : string)
| ShowInfo (title msg : string)
| AskYesNo (title msg : string).

Record send_tab := mk_send_tab {
  sender_entry : string; recipient_entry : string;
  sender_address_entry : string; recipient_address_entry : string;
  description_text : string;
  result_var : string
}.

Record track_tab := mk_track_tab {
  tracking_entry : string;
  status_label : string; sender_label : string; recipient_label : string;
  description_info : string; date_label : string
}.

Record review_tab := mk_review_tab {
  review_tracking_entry : string; customer_name_entry : string;
  rating_var : string; review_comment_text : string;
  reviews_listbox : list string
}.

Record courier_tab := mk_courier_tab {
  courier_name_entry : string; courier_phone_entry : string; courier_email_entry : string;
  couriers_listbox : list string; couriers_selection : option nat
}.

Record map_tab := mk_map_tab {
  address_entry : string;
  packages_listbox : list string; packages_selection : option nat
}.

Record gui := mk_gui {
  send_view : send_tab; track_view : track_tab; review_view : review_tab;
  courier_view : courier_tab; map_view : map_tab;
  status_var : string;
  dialogs : list dialog;
  opened_urls : list string
}.

Definition set_send (st : gui) (t : send_tab) : gui :=
  mk_gui t (track_view st) (review_view st) (courier_view st) (map_view st)
    (status_var st) (dialogs st) (opened_urls st).
Definition set_track (st : gui) (t : track_tab) : gui :=
  mk_gui (send_view st) t (review_view st) (courier_view st) (map_view st)
    (status_var st) (dialogs st) (opened_urls st).
Definition set_review (st : gui) (t : review_tab) : gui :=
  mk_gui (send_view st) (track_view st) t (courier_view st) (map_view st)
    (status_var st) (dialogs st) (opened_urls st).
Definition set_courier (st : gui) (t : courier_tab) : gui :=
  mk_gui (send_view st) (track_view st) (review_view st) t (map_view st)
    (status_var st) (dialogs st) (opened_urls st).
Definition set_map (st : gui) (t : map_tab) : gui :=
  mk_gui (send_view st) (track_view st) (review_view st) (courier_view st) t
    (status_var st) (dialogs st) (opened_urls st).
Definition set_status_var (st : gui) (s : string) : gui :=
  mk_gui (send_view st) (track_view st) (review_view st) (courier_view st) (map_view st)
    s (dialogs st) (opened_urls st).

(** [messagebox.showerror] / [messagebox.showinfo] *)
Definition show (st : gui) (d : dialog) : gui :=
  mk_gui (send_view st) (track_view st) (review_view st) (courier_view st) (map_view st)
    (status_var st) (dialogs st ++ [d])%list (opened_urls st).

(** [webbrowser.open(url)] *)
Definition open_url (st : gui) (url : string) : gui :=
  mk_gui (send_view st) (track_view st) (review_view st) (courier_view st) (map_view st)
    (status_var st) (dialogs st) (opened_urls st ++ [url])%list.

(** [text.get("1.0", tk.END)]: the content and the newline Tk keeps at
    the end of a [Text]. *)
Definition text_get (t : string) : string := t +:+ nl.

(** [listbox.get(i)] for a selected index. *)
Definition listbox_get (l : list string) (i : nat) : string := nth i l "".

(** ** List lines *)

(** The date shown for a [created_at] text:
    [created_at.split('.')[0] if '.' in created_at else created_at]. *)
Definition date_str (created : string) : string :=
  if py_contains "." created then split_head "." created else created.

(** A line of [refresh_couriers] (gui.py 623-628). *)
Definition courier_line (c : courier) : string :=
  "ID: " +:+ py_str_int (courier_id c) +:+ " | " +:+ py_fmt (name c)
  +:+ (if py_truthy (phone c) then " | Тел: " +:+ py_fmt (phone c) else "")
  +:+ (if py_truthy (email c) then " | Email: " +:+ py_fmt (email c) else "").

(** The id [delete_courier] reads back from a selected line (gui.py 642):
    [int(selected_text.split(" | ")[0].replace("ID: ", ""))]. *)
Definition parse_courier_id (line : string) : option Z :=
  py_int (py_replace "ID: " "" (split_head " | " line)).

(** A line of [refresh_reviews] (gui.py 578-585); [None] where
    ['.' in review['created_at']] raises [TypeError] because created_at is
    NULL. *)
Definition review_line (r : review) : option string :=
  match review_created_at r with
  | None => None
  | Some created =>
  let stars := py_repeat "★" (rating r) +:+ py_repeat "☆" (5 - rating r) in
  let tracking_text :=
    if py_truthy (review_tracking_number r)
    then " (Посылка: " +:+ py_fmt (review_tracking_number r) +:+ ")" else "" in
  let line := stars +:+ " " +:+ py_fmt (customer_name r) +:+ tracking_text +:+ " - "
              +:+ date_str created in
  Some (if py_truthy (comment r)
        then line +:+ nl +:+ "   " +:+ py_prefix 60 (py_fmt (comment r))
             +:+ (if (60 <? py_len (py_fmt (comment r)))%nat then "..." else "")
        else line)
  end.

(** The loop of [refresh_reviews] (gui.py 577-587): the lines inserted
    before it ends, and whether it ended by raising. *)
Fixpoint review_lines (rs : list review) : list string * bool :=
  match rs with
  | [] => ([], false)
  | r :: rs' =>
      match review_line r with
      | None => ([], true)
      | Some l => let '(ls, raised) := review_lines rs' in (l :: ls, raised)
      end
  end.

Definition NO_ADDRESS : string := "Не указан".

(** A line of [refresh_packages_list] (gui.py 778-785). *)
Definition package_line (p : package) : string :=
  let sa := sender_address p in
  let ra := recipient_address p in
  "Посылка " +:+ py_fmt (tracking_number p)
  +:+ (if py_truthy sa && negb (String.eqb (py_fmt sa) NO_ADDRESS)
       then " | От: " +:+ py_prefix 30 (py_fmt sa) +:+ "..." else "")
  +:+ (if py_truthy ra && negb (String.eqb (py_fmt ra) NO_ADDRESS)
       then " | До: " +:+ py_prefix 30 (py_fmt ra) +:+ "..." else "").

Definition NO_PACKAGES : string := "Нет посылок с адресами".

(** [refresh_packages_list] (gui.py 760-787): the import of
    [get_all_packages] succeeds, database.py defines it. *)
Definition packages_lines (d : db) : list string :=
  match get_all_packages d with
  | [] => [NO_PACKAGES]
  | ps => map package_line ps
  end.

(** ** The map search URL (gui.py 750-751) *)
Definition map_url (address : string) : string :=
  "https://yandex.ru/maps/?text=" +:+ py_quote address.

(** ** Handlers *)

Definition NOT_FOUND_INFO : string := "Информация не найдена".

(** The text of [result_var] and of the dialog after a send (gui.py 288,
    298). *)
Definition sent_message (tn : string) : string :=
  "Посылка успешно отправлена!" +:+ nl +:+ "Номер для отслеживания: " +:+ tn.

Section Handlers.
Context {G : Type} `{RandomSource G}.

(** [send_package] (gui.py 271-302) *)
Definition on_send_package (now : datetime) (st : gui) (w : world G) : gui * world G :=
  let t := send_view st in
  let sdr := py_strip (sender_entry t) in
  let rcp := py_strip (recipient_entry t) in
  let sa := py_strip (sender_address_entry t) in
  let ra := py_strip (recipient_address_entry t) in
  let desc := py_strip (text_get (description_text t)) in
  if String.eqb sdr "" || String.eqb rcp "" || String.eqb desc "" then
    (show st (ShowError "Ошибка" "Пожалуйста, заполните все обязательные поля."), w)
  else
    let '(o, d, g) :=
      send_package (Some desc) (Some sdr) (Some rcp) (Some sa) (Some ra) now (w_db w) (w_rng w) in
    match o with
    | Ok tn =>
        let msg := sent_message tn in
        let st1 := set_send st (mk_send_tab "" "" "" "" "" msg) in
        (show (set_status_var st1 ("Посылка отправлена. Номер: " +:+ tn)) (ShowInfo "Успех" msg),
         mk_world d g)
    | Err msg =>
        let st1 := set_send st (mk_send_tab (sender_entry t) (recipient_entry t)
                     (sender_address_entry t) (recipient_address_entry t) (description_text t)
                     ("Ошибка при отправке посылки: " +:+ msg)) in
        (show (set_status_var st1 "Ошибка при отправке посылки") (ShowError "Ошибка" msg),
         mk_world d g)
    end.

(** [track_package] (gui.py 304-360).  A row whose [created_at] is NULL
    makes ['.' in created_at] raise: the labels and the description are
    already set, the date and the status bar are not. *)
Definition on_track_package (st : gui) (w : world G) : gui :=
  let t := track_view st in
  let tn := py_strip (tracking_entry t) in
  if String.eqb tn "" then show st (ShowError "Ошибка" "Пожалуйста, введите номер отслеживания.")
  else
    match track_package (Some tn) (w_db w) with
    | Ok p =>
        let status := py_fmt (status p) in
        let labels date := mk_track_tab (tracking_entry t) ("Статус: " +:+ status)
                             ("Отправитель: " +:+ py_fmt (sender p))
                             ("Получатель: " +:+ py_fmt (recipient p))
                             (py_fmt (description p)) date in
        match created_at p with
        | Some c =>
            set_status_var (set_track st (labels ("Дата отправки: " +:+ date_str c)))
              ("Посылка " +:+ tn +:+ " отслежена. Статус: " +:+ status)
        | None => set_track st (labels (date_label t))
        end
    | Err msg =>
        let st1 := set_track st (mk_track_tab (tracking_entry t)
                     ("Статус: " +:+ NOT_FOUND_INFO) ("Отправитель: " +:+ NOT_FOUND_INFO)
                     ("Получатель: " +:+ NOT_FOUND_INFO) NOT_FOUND_INFO
                     ("Дата отправки: " +:+ NOT_FOUND_INFO)) in
        show (set_status_var st1 ("Ошибка при отслеживании посылки " +:+ tn))
          (ShowError "Ошибка" msg)
    end.

(** [refresh_reviews] (gui.py 573-587): the window with the list box
    emptied and refilled up to the end of the loop, and whether the loop
    raised. *)
Definition on_refresh_reviews (st : gui) (w : world G) : gui * bool :=
  let t := review_view st in
  let '(lines, raised) := review_lines (get_reviews (w_db w)) in
  (set_review st (mk_review_tab (review_tracking_entry t) (customer_name_entry t) (rating_var t)
                    (review_comment_text t) lines), raised).

(** [add_review] (gui.py 542-571); [int()] of the rating raises before
    anything changes when the combobox text is not a number; when
    [refresh_reviews] raises, the success dialog is not shown. *)
Definition on_add_review (now : datetime) (st : gui) (w : world G) : gui * world G :=
  let t := review_view st in
  let tn := py_strip (review_tracking_entry t) in
  let cn := py_strip (customer_name_entry t) in
  match py_int (rating_var t) with
  | None => (st, w)
  | Some r =>
      let cm := py_strip (text_get (review_comment_text t)) in
      if String.eqb cn "" then (show st (ShowError "Ошибка" "Пожалуйста, введите ваше имя."), w)
      else
        let '(o, d) := add_review (Some tn) (Some cn) r (Some cm) now (w_db w) in
        let w' := mk_world d (w_rng w) in
        match o with
        | Ok msg =>
            let st1 := set_review (set_status_var st "Отзыв успешно добавлен")
                         (mk_review_tab "" "" "5" "" (reviews_listbox t)) in
            let '(st2, raised) := on_refresh_reviews st1 w' in
            if raised then (st2, w') else (show st2 (ShowInfo "Успех" msg), w')
        | Err msg =>
            (show (set_status_var st "Ошибка при добавлении отзыва") (ShowError "Ошибка" msg), w')
        end
  end.

(** [refresh_couriers] (gui.py 618-630): the list is rebuilt and its
    selection cleared. *)
Definition on_refresh_couriers (st : gui) (w : world G) : gui :=
  let t := courier_view st in
  set_courier st (mk_courier_tab (courier_name_entry t) (courier_phone_entry t)
                    (courier_email_entry t) (map courier_line (get_couriers (w_db w))) None).

(** [add_courier] (gui.py 589-616) *)
Definition on_add_courier (now : datetime) (st : gui) (w : world G) : gui * world G :=
  let t := courier_view st in
  let nm := py_strip (courier_name_entry t) in
  let ph := py_strip (courier_phone_entry t) in
  let em := py_strip (courier_email_entry t) in
  if String.eqb nm "" then (show st (ShowError "Ошибка" "Пожалуйста, введите имя курьера."), w)
  else
    let '(o, d) := add_courier (Some nm) (Some ph) (Some em) now (w_db w) in
    let w' := mk_world d (w_rng w) in
    match o with
    | Ok msg =>
        let st1 := set_courier (set_status_var st "Курьер успешно добавлен")
                     (mk_courier_tab "" "" "" (couriers_listbox t) (couriers_selection t)) in
        (show (on_refresh_couriers st1 w') (ShowInfo "Успех" msg), w')
    | Err msg =>
        (show (set_status_var st "Ошибка при добавлении курьера") (ShowError "Ошибка" msg), w')
    end.

(** [delete_courier] (gui.py 632-654): the [messagebox.askyesno] question
    is shown, and [confirm] is the user's answer to it. *)
Definition on_delete_courier (confirm : bool) (st : gui) (w : world G) : gui * world G :=
  let t := courier_view st in
  match couriers_selection t with
  | None => (show st (ShowError "Ошибка" "Пожалуйста, выберите курьера для удаления."), w)
  | Some i =>
      match parse_courier_id (listbox_get (couriers_listbox t) i) with
      | None => (st, w)
      | Some cid =>
          let st0 := show st (AskYesNo "Подтверждение" "Вы уверены, что хотите удалить этого курьера?") in
          if confirm then
            let '(o, d) := remove_courier cid (w_db w) in
            let w' := mk_world d (w_rng w) in
            match o with
            | Ok msg =>
                (show (on_refresh_couriers (set_status_var st0 "Курьер успешно удален") w')
                   (ShowInfo "Успех" msg), w')
            | Err msg =>
                (show (set_status_var st0 "Ошибка при удалении курьера") (ShowError "Ошибка" msg), w')
            end
          else (st0, w)
      end
  end.

(** What [webbrowser.open(url)] (gui.py 753) does on the machine: it hands
    the URL to a browser and returns [True]; it finds no runnable browser
    and returns [False] without opening anything; or it raises, [e] being
    [str] of the exception. *)
Inductive browser :=
| BrowserOpens
| BrowserMissing
| BrowserRaises (e : string).

(** The call [webbrowser.open(url)]: the window with the URL opened (or
    not), or the message of the exception. *)
Definition webbrowser_open (b : browser) (st : gui) (url : string) : gui + string :=
  match b with
  | BrowserOpens => inl (open_url st url)
  | BrowserMissing => inl st
  | BrowserRaises e => inr e
  end.

(** [search_address] (gui.py 738-758); the [try] block sets the status bar
    and shows the success dialog once [webbrowser.open] has returned,
    whatever it returned. *)
Definition on_search_address (b : browser) (st : gui) : gui :=
  let address := py_strip (address_entry (map_view st)) in
  if String.eqb address "" then show st (ShowError "Ошибка" "Пожалуйста, введите адрес для поиска.")
  else
    match webbrowser_open b st (map_url address) with
    | inl st0 =>
        let st1 := set_status_var st0 ("Адрес '" +:+ address +:+ "' открыт в Яндекс.Картах") in
        show st1 (ShowInfo "Успех" ("Адрес '" +:+ address +:+ "' открыт в Яндекс.Картах!"))
    | inr e => show st (ShowError "Ошибка" ("Не удалось открыть браузер: " +:+ e))
    end.

(** [refresh_packages_list] (gui.py 760-787) *)
Definition on_refresh_packages (st : gui) (w : world G) : gui :=
  set_map st (mk_map_tab (address_entry (map_view st)) (packages_lines (w_db w)) None).

(** [show_selected_address] (gui.py 789-822): the second word of the line
    is taken as the tracking number; [split()[1]] raises on a line of one
    word. *)
Definition on_show_selected_address (b : browser) (st : gui) (w : world G) : gui :=
  let t := map_view st in
  match packages_selection t with
  | None => show st (ShowError "Ошибка" "Пожалуйста, выберите посылку из списка.")
  | Some i =>
      let text := listbox_get (packages_listbox t) i in
      if py_contains "Нет посылок" text || py_contains "недоступен" text then
        show st (ShowInfo "Информация" "Выберите реальную посылку из списка.")
      else
        match nth_error (py_split_ws text) 1 with
        | None => st
        | Some tn =>
            match track_package (Some tn) (w_db w) with
            | Ok p =>
                let sa := sender_address p in
                let ra := recipient_address p in
                if py_truthy sa || py_truthy ra then
                  let shown := if py_truthy ra then py_fmt ra else py_fmt sa in
                  on_search_address b (set_map st (mk_map_tab shown (packages_listbox t)
                                                   (packages_selection t)))
                else show st (ShowInfo "Информация" "Для этой посылки не указаны адреса.")
            | Err _ => show st (ShowError "Ошибка" "Не удалось найти информацию о посылке.")
            end
        end
  end.

End Handlers.

(** ** Sessions: the window built by [__init__] and the events between
    callbacks *)

(** [__init__] (gui.py 27-83): the tabs are set up in order, each list box
    filled by its refresh ([setup_review_frame], [setup_courier_frame] and
    [setup_map_frame] call [refresh_reviews], [refresh_couriers] and
    [refresh_packages_list]), then the status bar says "Готово к работе". *)
Definition app_init (d : db) : gui :=
  mk_gui (mk_send_tab "" "" "" "" "" "Здесь будет показан результат отправки посылки")
    (mk_track_tab "" ("Статус: " +:+ NOT_FOUND_INFO) ("Отправитель: " +:+ NOT_FOUND_INFO)
       ("Получатель: " +:+ NOT_FOUND_INFO) NOT_FOUND_INFO ("Дата отправки: " +:+ NOT_FOUND_INFO))
    (mk_review_tab "" "" "5" "" (fst (review_lines (get_reviews d))))
    (mk_courier_tab "" "" "" (map courier_line (get_couriers d)) None)
    (mk_map_tab "" (packages_lines d) None)
    "Готово к работе" [] [].

(** The entries and text areas a user types into. *)
Inductive field :=
| FSender | FRecipient | FSenderAddress | FRecipientAddress | FDescription
| FTracking | FReviewTracking | FCustomerName | FReviewComment
| FCourierName | FCourierPhone | FCourierEmail | FAddress.

Definition set_field (f : field) (v : string) (st : gui) : gui :=
  let s := send_view st in
  let r := review_view st in
  let c := courier_view st in
  let m := map_view st in
  match f with
  | FSender => set_send st (mk_send_tab v (recipient_entry s) (sender_address_entry s)
                              (recipient_address_entry s) (description_text s) (result_var s))
  | FRecipient => set_send st (mk_send_tab (sender_entry s) v (sender_address_entry s)
                                 (recipient_address_entry s) (description_text s) (result_var s))
  | FSenderAddress => set_send st (mk_send_tab (sender_entry s) (recipient_entry s) v
                                     (recipient_address_entry s) (description_text s) (result_var s))
  | FRecipientAddress => set_send st (mk_send_tab (sender_entry s) (recipient_entry s)
                                        (sender_address_entry s) v (description_text s) (result_var s))
  | FDescription => set_send st (mk_send_tab (sender_entry s) (recipient_entry s)
                                   (sender_address_entry s) (recipient_address_entry s) v (result_var s))
  | FTracking =>
      let t := track_view st in
      set_track st (mk_track_tab v (status_label t) (sender_label t) (recipient_label t)
                      (description_info t) (date_label t))
  | FReviewTracking => set_review st (mk_review_tab v (customer_name_entry r) (rating_var r)
                                        (review_comment_text r) (reviews_listbox r))
  | FCustomerName => set_review st (mk_review_tab (review_tracking_entry r) v (rating_var r)
                                      (review_comment_text r) (reviews_listbox r))
  | FReviewComment => set_review st (mk_review_tab (review_tracking_entry r) (customer_name_entry r)
                                       (rating_var r) v (reviews_listbox r))
  | FCourierName => set_courier st (mk_courier_tab v (courier_phone_entry c) (courier_email_entry c)
                                      (couriers_listbox c) (couriers_selection c))
  | FCourierPhone => set_courier st (mk_courier_tab (courier_name_entry c) v (courier_email_entry c)
                                       (couriers_listbox c) (couriers_selection c))
  | FCourierEmail => set_courier st (mk_courier_tab (courier_name_entry c) (courier_phone_entry c) v
                                       (couriers_listbox c) (couriers_selection c))
  | FAddress => set_map st (mk_map_tab v (packages_listbox m) (packages_selection m))
  end.

(** The read-only rating combobox (gui.py 389-390). *)
Definition RATINGS : list string := ["1"; "2"; "3"; "4"; "5"].

Definition choose_rating (i : nat) (st : gui) : gui :=
  let r := review_view st in
  match nth_error RATINGS i with
  | Some v => set_review st (mk_review_tab (review_tracking_entry r) (customer_name_entry r) v
                              (review_comment_text r) (reviews_listbox r))
  | None => st
  end.

(** A click on a line of the courier or package list box.  Both list boxes
    export their selection (Tk's default), so selecting in one clears the
    other. *)
Definition select_courier (i : nat) (st : gui) : gui :=
  let c := courier_view st in
  let m := map_view st in
  if (i <? length (couriers_listbox c))%nat then
    set_map (set_courier st (mk_courier_tab (courier_name_entry c) (courier_phone_entry c)
                               (courier_email_entry c) (couriers_listbox c) (Some i)))
      (mk_map_tab (address_entry m) (packages_listbox m) None)
  else st.

Definition select_package (i : nat) (st : gui) : gui :=
  let c := courier_view st in
  let m := map_view st in
  if (i <? length (packages_listbox m))%nat then
    set_courier (set_map st (mk_map_tab (address_entry m) (packages_listbox m) (Some i)))
      (mk_courier_tab (courier_name_entry c) (courier_phone_entry c)
         (courier_email_entry c) (couriers_listbox c) None)
  else st.

(** [show_about] (gui.py 824-827) *)
Definition ABOUT_TEXT : string :=
  "Служба доставки" +:+ nl +:+ nl +:+ "Версия 1.0" +:+ nl +:+ nl
  +:+ "Простое приложение для отправки и отслеживания посылок," +:+ nl
  +:+ "управления курьерами, работы с отзывами клиентов" +:+ nl
  +:+ "и интеграцией с Яндекс.Картами".

Inductive event :=
| Input (f : field) (v : string)
| ChooseRating (i : nat)
| SelectCourier (i : nat)
| SelectPackage (i : nat)
| ClickSend (now : datetime)
| ClickTrack
| ClickAddReview (now : datetime)
| ClickRefreshReviews
| ClickAddCourier (now : datetime)
| ClickRefreshCouriers
| ClickDeleteCourier (confirm : bool)
| ClickSearchAddress (b : browser)
| ClickRefreshPackages
| ClickShowAddress (b : browser)
| ClickAbout.

Section Session.
Context {G : Type} `{RandomSource G}.

(** One callback of the Tk main loop. *)
Definition handle (ev : event) (st : gui) (w : world G) : gui * world G :=
  match ev with
  | Input f v => (set_field f v st, w)
  | ChooseRating i => (choose_rating i st, w)
  | SelectCourier i => (select_courier i st, w)
  | SelectPackage i => (select_package i st, w)
  | ClickSend now => on_send_package now st w
  | ClickTrack => (on_track_package st w, w)
  | ClickAddReview now => on_add_review now st w
  | ClickRefreshReviews => (fst (on_refresh_reviews st w), w)
  | ClickAddCourier now => on_add_courier now st w
  | ClickRefreshCouriers => (on_refresh_couriers st w, w)
  | ClickDeleteCourier confirm => on_delete_courier confirm st w
  | ClickSearchAddress b => (on_search_address b st, w)
  | ClickRefreshPackages => (on_refresh_packages st w, w)
  | ClickShowAddress b => (on_show_selected_address b st w, w)
  | ClickAbout => (show st (ShowInfo "О программе" ABOUT_TEXT), w)
  end.

Fixpoint session (evs : list event) (st : gui) (w : world G) : gui * world G :=
  match evs with
  | [] => (st, w)
  | ev :: evs' => let '(st1, w1) := handle ev st w in session evs' st1 w1
  end.

(** [main()] of main.py (13-21): [initialize_db()], then
    [DeliveryServiceApp(root)] builds the window on the database, then the
    main loop runs the callbacks ([session]). *)
Definition launch (file : option db) (seed : G) : gui * world G :=
  let w := main file seed in (app_init (w_db w), w).

(** The window and world after the user's events, from the start of the
    program. *)
Definition run_app (file : option db) (seed : G) (evs : list event) : gui * world G :=
  let '(st0, w0) := launch file seed in session evs st0 w0.

End Session.
