(* ===== verification/GuiLines.v ===== *)
(** * The list lines of gui.py read back, and the send and map forms

    The lines [refresh_couriers] and [refresh_packages_list] put in their
    list boxes are parsed again by [delete_courier] and
    [show_selected_address]; this file proves that the parse gives back
    the courier id and the tracking number, how the addresses on a
    package line are cut, that the date shown on the track tab and in the
    review list is the stored timestamp cut to the second, and what the
    map button does on the line of a package (including its refusal of a
    real package whose address contains "недоступен"); and, for the send
    form, that blank fields are refused, that a send either stores the
    package or keeps the form and the database, and that tracking the
    number shows what was sent. *)

From S2P Require Import Prelude PyStr Clock Tracking Store Service System Gui.

(** ** The courier list: a selected line gives back the courier's id *)

Lemma split_head_courier_line (ds rest : string) :
  all_chars int_char ds = true -> ds <> "" ->
  split_head " | " ("ID: " +:+ ds +:+ " | " +:+ rest) = "ID: " +:+ ds.
Proof.
  intros Hds Hne. destruct ds as [|d ds']; [done|].
  change ("ID: " +:+ String d ds' +:+ " | " +:+ rest)
    with ("ID:" +:+ String " " (String d ds' +:+ " | " +:+ rest)).
  rewrite split_head_skip by reflexivity.
  cbn [all_chars] in Hds. apply andb_true_iff in Hds as [Hd Hds'].
  rewrite split_head_cons.
  - rewrite append_cons, split_head_skip, split_head_prefix by
      (apply prefix_app || (apply int_chars_not; [reflexivity|cbn [all_chars]; rewrite Hd; exact Hds'])).
    rewrite append_nil_r. reflexivity.
  - cbn [String.prefix]. destruct (ascii_dec " " " ") as [_|]; [|done].
    rewrite append_cons. apply prefix_head_ne. intros Heq.
    pose proof (int_char_not "|" d eq_refl Hd) as Hne'. rewrite <- Heq in Hne'. discriminate.
Qed.

Lemma courier_line_parse (c : courier) : parse_courier_id (courier_line c) = Some (courier_id c).
Proof.
  unfold parse_courier_id, courier_line. destruct (py_str_int_chars (courier_id c)) as [Hc Hne].
  rewrite split_head_courier_line by assumption.
  rewrite py_replace_head by (apply int_chars_not; [reflexivity|exact Hc]).
  apply py_int_str_int.
Qed.

(** C19: [delete_courier] reads back from every line of the courier list
    the id of the courier it shows: [int(line.split(" | ")[0].replace("ID: ",
    ""))] is [courier['id']], whatever the name, phone and e-mail hold. *)
Theorem courier_line_id (c : courier) : parse_courier_id (courier_line c) = Some (courier_id c).
Proof. apply courier_line_parse. Qed.

(** ** Dates on the track tab and in the review list *)

Lemma zpad_no_dot (w : nat) (n : Z) : all_chars (not_char ".") (zpad w n) = true.
Proof.
  apply (all_chars_impl is_digit); [|apply zpad_all_digits].
  intros c Hc. unfold not_char. destruct (Ascii.eqb_spec c ".") as [->|]; [discriminate Hc|reflexivity].
Qed.

Lemma iso_seconds_no_dot (d : datetime) : all_chars (not_char ".") (iso_seconds " " d) = true.
Proof. unfold iso_seconds. rewrite !all_chars_app, !zpad_no_dot. reflexivity. Qed.

(** C26: the date shown for a stored [created_at] ([created_at.split('.')[0]
    if '.' in created_at]) is the timestamp to the second: the text
    [adapt_datetime] stores for the same time with the microseconds
    dropped. *)
Theorem date_str_adapt_datetime (d : datetime) :
  date_str (adapt_datetime d)
  = adapt_datetime (mk_datetime (year d) (month d) (day d) (hour d) (minute d) (second d) 0).
Proof.
  unfold date_str, adapt_datetime. rewrite !isoformat_seconds. cbn [microsecond Z.eqb].
  change (iso_seconds " " (mk_datetime (year d) (month d) (day d) (hour d) (minute d) (second d) 0))
    with (iso_seconds " " d).
  rewrite append_nil_r. destruct (Z.eqb (microsecond d) 0).
  - rewrite append_nil_r, py_contains_char_absent by apply iso_seconds_no_dot. reflexivity.
  - rewrite append_cons, append_nil_l, py_contains_char_at, split_head_char_at
      by apply iso_seconds_no_dot.
    reflexivity.
Qed.

(** ** The review list is newest first *)

Lemma StronglySorted_app_cons {A} (R : A -> A -> Prop) (l1 l : list A) (x y : A) :
  StronglySorted R (l1 ++ x :: l)%list -> In y l -> R x y.
Proof.
  induction l1 as [|z l1 IH]; cbn [app]; intros Hs Hy.
  - apply StronglySorted_inv in Hs as [_ Hall]. exact (proj1 (Forall_forall _ _) Hall y Hy).
  - apply StronglySorted_inv in Hs as [Hs _]. exact (IH Hs Hy).
Qed.

Lemma reviews_sorted (d : db) :
  StronglySorted (fun r1 r2 => review_by_date_desc r1 r2 = true) (get_reviews d).
Proof.
  apply Sorted_StronglySorted; [|apply sort_by_sorted].
  - intros r1 r2 r3 H12 H23. exact (text_leb_trans _ _ _ H23 H12).
  - intros r1 r2. apply text_leb_total.
Qed.

(** C31: the review list ([get_reviews()], ORDER BY created_at DESC)
    puts no review after a newer one: for two reviews stored with valid
    times, the one listed first is not older. *)
Theorem reviews_newest_first (d : db) (l1 l2 l3 : list review) (r1 r2 : review) (t1 t2 : datetime) :
  get_reviews d = (l1 ++ r1 :: l2 ++ r2 :: l3)%list ->
  review_created_at r1 = Some (adapt_datetime t1) ->
  review_created_at r2 = Some (adapt_datetime t2) ->
  dt_valid t1 -> dt_valid t2 ->
  dt_compare t2 t1 <> Gt.
Proof.
  intros Hl H1 H2 Hv1 Hv2. pose proof (reviews_sorted d) as Hs. rewrite Hl in Hs.
  pose proof (StronglySorted_app_cons _ _ _ r1 r2 Hs (in_or_app _ _ _ (or_intror (in_eq r2 l3))))
    as Hr.
  unfold review_by_date_desc, text_leb in Hr. rewrite H1, H2, adapt_datetime_compare in Hr
    by assumption.
  destruct (dt_compare t2 t1); congruence.
Qed.

(** ** The package list: the map button finds the selected package *)

Lemma NoDup_map_same {A B} (f : A -> B) (l : list A) (x y : A) :
  NoDup (map f l) -> In x l -> In y l -> f x = f y -> x = y.
Proof.
  induction l as [|z l IH]; intros Hnd Hx Hy Hf; [contradiction|].
  cbn [map] in Hnd. apply list.NoDup_cons in Hnd as [Hz Hnd].
  destruct Hx as [<-|Hx], Hy as [<-|Hy]; [reflexivity| | |auto].
  - exfalso. apply Hz. rewrite Hf. apply list_elem_of_In, in_map, Hy.
  - exfalso. apply Hz. rewrite <- Hf. apply list_elem_of_In, in_map, Hx.
Qed.

(** Tracking numbers are unique, so the lookup finds the one row that
    carries the number. *)
Lemma get_package_unique (d : db) (p : package) (tn : string) :
  db_wf d -> In p (rows (packages d)) -> tracking_number p = Some tn ->
  get_package_by_tracking (Some tn) d = Some p.
Proof.
  intros Hwf Hp Htn. unfold get_package_by_tracking.
  destruct (List.find _ _) as [q|] eqn:E.
  - apply find_some in E as [Hq Heq]. apply sql_eq_Some in Heq. f_equal.
    apply (NoDup_map_same tracking_number (rows (packages d))); [apply Hwf|exact Hq|exact Hp|congruence].
  - eapply find_none in E; [|exact Hp]. rewrite Htn in E. cbn in E.
    rewrite String.eqb_refl in E. discriminate.
Qed.

Lemma tracking_chars_words (tn : string) :
  is_tracking_format tn = true -> all_chars (fun c => negb (space_lead c)) tn = true.
Proof.
  intros Hf. destruct tn as [|a [|b [|dash rest]]]; try discriminate.
  cbn [is_tracking_format] in Hf. rewrite !andb_true_iff in Hf.
  destruct Hf as ((((Ha & Hb) & Hd) & _) & Hr). apply Ascii.eqb_eq in Hd as ->.
  unfold is_upper in Ha, Hb. rewrite andb_true_iff, !Nat.leb_le in Ha, Hb.
  cbn [all_chars]. rewrite !space_lead_range by lia. cbn [negb andb].
  apply (all_chars_impl is_digit); [|exact Hr]. intros c Hc. apply is_digit_range in Hc.
  rewrite space_lead_range by lia. reflexivity.
Qed.

(** [selected_text.split()[1]] of a line of the package list is the
    package's tracking number. *)
Lemma package_line_tracking (p : package) (tn : string) :
  tracking_number p = Some tn -> is_tracking_format tn = true ->
  nth_error (py_split_ws (package_line p)) 1 = Some tn.
Proof.
  intros Htn Hf. unfold package_line. rewrite Htn. cbn [py_fmt].
  match goal with |- context [tn +:+ ?r] => set (rest := r) end.
  change ("Посылка " +:+ tn +:+ rest) with ("Посылка" +:+ String " " (tn +:+ rest)).
  apply split_ws_second; [discriminate| |reflexivity|apply tracking_chars_words, Hf|].
  - apply tracking_format_length in Hf. intros ->. discriminate.
  - unfold rest. do 2 case_if; rewrite ?append_nil_l; eauto.
Qed.

Section MapButton.
Context {G : Type} `{RandomSource G}.

(** "Показать на карте" on the line of a stored package whose line has
    neither "Нет посылок" nor "недоступен" in it, and which has an
    address, fills the address entry with the recipient's address (the
    sender's when the recipient has none) and runs the search on it. *)
Lemma show_address_of_line (b : browser) (st : gui) (w : world G) (i : nat) (p : package) (tn : string) :
  db_wf (w_db w) ->
  packages_selection (map_view st) = Some i ->
  nth_error (packages_listbox (map_view st)) i = Some (package_line p) ->
  In p (rows (packages (w_db w))) ->
  tracking_number p = Some tn -> is_tracking_format tn = true ->
  py_contains "Нет посылок" (package_line p) || py_contains "недоступен" (package_line p) = false ->
  py_truthy (sender_address p) || py_truthy (recipient_address p) = true ->
  on_show_selected_address b st w
  = on_search_address b (set_map st (mk_map_tab
      (py_fmt (if py_truthy (recipient_address p) then recipient_address p else sender_address p))
      (packages_listbox (map_view st)) (Some i))).
Proof.
  intros Hwf Hsel Hline Hin Htn Hf Hword Haddr.
  unfold on_show_selected_address, listbox_get. rewrite Hsel, (nth_error_nth _ _ _ Hline), Hword.
  rewrite (package_line_tracking p tn Htn Hf). unfold track_package.
  rewrite py_truthy_code, (get_package_unique (w_db w) p tn Hwf Hin Htn) by exact Hf.
  cbn [negb]. rewrite Haddr. destruct (py_truthy (recipient_address p)); reflexivity.
Qed.

(** The marker "недоступен" inside the first 30 code points of a shown
    address is on the package's line. *)
Lemma package_line_marker (p : package) (marker : string) :
  (py_truthy (sender_address p) = true /\ py_fmt (sender_address p) <> NO_ADDRESS
   /\ py_contains marker (py_prefix 30 (py_fmt (sender_address p))) = true)
  \/ (py_truthy (recipient_address p) = true /\ py_fmt (recipient_address p) <> NO_ADDRESS
      /\ py_contains marker (py_prefix 30 (py_fmt (recipient_address p))) = true) ->
  py_contains marker (package_line p) = true.
Proof.
  unfold package_line. intros [(Ht & Hn & Hc)|(Ht & Hn & Hc)];
    rewrite Ht, (proj2 (String.eqb_neq _ _) Hn); cbn [andb negb];
    apply py_contains_app_r, py_contains_app_r.
  - apply py_contains_app_l, py_contains_app_r, py_contains_app_l, Hc.
  - apply py_contains_app_r, py_contains_app_r, py_contains_app_l, Hc.
Qed.

(** C24: the map button refuses real packages: whenever the selected line
    is the line of a package one of whose shown addresses has "недоступен"
    within its first 30 code points, "Показать на карте" only answers
    "Выберите реальную посылку из списка." - no search, no URL opened, the
    window otherwise unchanged - because [show_selected_address] takes that
    word for the marker of [refresh_packages_list]'s error line. *)
Theorem show_selected_address_refuses_real_package (b : browser) (st : gui) (w : world G)
    (i : nat) (p : package) :
  packages_selection (map_view st) = Some i ->
  nth_error (packages_listbox (map_view st)) i = Some (package_line p) ->
  (py_truthy (sender_address p) = true /\ py_fmt (sender_address p) <> NO_ADDRESS
   /\ py_contains "недоступен" (py_prefix 30 (py_fmt (sender_address p))) = true)
  \/ (py_truthy (recipient_address p) = true /\ py_fmt (recipient_address p) <> NO_ADDRESS
      /\ py_contains "недоступен" (py_prefix 30 (py_fmt (recipient_address p))) = true) ->
  on_show_selected_address b st w
  = show st (ShowInfo "Информация" "Выберите реальную посылку из списка.").
Proof.
  intros Hsel Hline Haddr. unfold on_show_selected_address, listbox_get.
  rewrite Hsel, (nth_error_nth _ _ _ Hline), (package_line_marker p _ Haddr), orb_true_r.
  reflexivity.
Qed.

End MapButton.

(** ** Sending from the form, then tracking the number shown *)

Definition code_char (c : ascii) : bool := is_upper c || int_char c.

Lemma spaces_not_code_chars : Forall (fun t => all_chars code_char t = false) py_spaces.
Proof. vm_compute. repeat constructor. Qed.

(** A tracking number needs no stripping. *)
Lemma py_strip_tracking (tn : string) : is_tracking_format tn = true -> py_strip tn = tn.
Proof.
  intros Hf. apply (py_strip_id code_char spaces_not_code_chars).
  destruct tn as [|a [|b [|dash rest]]]; try discriminate.
  cbn [is_tracking_format] in Hf. rewrite !andb_true_iff in Hf.
  destruct Hf as ((((Ha & Hb) & Hd) & _) & Hr). apply Ascii.eqb_eq in Hd as ->.
  cbn [all_chars]. unfold code_char at 1 2 3. rewrite Ha, Hb. cbn [orb andb].
  apply (all_chars_impl is_digit); [|exact Hr]. unfold code_char, int_char. intros c ->.
  apply orb_true_r.
Qed.

Lemma append_inj_l (a x y : string) : a +:+ x = a +:+ y -> x = y.
Proof. induction a as [|c a IH]; [done|]. rewrite !append_cons. intros [= H]. auto. Qed.

Definition dialog_text (dl : dialog) : string :=
  match dl with ShowInfo _ m | ShowError _ m | AskYesNo _ m => m end.

Lemma sent_message_inj (a b : string) : sent_message a = sent_message b -> a = b.
Proof. unfold sent_message. intros Hab. repeat apply append_inj_l in Hab. exact Hab. Qed.

(** Every stored package has its line in the package list. *)
Lemma packages_lines_complete (d : db) (p : package) :
  In p (rows (packages d)) -> In (package_line p) (packages_lines d).
Proof.
  intros Hp. pose proof (Permutation_in p (sort_by_perm package_by_date_desc _) Hp) as Hs.
  unfold packages_lines, get_all_packages. revert Hs.
  destruct (sort_by package_by_date_desc (rows (packages d))) as [|q qs]; [intros []|].
  apply in_map.
Qed.

Section SendTrack.
Context {G : Type} `{RandomSource G}.

Lemma send_package_ok desc sdr rcp sa ra now (d d' : db) (g g' : G) (tn : string) :
  send_package desc sdr rcp sa ra now d g = (Ok tn, d', g') ->
  is_tracking_format tn = true /\ create_package (Some tn) desc sdr rcp sa ra now d = (true, d').
Proof.
  unfold send_package. destruct (negb _ || _ || _); [discriminate|].
  pose proof (generated_code_wellformed g) as Hfmt.
  destruct (generate_tracking_number g) as [code g1]. cbn [fst] in Hfmt.
  destruct (create_package (Some code) desc sdr rcp sa ra now d) as [[] d1] eqn:Ec; [|discriminate].
  intros [= <- <- _]. split; assumption.
Qed.

(** C29: the form round trip: when "Отправить" succeeds (the dialog
    "Успех" with the number [tn] is shown), typing [tn] into the track tab
    and clicking "Отследить" shows the status "Отправлена", the stripped
    sender, recipient and description typed into the send form, and the
    date of the send. *)
Theorem gui_send_then_track (now : datetime) (st st' : gui) (w w' : world G) (tn : string) :
  db_wf (w_db w) ->
  on_send_package now st w = (st', w') ->
  dialogs st' = (dialogs st ++ [ShowInfo "Успех" (sent_message tn)])%list ->
  let t := track_view (on_track_package (set_field FTracking tn st') w') in
  status_label t = "Статус: " +:+ SENT
  /\ sender_label t = "Отправитель: " +:+ py_strip (sender_entry (send_view st))
  /\ recipient_label t = "Получатель: " +:+ py_strip (recipient_entry (send_view st))
  /\ description_info t = py_strip (text_get (description_text (send_view st)))
  /\ date_label t = "Дата отправки: " +:+ date_str (adapt_datetime now).
Proof.
  intros Hwf Hsend Hdlg. revert Hsend. unfold on_send_package. case_if; intros Hsend.
  { injection Hsend as <- _. apply app_inv_head in Hdlg. discriminate. }
  destruct (send_package _ _ _ _ _ _ _ _) as [[o d] g] eqn:Es. destruct o as [tn0|msg];
    injection Hsend as <- <-; cbn [dialogs show set_status_var set_send] in Hdlg;
    apply app_inv_head in Hdlg; [|discriminate].
  injection Hdlg as Htn. unfold sent_message in Htn. apply append_inj_l in Htn.
  repeat apply append_inj_l in Htn. subst tn0.
  destruct (send_package_ok _ _ _ _ _ _ _ _ _ _ _ Es) as [Hf Hc].
  destruct (create_package_true tn _ _ _ _ _ _ _ _ Hwf Hc) as (_ & _ & Hget).
  unfold on_track_package. cbn [set_field track_view tracking_entry set_track w_db].
  rewrite py_strip_tracking by exact Hf.
  replace (String.eqb tn "") with false by (destruct tn; [discriminate|reflexivity]).
  unfold track_package. rewrite py_truthy_code, Hget by exact Hf. cbn.
  repeat split; reflexivity.
Qed.

Lemma send_package_err_db desc sdr rcp sa ra now (d d' : db) (g g' : G) (msg : string) :
  send_package desc sdr rcp sa ra now d g = (Err msg, d', g') -> d' = d.
Proof.
  unfold send_package. destruct (negb _ || _ || _); [intros [= _ <- _]; reflexivity|].
  destruct (generate_tracking_number g) as [code g1].
  unfold create_package. destruct (insert_package _ _ _ _ _ _ _ _); intros Hs; inversion Hs.
  reflexivity.
Qed.

(** C35: "Отправить" on a well-formed database either succeeds, storing
    a package "Отправлена" from the stripped sender under the number
    shown, clearing the form and showing that number; or it fails (a blank
    required field, a collision of the drawn number, a failed INSERT) and
    then the form keeps what was typed, the database is unchanged, and the
    last dialog is an error. *)
Theorem gui_send_outcome (now : datetime) (st : gui) (w : world G) :
  db_wf (w_db w) ->
  let t := send_view st in
  let '(st', w') := on_send_package now st w in
  (exists tn p, last (dialogs st') (ShowError "" "") = ShowInfo "Успех" (sent_message tn)
     /\ send_view st' = mk_send_tab "" "" "" "" "" (sent_message tn)
     /\ get_package_by_tracking (Some tn) (w_db w') = Some p
     /\ status p = Some SENT /\ sender p = Some (py_strip (sender_entry t)))
  \/ (w_db w' = w_db w
      /\ sender_entry (send_view st') = sender_entry t
      /\ recipient_entry (send_view st') = recipient_entry t
      /\ sender_address_entry (send_view st') = sender_address_entry t
      /\ recipient_address_entry (send_view st') = recipient_address_entry t
      /\ description_text (send_view st') = description_text t
      /\ exists msg, last (dialogs st') (ShowError "" "") = ShowError "Ошибка" msg).
Proof.
  intros Hwf. cbv zeta. unfold on_send_package. case_if.
  { right. cbn [show w_db send_view dialogs]. rewrite last_last. repeat split; eexists; reflexivity. }
  destruct (send_package _ _ _ _ _ _ _ _) as [[o d] g] eqn:Es. destruct o as [tn|msg].
  - left. destruct (send_package_ok _ _ _ _ _ _ _ _ _ _ _ Es) as [_ Hc].
    destruct (create_package_true tn _ _ _ _ _ _ _ _ Hwf Hc) as (_ & _ & Hget).
    exists tn. eexists. cbn [show set_status_var set_send dialogs send_view w_db].
    rewrite last_last. repeat split; [exact Hget|reflexivity..].
  - right. apply send_package_err_db in Es as ->. cbn [show set_status_var set_send dialogs send_view w_db].
    rewrite last_last. repeat split; eexists; reflexivity.
Qed.

(** C36: the package list of the map tab is not refreshed by a send:
    right after "Отправить" succeeds with number [tn] the map tab is as it
    was, and only "Обновить список" makes the line of the package stored
    under [tn] appear in it. *)
Theorem send_then_refresh_lists_package (now : datetime) (st : gui) (w : world G) (tn : string) :
  db_wf (w_db w) ->
  let '(st1, w1) := on_send_package now st w in
  last (dialogs st1) (ShowError "" "") = ShowInfo "Успех" (sent_message tn) ->
  map_view st1 = map_view st
  /\ exists p, tracking_number p = Some tn
     /\ In (package_line p) (packages_listbox (map_view (on_refresh_packages st1 w1))).
Proof.
  intros Hwf. unfold on_send_package. case_if.
  { cbn [show dialogs]. rewrite last_last. discriminate. }
  destruct (send_package _ _ _ _ _ _ _ _) as [[o d] g] eqn:Es.
  destruct o as [tn0|msg]; cbn [show set_status_var set_send dialogs]; rewrite last_last;
    [|discriminate].
  intros Htn. apply (f_equal dialog_text) in Htn. apply sent_message_inj in Htn.
  subst tn0. split; [reflexivity|].
  destruct (send_package_ok _ _ _ _ _ _ _ _ _ _ _ Es) as [_ Hc].
  destruct (create_package_true tn _ _ _ _ _ _ _ _ Hwf Hc) as (_ & _ & Hget).
  apply find_some in Hget as [Hin _].
  match type of Hin with In ?r _ => exists r end.
  split; [reflexivity|]. apply packages_lines_complete, Hin.
Qed.

Lemma py_strip_blank_text (ws : list string) :
  Forall (fun t => In t py_spaces) ws -> py_strip (text_get (fold_right String.append "" ws)) = "".
Proof.
  intros Hws. unfold text_get.
  replace (fold_right String.append "" ws +:+ nl) with (fold_right String.append "" (ws ++ [nl])).
  - apply py_strip_blank, Forall_app. split; [exact Hws|constructor; [|constructor]].
    vm_compute. tauto.
  - rewrite fold_right_app. cbn [fold_right]. rewrite append_nil_r.
    induction ws as [|t ws IH]; [reflexivity|]. cbn [fold_right]. rewrite append_assoc, IH; [reflexivity|]. inversion Hws; assumption.
Qed.

(** C27: whitespace alone does not fill a required field of the send
    form: when the sender, the recipient or the description is made only
    of whitespace characters (any of those of Python's [str.isspace], in
    any number), "Отправить" shows "Пожалуйста, заполните все обязательные
    поля." and changes nothing else: no number is drawn, nothing is stored
    and the form keeps its text. *)
Theorem send_blank_field_refused (now : datetime) (st : gui) (w : world G) (ws : list string) :
  Forall (fun t => In t py_spaces) ws ->
  sender_entry (send_view st) = fold_right String.append "" ws
  \/ recipient_entry (send_view st) = fold_right String.append "" ws
  \/ description_text (send_view st) = fold_right String.append "" ws ->
  on_send_package now st w
  = (show st (ShowError "Ошибка" "Пожалуйста, заполните все обязательные поля."), w).
Proof.
  intros Hws Hb. unfold on_send_package. cbv zeta.
  replace (String.eqb (py_strip (sender_entry (send_view st))) ""
           || String.eqb (py_strip (recipient_entry (send_view st))) ""
           || String.eqb (py_strip (text_get (description_text (send_view st)))) "") with true;
    [reflexivity|].
  destruct Hb as [Hb|[Hb|Hb]]; rewrite Hb;
    [rewrite (py_strip_blank ws Hws)|rewrite (py_strip_blank ws Hws)|rewrite (py_strip_blank_text ws Hws)];
    cbn [String.eqb]; rewrite ?orb_true_r; reflexivity.
Qed.

End SendTrack.

(** ** The addresses of the package list *)

(** What [refresh_packages_list] appends for one address (gui.py
    782-785): nothing when the address is empty or "Не указан"; otherwise
    the label, the first 30 code points of the address, and "...". *)
Definition address_part (label : string) (a : text) (x : string) : Prop :=
  (py_truthy a && negb (String.eqb (py_fmt a) NO_ADDRESS) = false /\ x = "")
  \/ (py_truthy a && negb (String.eqb (py_fmt a) NO_ADDRESS) = true
      /\ exists y, x = label +:+ y +:+ "..." /\ String.prefix y (py_fmt a) = true
                  /\ py_len y = Nat.min 30 (py_len (py_fmt a))).

Lemma address_part_of (label : string) (a : text) :
  address_part label a
    (if py_truthy a && negb (String.eqb (py_fmt a) NO_ADDRESS)
     then label +:+ py_prefix 30 (py_fmt a) +:+ "..." else "").
Proof.
  unfold address_part. destruct (py_truthy a && _) eqn:E; [right|left; split; reflexivity].
  split; [reflexivity|]. exists (py_prefix 30 (py_fmt a)).
  destruct (py_prefix_len 30 (py_fmt a)) as (Hl & Hp & _). split; [reflexivity|split; assumption].
Qed.

(** C38: a line of the package list is "Посылка " and the tracking number,
    followed by the sender's and then the recipient's address part: empty
    for an empty or "Не указан" address, and otherwise " | От: " (resp.
    " | До: "), the address cut to its first min(30, len) code points (a
    byte prefix of it) and "...". *)
Theorem package_line_addresses (p : package) :
  exists xs xr,
    package_line p = "Посылка " +:+ py_fmt (tracking_number p) +:+ xs +:+ xr
    /\ address_part " | От: " (sender_address p) xs
    /\ address_part " | До: " (recipient_address p) xr.
Proof.
  eexists _, _. split; [unfold package_line; reflexivity|].
  split; apply address_part_of.
Qed.

(** ** The map search *)

(** C30: "Найти на карте" with an empty (or blank) address shows an
    error and opens nothing, whatever the browser; otherwise, when the
    browser opens, exactly one URL is opened, the map service's search with
    a query made only of unreserved characters, [/] and [%] escapes, which
    decodes back to the stripped address. *)
Theorem search_address_url (b : browser) (st : gui) :
  let address := py_strip (address_entry (map_view st)) in
  (address = "" ->
   opened_urls (on_search_address b st) = opened_urls st
   /\ dialogs (on_search_address b st)
      = (dialogs st ++ [ShowError "Ошибка" "Пожалуйста, введите адрес для поиска."])%list)
  /\ (address <> "" ->
      exists q, opened_urls (on_search_address BrowserOpens st)
                = (opened_urls st ++ ["https://yandex.ru/maps/?text=" +:+ q])%list
      /\ all_chars url_char q = true /\ unquote_to_bytes q = address).
Proof.
  cbv zeta. unfold on_search_address.
  destruct (String.eqb_spec (py_strip (address_entry (map_view st))) "") as [He|Hne].
  - split; [intros _; split; reflexivity|intros Hne; contradiction].
  - split; [intros He; contradiction|intros _].
    exists (py_quote (py_strip (address_entry (map_view st)))).
    split; [reflexivity|]. split; [apply quote_url_chars|apply unquote_quote].
Qed.

(** C33: with an address that is not blank, when [webbrowser.open] raises
    the window shows "Не удалось открыть браузер: " and the exception's
    text and is otherwise unchanged (no URL opened, the status bar as it
    was); when no browser can be found ([webbrowser.open] returns [False])
    nothing is opened, yet the status bar and the dialog report the address
    as opened. *)
Theorem search_address_browser_failure (st : gui) (e : string) :
  let address := py_strip (address_entry (map_view st)) in
  address <> "" ->
  on_search_address (BrowserRaises e) st
  = show st (ShowError "Ошибка" ("Не удалось открыть браузер: " +:+ e))
  /\ opened_urls (on_search_address BrowserMissing st) = opened_urls st
  /\ status_var (on_search_address BrowserMissing st)
     = "Адрес '" +:+ address +:+ "' открыт в Яндекс.Картах"
  /\ last (dialogs (on_search_address BrowserMissing st)) (ShowError "" "")
     = ShowInfo "Успех" ("Адрес '" +:+ address +:+ "' открыт в Яндекс.Картах!").
Proof.
  cbv zeta. intros Hne. unfold on_search_address. apply String.eqb_neq in Hne. rewrite Hne.
  split; [reflexivity|]. split; [reflexivity|]. split; [reflexivity|]. apply last_last.
Qed.
