(* ===== verification/GuiSession.v ===== *)
(** * Sessions of the window

    A session is the sequence of callbacks the Tk main loop runs from
    [main()].  This file proves what holds along every session: the
    world changes only as service calls would change it (and never by
    [update_status]), the courier and review list boxes always show the
    database, the delete button deletes the courier on the selected line,
    the package list only shows stored packages, and the map button on a
    selected line searches that package's address; the rating combobox
    always holds 1..5; the track labels come from the database alone;
    courier lines read back as distinct ids; the review form either
    stores the review or changes nothing; and it runs sample sessions
    that witness these theorems. *)

From S2P Require Import Prelude PyStr Clock Tracking Store Service System Gui GuiLines.
(** ** What the callbacks do to the database *)

Section GuiWorld.
Context {G : Type} `{RandomSource G}.

(** Each callback leaves the world alone or changes it as one call of
    the service layer would. *)
Lemma handle_world (ev : event) (st : gui) (w : world G) :
  snd (handle ev st w) = w
  \/ exists c, gui_call c = true /\ snd (handle ev st w) = snd (exec c w).
Proof.
  destruct ev as [f v|i|i|i|now| |now| |now| |confirm|b| |b| ]; cbn [handle snd];
    try (left; reflexivity).
  - unfold on_send_package. case_if; [left; reflexivity|right].
    set (t := send_view st).
    exists (SendPackage (Some (py_strip (text_get (description_text t))))
         (Some (py_strip (sender_entry t))) (Some (py_strip (recipient_entry t)))
         (Some (py_strip (sender_address_entry t))) (Some (py_strip (recipient_address_entry t)))
         now).
    split; [reflexivity|]. cbn [exec].
    destruct (send_package _ _ _ _ _ _ _ _) as [[[] d] g]; reflexivity.
  - unfold on_add_review. destruct (py_int _) as [r|]; [|left; reflexivity].
    case_if; [left; reflexivity|right].
    set (t := review_view st).
    exists (AddReview (Some (py_strip (review_tracking_entry t))) (Some (py_strip (customer_name_entry t)))
         r (Some (py_strip (text_get (review_comment_text t)))) now).
    split; [reflexivity|]. cbn [exec].
    destruct (add_review _ _ _ _ _ _) as [[] d]; [destruct (on_refresh_reviews _ _) as [? []]|];
      reflexivity.
  - unfold on_add_courier. case_if; [left; reflexivity|right].
    set (t := courier_view st).
    exists (AddCourier (Some (py_strip (courier_name_entry t))) (Some (py_strip (courier_phone_entry t)))
         (Some (py_strip (courier_email_entry t))) now).
    split; [reflexivity|]. cbn [exec].
    destruct (add_courier _ _ _ _ _) as [[] d]; reflexivity.
  - unfold on_delete_courier. destruct (couriers_selection _) as [i|]; [|left; reflexivity].
    destruct (parse_courier_id _) as [cid|]; [|left; reflexivity].
    destruct confirm; [right|left; reflexivity].
    exists (RemoveCourier cid). split; [reflexivity|]. cbn [exec].
    destruct (remove_courier cid _) as [[] d]; reflexivity.
Qed.

Lemma session_cons (ev : event) (evs : list event) (st : gui) (w : world G) :
  session (ev :: evs) st w = session evs (fst (handle ev st w)) (snd (handle ev st w)).
Proof. cbn [session]. destruct (handle ev st w). reflexivity. Qed.

Lemma session_reachable (evs : list event) (st : gui) (w : world G) :
  reachable w -> reachable (snd (session evs st w)).
Proof.
  revert st w. induction evs as [|ev evs IH]; intros st w Hw; [exact Hw|].
  rewrite session_cons. apply IH.
  destruct (handle_world ev st w) as [-> | (c & _ & ->)]; [exact Hw|constructor; exact Hw].
Qed.

(** C20: the window refines the service layer: whatever the user types,
    selects and clicks, the database and random state after a session are
    those after some sequence of service calls that never includes
    [update_status]. *)
Theorem session_refines_calls (evs : list event) (st : gui) (w : world G) :
  exists cs, forallb gui_call cs = true /\ snd (session evs st w) = snd (run cs w).
Proof.
  revert st w. induction evs as [|ev evs IH]; intros st w; [exists []; split; reflexivity|].
  rewrite session_cons. destruct (IH (fst (handle ev st w)) (snd (handle ev st w)))
    as (cs & Hcs & Hrun).
  destruct (handle_world ev st w) as [Hw|(c & Hc & Hw)]; rewrite Hw in Hrun |- *.
  - exists cs. split; assumption.
  - exists (c :: cs). split; [cbn; rewrite Hc; exact Hcs|]. rewrite run_cons. exact Hrun.
Qed.

(** C18: every package ever shown by the application has the status
    "Отправлена": from a fresh install, in every session, all rows of
    [packages] keep the status they were created with. *)
Theorem session_packages_stay_sent (seed : G) (evs : list event) :
  Forall (fun p => status p = Some SENT) (rows (packages (w_db (snd (run_app None seed evs))))).
Proof.
  cbn [run_app launch].
  change (all_sent (packages (w_db (snd (session evs (app_init (w_db (main (G:=G) None seed)))
                                          (main None seed)))))).
  assert (Hinit : all_sent (packages (w_db (main (G:=G) None seed)))) by constructor.
  revert Hinit. generalize (app_init (w_db (main (G:=G) None seed))) as st.
  generalize (main (G:=G) None seed) as w.
  induction evs as [|ev evs IH]; intros w st Hw; [exact Hw|].
  rewrite session_cons. apply IH.
  destruct (handle_world ev st w) as [-> | (c & Hc & ->)]; [exact Hw|].
  apply exec_all_sent; assumption.
Qed.

End GuiWorld.

(** ** The courier and review lists show the database *)

(** A failed call leaves the tables it would have written as they were. *)
Lemma add_courier_err nm ph em now (d d' : db) (msg : string) :
  add_courier nm ph em now d = (Err msg, d') -> d' = d.
Proof.
  unfold add_courier. destruct (negb _); [intros [= _ <-]; reflexivity|].
  destruct (create_courier nm ph em now d) as [[|] d1] eqn:E; [discriminate|].
  intros [= _ <-]. unfold create_courier in E. destruct (insert_courier _ _ _ _ _); congruence.
Qed.

Lemma add_review_err tn cn r cm now (d d' : db) (msg : string) :
  add_review tn cn r cm now d = (Err msg, d') -> d' = d.
Proof.
  unfold add_review. destruct (_ || _); [intros [= _ <-]; reflexivity|].
  destruct (negb _); [intros [= _ <-]; reflexivity|].
  destruct (create_review tn cn r cm now d) as [[|] d1] eqn:E; [discriminate|].
  intros [= _ <-]. unfold create_review in E. destruct (insert_review _ _ _ _ _ _); congruence.
Qed.

Lemma add_review_ok tn cn r cm now (d d' : db) (msg : string) :
  add_review tn cn r cm now d = (Ok msg, d') ->
  msg = MSG_REVIEW_ADDED /\ create_review tn cn r cm now d = (true, d').
Proof.
  unfold add_review. destruct (_ || _); [discriminate|]. destruct (negb _); [discriminate|].
  destruct (create_review tn cn r cm now d) as [[|] d1]; [|discriminate].
  intros [= <- <-]. split; reflexivity.
Qed.

Lemma filter_same_length {A} (f : A -> bool) (l : list A) :
  length (List.filter f l) = length l -> List.filter f l = l.
Proof.
  intros Hlen. apply filter_all_true. intros x Hx. destruct (f x) eqn:Hf; [reflexivity|].
  pose proof (filter_length_lt f l x Hx Hf). lia.
Qed.

Lemma remove_courier_err cid (d d' : db) (msg : string) :
  remove_courier cid d = (Err msg, d') ->
  rows (couriers d') = rows (couriers d) /\ reviews d' = reviews d.
Proof.
  unfold remove_courier, delete_courier, delete_courier_rows.
  destruct (in_int64 cid); [|intros [= _ <-]; split; reflexivity]. cbn [fst snd].
  destruct (0 <? _)%nat eqn:E; [discriminate|]. intros [= _ <-]. split; [|reflexivity].
  apply Nat.ltb_ge in E. apply filter_same_length.
  pose proof (filter_length_le (fun c => negb (courier_id c =? cid)%Z) (rows (couriers d))). cbn. lia.
Qed.

Section Lists.
Context {G : Type} `{RandomSource G}.

(** The courier list box shows [get_couriers()] line by line, its
    selection is one of its lines, and the review list box shows
    [get_reviews()]. *)
Definition lists_fresh (st : gui) (w : world G) : Prop :=
  couriers_listbox (courier_view st) = map courier_line (get_couriers (w_db w))
  /\ reviews_listbox (review_view st) = fst (review_lines (get_reviews (w_db w)))
  /\ (forall i, couriers_selection (courier_view st) = Some i ->
                (i < length (couriers_listbox (courier_view st)))%nat).

Lemma on_refresh_reviews_eq (st : gui) (w : world G) :
  on_refresh_reviews st w
  = (set_review st (mk_review_tab (review_tracking_entry (review_view st))
                      (customer_name_entry (review_view st)) (rating_var (review_view st))
                      (review_comment_text (review_view st)) (fst (review_lines (get_reviews (w_db w))))),
     snd (review_lines (get_reviews (w_db w)))).
Proof. unfold on_refresh_reviews. destruct (review_lines _); reflexivity. Qed.

Lemma lists_fresh_frame (st st' : gui) (w w' : world G) :
  couriers_listbox (courier_view st') = couriers_listbox (courier_view st) ->
  couriers_selection (courier_view st') = couriers_selection (courier_view st) ->
  reviews_listbox (review_view st') = reviews_listbox (review_view st) ->
  rows (couriers (w_db w')) = rows (couriers (w_db w)) ->
  rows (reviews (w_db w')) = rows (reviews (w_db w)) ->
  lists_fresh st w -> lists_fresh st' w'.
Proof.
  unfold lists_fresh, get_couriers, get_all_couriers, get_reviews, get_all_reviews.
  intros -> -> -> -> ->. exact id.
Qed.

Lemma lists_fresh_views (st st' : gui) (w : world G) :
  courier_view st' = courier_view st -> review_view st' = review_view st ->
  lists_fresh st w -> lists_fresh st' w.
Proof. intros Hc Hr. apply lists_fresh_frame; rewrite ?Hc, ?Hr; reflexivity. Qed.

Lemma lists_fresh_refresh_couriers (st : gui) (w : world G) :
  reviews_listbox (review_view st) = fst (review_lines (get_reviews (w_db w))) ->
  lists_fresh (on_refresh_couriers st w) w.
Proof. intros Hr. split; [reflexivity|]. split; [exact Hr|discriminate]. Qed.

(** The callbacks that do not write leave both list boxes alone. *)
Ltac views_kept :=
  repeat first [case_if | case_match | progress cbv zeta]; split; reflexivity.

Lemma track_views (st : gui) (w : world G) :
  courier_view (on_track_package st w) = courier_view st
  /\ review_view (on_track_package st w) = review_view st.
Proof. unfold on_track_package. views_kept. Qed.

Lemma search_views (b : browser) (st : gui) :
  courier_view (on_search_address b st) = courier_view st
  /\ review_view (on_search_address b st) = review_view st.
Proof. unfold on_search_address, webbrowser_open. destruct b; views_kept. Qed.

Lemma show_address_views (b : browser) (st : gui) (w : world G) :
  courier_view (on_show_selected_address b st w) = courier_view st
  /\ review_view (on_show_selected_address b st w) = review_view st.
Proof.
  unfold on_show_selected_address.
  repeat first [case_if | case_match | progress cbv zeta]; try (split; reflexivity).
  all: match goal with
       | |- courier_view (on_search_address ?b ?x) = _ /\ _ =>
           destruct (search_views b x) as [-> ->]; split; reflexivity
       end.
Qed.

Lemma send_package_lists desc sdr rcp sa ra now (d : db) (g : G) :
  let d' := snd (fst (send_package desc sdr rcp sa ra now d g)) in
  rows (couriers d') = rows (couriers d) /\ rows (reviews d') = rows (reviews d).
Proof.
  cbv zeta. destruct (send_package_db desc sdr rcp sa ra now d g) as [->|(tn & _ & ->)];
    [split; reflexivity|].
  destruct (create_package_tables tn desc sdr rcp sa ra now d) as (-> & -> & _). split; reflexivity.
Qed.

Lemma add_courier_reviews nm ph em now (d : db) :
  reviews (snd (add_courier nm ph em now d)) = reviews d.
Proof.
  destruct (add_courier_db nm ph em now d) as [->| ->]; [reflexivity|].
  apply (create_courier_tables nm ph em now d).
Qed.

Lemma add_review_couriers tn cn r cm now (d : db) :
  couriers (snd (add_review tn cn r cm now d)) = couriers d.
Proof.
  destruct (add_review_db tn cn r cm now d) as [->|(_ & ->)]; [reflexivity|].
  apply (create_review_tables tn cn r cm now d).
Qed.

Lemma remove_courier_reviews cid (d : db) : reviews (snd (remove_courier cid d)) = reviews d.
Proof. rewrite remove_courier_db. apply (delete_courier_tables cid d). Qed.

(** Every callback keeps both list boxes in step with the database. *)
Lemma handle_lists_fresh (ev : event) (st : gui) (w : world G) :
  lists_fresh st w -> lists_fresh (fst (handle ev st w)) (snd (handle ev st w)).
Proof.
  intros Hf. destruct ev as [f v|i|i|i|now| |now| |now| |confirm|b| |b| ]; cbn [handle fst snd].
  - apply (lists_fresh_frame st _ w w); try reflexivity; [destruct f; reflexivity..|exact Hf].
  - unfold choose_rating. destruct (nth_error _ _); exact Hf.
  - unfold select_courier. case_if; [|exact Hf]. destruct Hf as (Hc & Hr & _).
    split; [exact Hc|]. split; [exact Hr|]. intros j [= <-]. apply Nat.ltb_lt, E.
  - unfold select_package. case_if; [|exact Hf]. destruct Hf as (Hc & Hr & _).
    split; [exact Hc|]. split; [exact Hr|discriminate].
  - unfold on_send_package. case_if; [exact Hf|].
    pose proof (send_package_lists (Some (py_strip (text_get (description_text (send_view st)))))
      (Some (py_strip (sender_entry (send_view st)))) (Some (py_strip (recipient_entry (send_view st))))
      (Some (py_strip (sender_address_entry (send_view st))))
      (Some (py_strip (recipient_address_entry (send_view st)))) now (w_db w) (w_rng w)) as Hl.
    destruct (send_package _ _ _ _ _ _ _ _) as [[o d] g]. cbn in Hl. destruct Hl as [Hc Hr].
    destruct o; (apply (lists_fresh_frame st _ w); [reflexivity..|exact Hc|exact Hr|exact Hf]).
  - destruct (track_views st w) as [Hc Hr]. exact (lists_fresh_views st _ w Hc Hr Hf).
  - unfold on_add_review. destruct (py_int _) as [r|]; [|exact Hf]. case_if; [exact Hf|].
    destruct (add_review _ _ r _ now (w_db w)) as [o d] eqn:Ea. pose proof (add_review_couriers
      (Some (py_strip (review_tracking_entry (review_view st))))
      (Some (py_strip (customer_name_entry (review_view st)))) r
      (Some (py_strip (text_get (review_comment_text (review_view st))))) now (w_db w)) as Hc.
    rewrite Ea in Hc. cbn in Hc. destruct o as [msg|msg].
    + rewrite on_refresh_reviews_eq. cbn [w_db]. destruct Hf as (Hcl & _ & Hsel).
      destruct (snd (review_lines (get_reviews d)));
        (split; [cbn; rewrite Hcl; unfold get_couriers, get_all_couriers; rewrite Hc; reflexivity|];
         split; [reflexivity|exact Hsel]).
    + apply add_review_err in Ea as ->. exact Hf.
  - rewrite on_refresh_reviews_eq. split; [apply Hf|]. split; [reflexivity|apply Hf].
  - unfold on_add_courier. case_if; [exact Hf|].
    destruct (add_courier _ _ _ now (w_db w)) as [o d] eqn:Ea. pose proof (add_courier_reviews
      (Some (py_strip (courier_name_entry (courier_view st))))
      (Some (py_strip (courier_phone_entry (courier_view st))))
      (Some (py_strip (courier_email_entry (courier_view st)))) now (w_db w)) as Hr.
    rewrite Ea in Hr. cbn in Hr. destruct o as [msg|msg].
    + apply lists_fresh_refresh_couriers. destruct Hf as (_ & Hrl & _). cbn. rewrite Hrl.
      unfold get_reviews, get_all_reviews. rewrite Hr. reflexivity.
    + apply add_courier_err in Ea as ->. exact Hf.
  - apply lists_fresh_refresh_couriers, Hf.
  - unfold on_delete_courier. destruct (couriers_selection _) as [i|]; [|exact Hf].
    destruct (parse_courier_id _) as [cid|]; [|exact Hf]. destruct confirm; [|exact Hf].
    destruct (remove_courier cid (w_db w)) as [o d] eqn:Er.
    pose proof (remove_courier_reviews cid (w_db w)) as Hr. rewrite Er in Hr. cbn in Hr.
    destruct o as [msg|msg].
    + apply lists_fresh_refresh_couriers. destruct Hf as (_ & Hrl & _). cbn. rewrite Hrl.
      unfold get_reviews, get_all_reviews. rewrite Hr. reflexivity.
    + apply remove_courier_err in Er as [Hc Hr'].
      apply (lists_fresh_frame st _ w); [reflexivity..|exact Hc|cbn; rewrite Hr'; reflexivity|exact Hf].
  - destruct (search_views b st) as [Hc Hr]. exact (lists_fresh_views st _ w Hc Hr Hf).
  - exact Hf.
  - destruct (show_address_views b st w) as [Hc Hr]. exact (lists_fresh_views st _ w Hc Hr Hf).
  - exact Hf.
Qed.

End Lists.

Section Delete.
Context {G : Type} `{RandomSource G}.

Lemma lists_fresh_init (file : option db) (seed : G) :
  lists_fresh (fst (launch file seed)) (snd (launch file seed)).
Proof. split; [reflexivity|]. split; [reflexivity|discriminate]. Qed.

Lemma session_lists_fresh_from (evs : list event) (st : gui) (w : world G) :
  lists_fresh st w -> lists_fresh (fst (session evs st w)) (snd (session evs st w)).
Proof.
  revert st w. induction evs as [|ev evs IH]; intros st w Hf; [exact Hf|].
  rewrite session_cons. apply IH, handle_lists_fresh, Hf.
Qed.

(** With the list box in step with the database, "Удалить выбранного"
    deletes the courier on the selected line once the user confirms, and
    nothing otherwise. *)
Lemma delete_selected_courier (st : gui) (w : world G) (i : nat) (c : courier) :
  couriers_listbox (courier_view st) = map courier_line (get_couriers (w_db w)) ->
  couriers_selection (courier_view st) = Some i ->
  nth_error (get_couriers (w_db w)) i = Some c ->
  snd (on_delete_courier true st w)
    = mk_world (snd (delete_courier (courier_id c) (w_db w))) (w_rng w)
  /\ snd (on_delete_courier false st w) = w.
Proof.
  intros Hl Hsel Hc. unfold on_delete_courier, listbox_get. rewrite Hsel, Hl.
  assert (Hn : nth_error (map courier_line (get_couriers (w_db w))) i = Some (courier_line c))
    by (rewrite nth_error_map, Hc; reflexivity).
  rewrite (nth_error_nth _ _ _ Hn).
  rewrite courier_line_parse. split; [|reflexivity].
  rewrite <- remove_courier_db. destruct (remove_courier _ _) as [[] d]; reflexivity.
Qed.

(** C21: in every session, from any database file, the courier list box
    shows exactly [get_couriers()] (one line per courier, in the order of
    the query), the review list box exactly the lines [refresh_reviews]
    inserts for [get_reviews()] (all of them unless a review's created_at
    is NULL, where the loop raises), and the selected courier line is a
    line of the list: every callback that writes a table refreshes the
    list box that shows it. *)
Theorem session_lists_fresh (file : option db) (seed : G) (evs : list event) :
  let '(st, w) := run_app file seed evs in
  couriers_listbox (courier_view st) = map courier_line (get_couriers (w_db w))
  /\ reviews_listbox (review_view st) = fst (review_lines (get_reviews (w_db w)))
  /\ (forall i, couriers_selection (courier_view st) = Some i ->
                (i < length (get_couriers (w_db w)))%nat).
Proof.
  unfold run_app. pose proof (lists_fresh_init file seed) as Hinit.
  destruct (launch file seed) as [st0 w0].
  pose proof (session_lists_fresh_from evs st0 w0 Hinit) as (Hc & Hr & Hs).
  destruct (session evs st0 w0) as [st w]. split; [exact Hc|]. split; [exact Hr|].
  intros i Hi. specialize (Hs i Hi). rewrite Hc, length_map in Hs. exact Hs.
Qed.

(** C22: in every session, a click on "Удалить выбранного" with a courier
    line selected deletes the courier shown on that line when the user
    confirms, and changes nothing when the user declines. *)
Theorem session_delete_selected (file : option db) (seed : G) (evs : list event) (i : nat) :
  let '(st, w) := run_app file seed evs in
  couriers_selection (courier_view st) = Some i ->
  exists c, nth_error (get_couriers (w_db w)) i = Some c
    /\ snd (handle (ClickDeleteCourier true) st w)
       = mk_world (snd (delete_courier (courier_id c) (w_db w))) (w_rng w)
    /\ snd (handle (ClickDeleteCourier false) st w) = w.
Proof.
  unfold run_app. pose proof (lists_fresh_init file seed) as Hinit.
  destruct (launch file seed) as [st0 w0].
  pose proof (session_lists_fresh_from evs st0 w0 Hinit) as (Hc & _ & Hs).
  destruct (session evs st0 w0) as [st w]. cbn [fst snd] in Hc. cbn [fst snd] in Hs. intros Hi.
  specialize (Hs i Hi). rewrite Hc, length_map in Hs.
  destruct (nth_error (get_couriers (w_db w)) i) as [c|] eqn:E;
    [|apply nth_error_None in E; lia].
  exists c. split; [reflexivity|]. exact (delete_selected_courier st w i c Hc Hi E).
Qed.

Lemma delete_courier_rows_in_range (cid : Z) (d : db) :
  in_int64 cid = true ->
  rows (couriers (snd (delete_courier cid d)))
  = List.filter (fun c => negb (courier_id c =? cid)%Z) (rows (couriers d)).
Proof. intros Hr. unfold delete_courier, delete_courier_rows. rewrite Hr. reflexivity. Qed.

Lemma stored_courier_id_range (d : db) (c : courier) :
  db_wf d -> In c (rows (couriers d)) -> in_int64 (courier_id c) = true.
Proof.
  intros Hwf Hc. destruct (wf_couriers d Hwf) as (Hs & _ & Hids).
  pose proof (proj1 (Forall_forall _ _) Hids c Hc) as Hb. cbn beta in Hb.
  apply in_int64_spec. unfold INT64_MIN. lia.
Qed.

(** C28: every stored courier can be removed from the window: from any
    state of the window over a well-formed database, "Обновить список",
    a click on the courier's line and a confirmed "Удалить выбранного"
    remove that courier and keep every courier with another id. *)
Theorem courier_can_be_removed (st : gui) (w : world G) (c : courier) :
  db_wf (w_db w) -> In c (rows (couriers (w_db w))) ->
  exists i,
    let w' := snd (session [ClickRefreshCouriers; SelectCourier i; ClickDeleteCourier true] st w) in
    ~ In c (rows (couriers (w_db w')))
    /\ forall c', In c' (rows (couriers (w_db w))) -> courier_id c' <> courier_id c ->
                  In c' (rows (couriers (w_db w'))).
Proof.
  intros Hwf Hc.
  assert (Hin : In c (get_couriers (w_db w)))
    by (apply (Permutation_in _ (sort_by_perm courier_by_name _)), Hc).
  destruct (In_nth_error _ _ Hin) as (i & Hi). exists i. cbv zeta.
  cbn [session handle]. set (st1 := on_refresh_couriers st w).
  assert (Hlen : (i <? length (couriers_listbox (courier_view st1)))%nat = true).
  { apply Nat.ltb_lt. cbn. rewrite length_map. apply nth_error_Some. congruence. }
  assert (Hsel : couriers_selection (courier_view (select_courier i st1)) = Some i)
    by (unfold select_courier; rewrite Hlen; reflexivity).
  assert (Hl : couriers_listbox (courier_view (select_courier i st1))
               = map courier_line (get_couriers (w_db w)))
    by (unfold select_courier; rewrite Hlen; reflexivity).
  destruct (delete_selected_courier (select_courier i st1) w i c Hl Hsel Hi) as [Hd _].
  destruct (on_delete_courier true (select_courier i st1) w) as [st3 w3] eqn:E.
  cbn [snd] in Hd |- *. rewrite Hd. cbn [w_db]. rewrite delete_courier_rows_in_range by exact (stored_courier_id_range _ _ Hwf Hc).
  split.
  - intros (_ & Hne)%filter_In. rewrite Z.eqb_refl in Hne. discriminate.
  - intros c' Hc' Hne. apply filter_In. split; [exact Hc'|].
    apply negb_true_iff, Z.eqb_neq, Hne.
Qed.

End Delete.

(** ** The package list only shows stored packages *)

Lemma search_map_view (b : browser) (st : gui) : map_view (on_search_address b st) = map_view st.
Proof. unfold on_search_address. destruct b; case_if; reflexivity. Qed.

(** Every line of [packages_lines d] is the placeholder or the line of a
    row of [d]. *)
Lemma packages_lines_rows (d : db) (line : string) :
  In line (packages_lines d) ->
  line = NO_PACKAGES \/ exists p, In p (rows (packages d)) /\ line = package_line p.
Proof.
  unfold packages_lines. destruct (get_all_packages d) as [|q qs] eqn:E.
  - intros [<-|[]]. left. reflexivity.
  - rewrite <- E. intros (p & <- & Hp)%in_map_iff. right. exists p. split; [|reflexivity].
    unfold get_all_packages in Hp. apply (Permutation_in p (Permutation_sym (sort_by_perm package_by_date_desc _))), Hp.
Qed.

Lemma event_eq_refresh (ev : event) : ev = ClickRefreshPackages \/ ev <> ClickRefreshPackages.
Proof. destruct ev; (left; reflexivity) || (right; discriminate). Qed.

Lemma event_eq_select (ev : event) :
  (exists i, ev = SelectPackage i) \/ (forall i, ev <> SelectPackage i).
Proof. destruct ev; first [left; eexists; reflexivity | right; intros ?; discriminate]. Qed.

Section Packages.
Context {G : Type} `{RandomSource G}.

Definition package_lines_ok (st : gui) (w : world G) : Prop :=
  (forall line, In line (packages_listbox (map_view st)) ->
     line = NO_PACKAGES \/ exists p, In p (rows (packages (w_db w))) /\ line = package_line p)
  /\ (forall i, packages_selection (map_view st) = Some i ->
                (i < length (packages_listbox (map_view st)))%nat).

Lemma package_lines_ok_frame (st st' : gui) (w w' : world G) :
  packages_listbox (map_view st') = packages_listbox (map_view st) ->
  packages_selection (map_view st') = packages_selection (map_view st)
  \/ packages_selection (map_view st') = None ->
  package_kept (packages (w_db w)) (packages (w_db w')) ->
  package_lines_ok st w -> package_lines_ok st' w'.
Proof.
  intros Hl Hs Hk [Hlines Hsel]. split.
  - intros line Hin. rewrite Hl in Hin.
    destruct (Hlines line Hin) as [->|(p & Hp & ->)]; [left; reflexivity|right].
    destruct (Hk p Hp) as (p' & Hp' & Heq). exists p'. split; [exact Hp'|]. rewrite Heq. reflexivity.
  - intros i Hi. rewrite Hl. destruct Hs as [Hs|Hs]; rewrite Hs in Hi; [exact (Hsel i Hi)|discriminate].
Qed.

Lemma handle_package_kept (ev : event) (st : gui) (w : world G) :
  package_kept (packages (w_db w)) (packages (w_db (snd (handle ev st w)))).
Proof.
  destruct (handle_world ev st w) as [-> | (c & _ & ->)];
    [apply package_kept_refl|apply exec_package_kept].
Qed.

Ltac map_kept :=
  repeat first [rewrite on_refresh_reviews_eq | case_if | case_match | progress cbv zeta
               | rewrite search_map_view];
  (split; [reflexivity|first [left; reflexivity | right; reflexivity | left; assumption]]).

(** Every callback but the two that write the package list box keeps its
    lines, and keeps or clears its selection. *)
Lemma handle_map_view (ev : event) (st : gui) (w : world G) :
  ev <> ClickRefreshPackages -> (forall i, ev <> SelectPackage i) ->
  packages_listbox (map_view (fst (handle ev st w))) = packages_listbox (map_view st)
  /\ (packages_selection (map_view (fst (handle ev st w))) = packages_selection (map_view st)
      \/ packages_selection (map_view (fst (handle ev st w))) = None).
Proof.
  intros Hr Hs. destruct ev as [f v|i|i|i|now| |now| |now| |confirm|b| |b| ];
    cbn [handle fst]; try congruence; try (exfalso; eapply Hs; reflexivity);
    try destruct f; try (split; [reflexivity|left; reflexivity]).
  all: unfold choose_rating, select_courier, on_send_package, on_track_package, on_add_review,
         on_add_courier, on_delete_courier, on_show_selected_address; map_kept.
Qed.

Lemma handle_package_lines_ok (ev : event) (st : gui) (w : world G) :
  package_lines_ok st w -> package_lines_ok (fst (handle ev st w)) (snd (handle ev st w)).
Proof.
  intros Hok. pose proof (handle_package_kept ev st w) as Hk.
  destruct (event_eq_refresh ev) as [->|Hr].
  - split; [|discriminate]. intros line Hin. apply packages_lines_rows, Hin.
  - destruct (event_eq_select ev) as [(i & ->)|Hs].
    + cbn [handle fst snd]. unfold select_package. destruct Hok as [Hl Hsel].
      case_if; [|split; assumption]. split; [exact Hl|]. intros j [= <-]. apply Nat.ltb_lt, E.
    + destruct (handle_map_view ev st w Hr Hs) as [Hl Hs'].
      exact (package_lines_ok_frame st _ w _ Hl Hs' Hk Hok).
Qed.

Lemma session_package_lines_ok (evs : list event) (st : gui) (w : world G) :
  package_lines_ok st w -> package_lines_ok (fst (session evs st w)) (snd (session evs st w)).
Proof.
  revert st w. induction evs as [|ev evs IH]; intros st w Hok; [exact Hok|].
  rewrite session_cons. apply IH, handle_package_lines_ok, Hok.
Qed.

(** C23: in every session from a fresh install, the selected line of the
    package list is the placeholder or the line of a stored package; on
    such a line without the markers "Нет посылок" and "недоступен", and for
    a package with an address, "Показать на карте" fills the address entry
    with the recipient's address (the sender's when the recipient has
    none) and runs the search on it. *)
Theorem session_show_selected_address (seed : G) (evs : list event) (i : nat) (b : browser) :
  let '(st, w) := run_app None seed evs in
  packages_selection (map_view st) = Some i ->
  exists line, nth_error (packages_listbox (map_view st)) i = Some line
  /\ (line = NO_PACKAGES
      \/ exists p, In p (rows (packages (w_db w))) /\ line = package_line p
         /\ (py_contains "Нет посылок" line || py_contains "недоступен" line = false ->
             py_truthy (sender_address p) || py_truthy (recipient_address p) = true ->
             on_show_selected_address b st w
             = on_search_address b (set_map st (mk_map_tab
                 (py_fmt (if py_truthy (recipient_address p) then recipient_address p
                          else sender_address p))
                 (packages_listbox (map_view st)) (Some i))))).
Proof.
  unfold run_app, launch.
  assert (Hinit : package_lines_ok (app_init (w_db (main (G:=G) None seed))) (main None seed)).
  { split; [apply packages_lines_rows|discriminate]. }
  pose proof (session_package_lines_ok evs _ _ Hinit) as [Hlines Hsel].
  pose proof (reachable_inv _ (session_reachable evs (app_init (w_db (main (G:=G) None seed)))
                                 (main None seed) (reach_main seed))) as (Hwf & Hcodes & _).
  destruct (session evs _ _) as [st w]. cbn [fst snd] in Hlines. cbn [fst snd] in Hsel.
  cbn [snd] in Hwf, Hcodes. intros Hi.
  destruct (nth_error (packages_listbox (map_view st)) i) as [line|] eqn:E;
    [|apply nth_error_None in E; specialize (Hsel i Hi); lia].
  exists line. split; [reflexivity|].
  destruct (Hlines line (nth_error_In _ _ E)) as [->|(p & Hp & ->)]; [left; reflexivity|right].
  exists p. split; [exact Hp|]. split; [reflexivity|]. intros Hword Haddr.
  destruct (proj1 (Forall_forall _ _) Hcodes p Hp) as ((tn & Htn & Hf) & _).
  exact (show_address_of_line b st w i p tn Hwf Hi E Hp Htn Hf Hword Haddr).
Qed.

End Packages.

(** ** The rating combobox *)

Section Rating.
Context {G : Type} `{RandomSource G}.

Definition rating_ok (st : gui) : Prop := In (rating_var (review_view st)) RATINGS.

Ltac rating_kept :=
  repeat first [rewrite on_refresh_reviews_eq | case_if | case_match | progress cbv zeta
               | rewrite (proj2 (search_views _ _))];
  first [ assumption
        | match goal with H : nth_error RATINGS _ = Some _ |- _ => exact (nth_error_In _ _ H) end
        | cbn; tauto ].

Lemma handle_rating_ok (ev : event) (st : gui) (w : world G) :
  rating_ok st -> rating_ok (fst (handle ev st w)).
Proof.
  unfold rating_ok. intros Hr. destruct ev as [f v|i|i|i|now| |now| |now| |confirm|b| |b| ];
    cbn [handle fst]; try destruct f; try destruct b.
  all: unfold set_field, choose_rating, select_courier, select_package, on_send_package, on_track_package,
         on_add_review, on_add_courier, on_refresh_couriers, on_delete_courier,
         on_search_address, webbrowser_open, on_show_selected_address.
  all: rating_kept.
Qed.

Lemma session_rating_ok (evs : list event) (st : gui) (w : world G) :
  rating_ok st -> rating_ok (fst (session evs st w)).
Proof.
  revert st w. induction evs as [|ev evs IH]; intros st w Hr; [exact Hr|].
  rewrite session_cons. apply IH, handle_rating_ok, Hr.
Qed.

(** C32: in every session the rating combobox holds one of "1" .. "5",
    so [int()] in [add_review] never raises and the service's rating
    checks ("Имя клиента и рейтинг обязательны", "Рейтинг должен быть от
    1 до 5") never fire from the window. *)
Theorem session_rating_in_range (file : option db) (seed : G) (evs : list event) :
  exists k, (1 <= k <= 5)%Z
    /\ py_int (rating_var (review_view (fst (run_app file seed evs)))) = Some k.
Proof.
  assert (Hr : rating_ok (fst (run_app file seed evs))).
  { unfold run_app, launch. apply session_rating_ok. cbn. tauto. }
  unfold rating_ok in Hr. remember (rating_var (review_view (fst (run_app file seed evs)))) as r.
  clear Heqr. unfold RATINGS in Hr.
  destruct Hr as [<-|[<-|[<-|[<-|[<-|[]]]]]];
    [exists 1%Z|exists 2%Z|exists 3%Z|exists 4%Z|exists 5%Z]; (split; [lia|vm_compute; reflexivity]).
Qed.

End Rating.

(** ** Sample sessions *)

Lemma run_app_inv {G : Type} `{RandomSource G} (seed : G) (evs : list event) :
  world_inv (snd (run_app None seed evs)).
Proof. unfold run_app, launch. apply reachable_inv, session_reachable, reach_main. Qed.

(** ** The track tab never shows stale information *)

Section Track.
Context {G : Type} `{RandomSource G}.

(** C37: in every session from a fresh install, "Отследить" with a number
    that is not blank sets all five labels from the number and the
    database alone: the stored package's status, sender, recipient,
    description and date (cut to the second), or "Информация не найдена"
    in each when no package has that number; nothing shown by an earlier
    search survives. *)
Theorem session_track_labels (seed : G) (evs : list event) :
  let '(st, w) := run_app None seed evs in
  let tn := py_strip (tracking_entry (track_view st)) in
  tn <> "" ->
  track_view (on_track_package st w)
  = match get_package_by_tracking (Some tn) (w_db w) with
    | Some p =>
        mk_track_tab (tracking_entry (track_view st)) ("Статус: " +:+ py_fmt (status p))
          ("Отправитель: " +:+ py_fmt (sender p)) ("Получатель: " +:+ py_fmt (recipient p))
          (py_fmt (description p)) ("Дата отправки: " +:+ date_str (py_fmt (created_at p)))
    | None =>
        mk_track_tab (tracking_entry (track_view st)) ("Статус: " +:+ NOT_FOUND_INFO)
          ("Отправитель: " +:+ NOT_FOUND_INFO) ("Получатель: " +:+ NOT_FOUND_INFO)
          NOT_FOUND_INFO ("Дата отправки: " +:+ NOT_FOUND_INFO)
    end.
Proof.
  pose proof (run_app_inv seed evs) as (_ & Hrows & _).
  destruct (run_app None seed evs) as [st w]. cbn [snd] in Hrows. cbv zeta. intros Hne.
  unfold on_track_package, track_package. apply String.eqb_neq in Hne.
  rewrite Hne. cbn [py_truthy negb]. rewrite Hne. cbn [negb].
  destruct (get_package_by_tracking _ _) as [p|] eqn:Eg; [|reflexivity].
  apply find_some in Eg as [Hp _]. destruct (proj1 (Forall_forall _ _) Hrows p Hp) as [_ Hc].
  destruct (created_at p) as [c|]; [reflexivity|congruence].
Qed.

End Track.

(** ** Courier lines identify couriers *)

Lemma StronglySorted_lt_NoDup (l : list Z) : StronglySorted Z.lt l -> NoDup l.
Proof.
  induction 1 as [|x l _ IH Hall]; constructor; [|exact IH].
  intros Hin%list_elem_of_In. rewrite Forall_forall in Hall. specialize (Hall x Hin). lia.
Qed.

Lemma courier_ids_NoDup (d : db) : db_wf d -> NoDup (map courier_id (get_couriers d)).
Proof.
  intros Hwf. destruct (wf_couriers d Hwf) as (_ & Hsort & _).
  apply NoDup_ListNoDup, (Permutation_NoDup (l := map courier_id (rows (couriers d)))).
  - apply Permutation_map. unfold get_couriers, get_all_couriers. apply sort_by_perm.
  - apply NoDup_ListNoDup, StronglySorted_lt_NoDup. induction Hsort as [|c l _ IH Hall]; constructor; [exact IH|].
    apply Forall_map, Hall.
Qed.

Section CourierIds.
Context {G : Type} `{RandomSource G}.

(** C39: in every session from a fresh install, each line of the courier
    list reads back as the id of the courier it shows, and these ids are
    pairwise distinct, so a selected line designates exactly one courier. *)
Theorem session_courier_ids_distinct (seed : G) (evs : list event) :
  let '(st, w) := run_app None seed evs in
  map parse_courier_id (couriers_listbox (courier_view st))
  = map (fun c => Some (courier_id c)) (get_couriers (w_db w))
  /\ NoDup (map courier_id (get_couriers (w_db w))).
Proof.
  pose proof (proj1 (run_app_inv seed evs)) as Hwf.
  pose proof (lists_fresh_init None seed) as Hinit. unfold run_app in *.
  destruct (launch None seed) as [st0 w0].
  pose proof (session_lists_fresh_from evs st0 w0 Hinit) as (Hl & _ & _).
  destruct (session evs st0 w0) as [st w]. cbn [fst snd] in Hl, Hwf. rewrite Hl, map_map.
  split; [|apply courier_ids_NoDup, Hwf]. apply map_ext, courier_line_parse.
Qed.

End CourierIds.

(** ** The review form *)

Section ReviewForm.
Context {G : Type} `{RandomSource G}.

(** C40: "Добавить отзыв" with a rating chosen in the combobox, on a
    well-formed database, either stores one review (the stripped number,
    name and comment, the rating read from the combobox, the time of the
    click) under the next id, resets the form (rating back to "5") and
    refills the list from the database, then shows "Отзыв успешно
    добавлен" - unless a stored review has a NULL created_at, where
    [refresh_reviews] raises: the list then holds the lines before that
    review and no dialog follows; or (a blank name, a failed INSERT) it
    leaves the database and the whole review tab as they were and ends
    with an error dialog. *)
Theorem gui_add_review_outcome (now : datetime) (st : gui) (w : world G) :
  db_wf (w_db w) -> In (rating_var (review_view st)) RATINGS ->
  let t := review_view st in
  let '(st', w') := on_add_review now st w in
  (exists r, py_int (rating_var t) = Some r
     /\ rows (reviews (w_db w'))
        = (rows (reviews (w_db w))
           ++ [mk_review (sqlite_seq (reviews (w_db w)) + 1) (Some (py_strip (review_tracking_entry t)))
                 (Some (py_strip (customer_name_entry t))) r
                 (Some (py_strip (text_get (review_comment_text t)))) (Some (adapt_datetime now))])%list
     /\ review_view st' = mk_review_tab "" "" "5" "" (fst (review_lines (get_reviews (w_db w'))))
     /\ (snd (review_lines (get_reviews (w_db w'))) = false ->
         last (dialogs st') (ShowError "" "") = ShowInfo "Успех" MSG_REVIEW_ADDED)
     /\ (snd (review_lines (get_reviews (w_db w'))) = true -> dialogs st' = dialogs st))
  \/ (w_db w' = w_db w /\ review_view st' = t
      /\ exists msg, last (dialogs st') (ShowError "" "") = ShowError "Ошибка" msg).
Proof.
  intros Hwf Hr. cbv zeta. unfold on_add_review.
  assert (exists r, py_int (rating_var (review_view st)) = Some r /\ (1 <= r <= 5)%Z)
    as (r & Hpr & Hrange).
  { repeat destruct Hr as [<-|Hr]; [eexists; split; [vm_compute; reflexivity|lia]..|destruct Hr]. }
  rewrite Hpr. case_if.
  { right. cbn [show w_db review_view dialogs]. rewrite last_last. repeat split; eexists; reflexivity. }
  destruct (add_review _ _ _ _ _ _) as [[msg|msg] d] eqn:Ea.
  - apply add_review_ok in Ea as [-> Ec]. rewrite (create_review_spec _ _ _ _ _ _ Hwf) in Ec.
    replace (in_int64 r) with true in Ec
      by (symmetry; unfold in_int64, INT64_MIN, INT64_MAX; apply andb_true_iff; split; apply Z.leb_le; lia).
    destruct (_ <? _)%Z; [|discriminate]. injection Ec as Ed.
    rewrite on_refresh_reviews_eq. cbn [w_db].
    destruct (snd (review_lines (get_reviews d))) eqn:Eraise; left; exists r;
      cbn [show set_review set_status_var dialogs review_view w_db fst snd];
      (split; [reflexivity|split; [rewrite <- Ed; reflexivity|split; [reflexivity|]]]).
    + rewrite Eraise. split; [discriminate|reflexivity].
    + rewrite Eraise. split; [intros _; apply last_last|discriminate].
  - right. apply add_review_err in Ea as ->. cbn [show set_status_var dialogs review_view w_db].
    rewrite last_last. repeat split; eexists; reflexivity.
Qed.

End ReviewForm.

Definition sample_seed : list nat := [3; 4; 1; 2; 3; 4; 5; 6].

Definition courier_session : list event :=
  [Input FCourierName "Иван"; Input FCourierPhone " +7 900 000-00-00 ";
   ClickAddCourier sample_now; SelectCourier 0].

(** A package whose sender address mentions that the entrance is
    unavailable ("недоступен"), sent and then picked on the map tab. *)
Definition unavailable_session : list event :=
  [Input FSender "Анна"; Input FRecipient "Борис";
   Input FSenderAddress "Склад 3, въезд недоступен";
   Input FRecipientAddress "Москва, ул. Тверская 1";
   Input FDescription "Книги"; ClickSend sample_now;
   ClickRefreshPackages; SelectPackage 0; ClickShowAddress BrowserOpens].

Definition delivered_session : list event :=
  [Input FSender "Анна"; Input FRecipient "Борис";
   Input FRecipientAddress "Москва, ул. Тверская 1";
   Input FDescription "Книги"; ClickSend sample_now;
   ClickRefreshPackages; SelectPackage 0].

(** The session of [unavailable_session], computed: the package is
    stored with a recipient address, and the button refuses it. *)
Example unavailable_session_refused :
  let '(st, w) := run_app None sample_seed unavailable_session in
  (exists p, In p (rows (packages (w_db w))) /\ py_truthy (recipient_address p) = true)
  /\ last (dialogs st) (ShowError "" "")
     = ShowInfo "Информация" "Выберите реальную посылку из списка."
  /\ opened_urls st = [].
Proof.
  vm_compute. split; [|split; reflexivity].
  eexists. split; [left; reflexivity|reflexivity].
Qed.

Definition unavailable_app : gui * world (list nat) :=
  run_app None sample_seed (removelast unavailable_session).

Definition no_package : package := mk_package 0 NULL NULL NULL NULL NULL NULL NULL NULL.

Definition unavailable_package : package :=
  hd no_package (rows (packages (w_db (snd unavailable_app)))).

Lemma show_selected_address_refuses_real_package_witness :
  packages_selection (map_view (fst unavailable_app)) = Some 0
  /\ nth_error (packages_listbox (map_view (fst unavailable_app))) 0
     = Some (package_line unavailable_package)
  /\ (py_truthy (sender_address unavailable_package) = true
      /\ py_fmt (sender_address unavailable_package) <> NO_ADDRESS
      /\ py_contains "недоступен" (py_prefix 30 (py_fmt (sender_address unavailable_package))) = true)
  /\ on_show_selected_address BrowserOpens (fst unavailable_app) (snd unavailable_app)
     = show (fst unavailable_app) (ShowInfo "Информация" "Выберите реальную посылку из списка.").
Proof.
  assert (Hsel : packages_selection (map_view (fst unavailable_app)) = Some 0)
    by (vm_compute; reflexivity).
  assert (Hline : nth_error (packages_listbox (map_view (fst unavailable_app))) 0
                  = Some (package_line unavailable_package)) by (vm_compute; reflexivity).
  assert (Haddr : py_truthy (sender_address unavailable_package) = true
                  /\ py_fmt (sender_address unavailable_package) <> NO_ADDRESS
                  /\ py_contains "недоступен"
                       (py_prefix 30 (py_fmt (sender_address unavailable_package))) = true)
    by (split; [vm_compute; reflexivity|split; [vm_compute; discriminate|vm_compute; reflexivity]]).
  split; [exact Hsel|]. split; [exact Hline|]. split; [exact Haddr|].
  exact (show_selected_address_refuses_real_package (G := list nat) BrowserOpens
           (fst unavailable_app) (snd unavailable_app) 0 unavailable_package Hsel Hline
           (or_introl Haddr)).
Defined.

Lemma session_delete_selected_witness :
  couriers_selection (courier_view (fst (run_app None sample_seed courier_session))) = Some 0
  /\ (let '(st, w) := run_app None sample_seed courier_session in
      couriers_selection (courier_view st) = Some 0 ->
      exists c, nth_error (get_couriers (w_db w)) 0 = Some c
        /\ snd (handle (ClickDeleteCourier true) st w)
           = mk_world (snd (delete_courier (courier_id c) (w_db w))) (w_rng w)
        /\ snd (handle (ClickDeleteCourier false) st w) = w).
Proof.
  split; [vm_compute; reflexivity|]. exact (session_delete_selected None sample_seed courier_session 0).
Defined.

Lemma session_show_selected_address_witness :
  packages_selection (map_view (fst (run_app None sample_seed delivered_session))) = Some 0
  /\ (let '(st, w) := run_app None sample_seed delivered_session in
      packages_selection (map_view st) = Some 0 ->
      exists line, nth_error (packages_listbox (map_view st)) 0 = Some line
      /\ (line = NO_PACKAGES
          \/ exists p, In p (rows (packages (w_db w))) /\ line = package_line p
             /\ (py_contains "Нет посылок" line || py_contains "недоступен" line = false ->
                 py_truthy (sender_address p) || py_truthy (recipient_address p) = true ->
                 on_show_selected_address BrowserOpens st w
                 = on_search_address BrowserOpens (set_map st (mk_map_tab
                     (py_fmt (if py_truthy (recipient_address p) then recipient_address p
                              else sender_address p))
                     (packages_listbox (map_view st)) (Some 0)))))).
Proof.
  split; [vm_compute; reflexivity|].
  exact (session_show_selected_address (G := list nat) (H := replay_source) sample_seed delivered_session 0 BrowserOpens).
Defined.

Definition courier_app : gui * world (list nat) := run_app None sample_seed courier_session.

Definition no_courier : courier := mk_courier 0 NULL NULL NULL NULL NULL.

Definition added_courier : courier := hd no_courier (rows (couriers (w_db (snd courier_app)))).

Lemma courier_can_be_removed_witness :
  db_wf (w_db (snd courier_app)) /\ In added_courier (rows (couriers (w_db (snd courier_app))))
  /\ exists i,
    let w' := snd (session [ClickRefreshCouriers; SelectCourier i; ClickDeleteCourier true]
                     (fst courier_app) (snd courier_app)) in
    ~ In added_courier (rows (couriers (w_db w')))
    /\ forall c', In c' (rows (couriers (w_db (snd courier_app)))) ->
                  courier_id c' <> courier_id added_courier -> In c' (rows (couriers (w_db w'))).
Proof.
  pose proof (proj1 (run_app_inv sample_seed courier_session)) as Hwf.
  assert (Hin : In added_courier (rows (couriers (w_db (snd courier_app)))))
    by (vm_compute; left; reflexivity).
  split; [exact Hwf|]. split; [exact Hin|].
  exact (courier_can_be_removed (G := list nat) (H := replay_source)
           (fst courier_app) (snd courier_app) added_courier Hwf Hin).
Defined.

Definition send_form : list event :=
  [Input FSender " Анна "; Input FRecipient "Борис";
   Input FRecipientAddress "Москва, ул. Тверская 1"; Input FDescription "Книги"].

Definition form_app : gui * world (list nat) := run_app None sample_seed send_form.

Lemma form_app_wf : db_wf (w_db (snd form_app)).
Proof. exact (proj1 (run_app_inv sample_seed send_form)). Qed.

Definition sent_app : gui * world (list nat) :=
  on_send_package sample_now (fst form_app) (snd form_app).

Lemma gui_send_then_track_witness :
  db_wf (w_db (snd form_app))
  /\ dialogs (fst sent_app) = (dialogs (fst form_app) ++ [ShowInfo "Успех" (sent_message "DE-123456")])%list
  /\ (let t := track_view (on_track_package (set_field FTracking "DE-123456" (fst sent_app))
                                            (snd sent_app)) in
      status_label t = "Статус: " +:+ SENT
      /\ sender_label t = "Отправитель: " +:+ py_strip (sender_entry (send_view (fst form_app)))
      /\ recipient_label t = "Получатель: " +:+ py_strip (recipient_entry (send_view (fst form_app)))
      /\ description_info t = py_strip (text_get (description_text (send_view (fst form_app))))
      /\ date_label t = "Дата отправки: " +:+ date_str (adapt_datetime sample_now)).
Proof.
  pose proof form_app_wf as Hwf.
  assert (Hd : dialogs (fst sent_app)
               = (dialogs (fst form_app) ++ [ShowInfo "Успех" (sent_message "DE-123456")])%list)
    by (vm_compute; reflexivity).
  split; [exact Hwf|]. split; [exact Hd|].
  exact (gui_send_then_track (G := list nat) (H := replay_source) sample_now (fst form_app)
           (fst sent_app) (snd form_app) (snd sent_app) "DE-123456" Hwf
           (surjective_pairing _) Hd).
Defined.

Definition earlier_time : datetime := mk_datetime 2024 5 7 9 3 0 42.
Definition later_time : datetime := mk_datetime 2024 5 8 10 0 0 0.

Definition reviews_db : db :=
  snd (add_review NULL (Some "Анна") 5 (Some "Быстро") later_time
         (snd (add_review NULL (Some "Борис") 4 NULL earlier_time (initialize_db None)))).

Definition no_review : review := mk_review 0 NULL NULL 0 NULL NULL.

Lemma reviews_newest_first_witness :
  get_reviews reviews_db
    = ([] ++ nth 0 (get_reviews reviews_db) no_review :: []
          ++ nth 1 (get_reviews reviews_db) no_review :: [])%list
  /\ review_created_at (nth 0 (get_reviews reviews_db) no_review) = Some (adapt_datetime later_time)
  /\ review_created_at (nth 1 (get_reviews reviews_db) no_review) = Some (adapt_datetime earlier_time)
  /\ dt_valid later_time /\ dt_valid earlier_time
  /\ dt_compare earlier_time later_time <> Gt.
Proof.
  assert (Hl : get_reviews reviews_db
    = ([] ++ nth 0 (get_reviews reviews_db) no_review :: []
          ++ nth 1 (get_reviews reviews_db) no_review :: [])%list) by (vm_compute; reflexivity).
  assert (H1 : review_created_at (nth 0 (get_reviews reviews_db) no_review)
               = Some (adapt_datetime later_time)) by (vm_compute; reflexivity).
  assert (H2 : review_created_at (nth 1 (get_reviews reviews_db) no_review)
               = Some (adapt_datetime earlier_time)) by (vm_compute; reflexivity).
  assert (V1 : dt_valid later_time) by (unfold dt_valid; cbn; lia).
  assert (V2 : dt_valid earlier_time) by (unfold dt_valid; cbn; lia).
  split; [exact Hl|]. split; [exact H1|]. split; [exact H2|]. split; [exact V1|].
  split; [exact V2|].
  exact (reviews_newest_first reviews_db [] [] [] _ _ later_time earlier_time Hl H1 H2 V1 V2).
Defined.

Definition address_app : gui :=
  set_field FAddress " Москва, ул. Тверская 1 " (fst (launch (G := list nat) None sample_seed)).

Lemma search_address_browser_failure_witness :
  py_strip (address_entry (map_view address_app)) <> ""
  /\ opened_urls (on_search_address BrowserMissing address_app) = opened_urls address_app
  /\ status_var (on_search_address BrowserMissing address_app)
     = "Адрес 'Москва, ул. Тверская 1' открыт в Яндекс.Картах".
Proof.
  assert (Hne : py_strip (address_entry (map_view address_app)) <> "") by (vm_compute; discriminate).
  destruct (search_address_browser_failure address_app "" Hne) as (_ & Ho & Hs & _).
  split; [exact Hne|]. split; [exact Ho|]. rewrite Hs. vm_compute. reflexivity.
Defined.

Lemma gui_send_outcome_witness :
  db_wf (w_db (snd form_app))
  /\ (let t := send_view (fst form_app) in
      let '(st', w') := on_send_package sample_now (fst form_app) (snd form_app) in
      (exists tn p, last (dialogs st') (ShowError "" "") = ShowInfo "Успех" (sent_message tn)
         /\ send_view st' = mk_send_tab "" "" "" "" "" (sent_message tn)
         /\ get_package_by_tracking (Some tn) (w_db w') = Some p
         /\ status p = Some SENT /\ sender p = Some (py_strip (sender_entry t)))
      \/ (w_db w' = w_db (snd form_app)
          /\ sender_entry (send_view st') = sender_entry t
          /\ recipient_entry (send_view st') = recipient_entry t
          /\ sender_address_entry (send_view st') = sender_address_entry t
          /\ recipient_address_entry (send_view st') = recipient_address_entry t
          /\ description_text (send_view st') = description_text t
          /\ exists msg, last (dialogs st') (ShowError "" "") = ShowError "Ошибка" msg)).
Proof.
  pose proof form_app_wf as Hwf.
  split; [exact Hwf|]. exact (gui_send_outcome (G := list nat) (H := replay_source) sample_now (fst form_app) (snd form_app) Hwf).
Defined.

Lemma send_then_refresh_lists_package_witness :
  db_wf (w_db (snd form_app))
  /\ last (dialogs (fst sent_app)) (ShowError "" "") = ShowInfo "Успех" (sent_message "DE-123456")
  /\ map_view (fst sent_app) = map_view (fst form_app)
  /\ exists p, tracking_number p = Some "DE-123456"
     /\ In (package_line p) (packages_listbox (map_view (on_refresh_packages (fst sent_app) (snd sent_app)))).
Proof.
  pose proof form_app_wf as Hwf.
  assert (Hd : last (dialogs (fst sent_app)) (ShowError "" "")
               = ShowInfo "Успех" (sent_message "DE-123456")) by (vm_compute; reflexivity).
  pose proof (send_then_refresh_lists_package (G := list nat) (H := replay_source) sample_now (fst form_app) (snd form_app) "DE-123456" Hwf)
    as Hthm.
  unfold sent_app in Hd |- *. destruct (on_send_package _ _ _) as [st1 w1].
  split; [exact Hwf|]. split; [exact Hd|]. exact (Hthm Hd).
Defined.

Definition track_session : list event := delivered_session ++ [Input FTracking " DE-123456 "].

Lemma session_track_labels_witness :
  py_strip (tracking_entry (track_view (fst (run_app None sample_seed track_session)))) <> ""
  /\ (let '(st, w) := run_app None sample_seed track_session in
      let tn := py_strip (tracking_entry (track_view st)) in
      tn <> "" ->
      track_view (on_track_package st w)
      = match get_package_by_tracking (Some tn) (w_db w) with
        | Some p =>
            mk_track_tab (tracking_entry (track_view st)) ("Статус: " +:+ py_fmt (status p))
              ("Отправитель: " +:+ py_fmt (sender p)) ("Получатель: " +:+ py_fmt (recipient p))
              (py_fmt (description p)) ("Дата отправки: " +:+ date_str (py_fmt (created_at p)))
        | None =>
            mk_track_tab (tracking_entry (track_view st)) ("Статус: " +:+ NOT_FOUND_INFO)
              ("Отправитель: " +:+ NOT_FOUND_INFO) ("Получатель: " +:+ NOT_FOUND_INFO)
              NOT_FOUND_INFO ("Дата отправки: " +:+ NOT_FOUND_INFO)
        end).
Proof.
  split; [vm_compute; discriminate|].
  exact (session_track_labels (G := list nat) (H := replay_source) sample_seed track_session).
Defined.

Definition review_form : list event :=
  [Input FReviewTracking "DE-123456"; Input FCustomerName " Анна ";
   ChooseRating 3; Input FReviewComment "Быстро"].

Definition review_app : gui * world (list nat) := run_app None sample_seed review_form.

Lemma gui_add_review_outcome_witness :
  db_wf (w_db (snd review_app)) /\ In (rating_var (review_view (fst review_app))) RATINGS
  /\ (let t := review_view (fst review_app) in
      let '(st', w') := on_add_review sample_now (fst review_app) (snd review_app) in
  (exists r, py_int (rating_var t) = Some r
     /\ rows (reviews (w_db w'))
        = (rows (reviews (w_db (snd review_app)))
           ++ [mk_review (sqlite_seq (reviews (w_db (snd review_app))) + 1) (Some (py_strip (review_tracking_entry t)))
                 (Some (py_strip (customer_name_entry t))) r
                 (Some (py_strip (text_get (review_comment_text t)))) (Some (adapt_datetime sample_now))])%list
     /\ review_view st' = mk_review_tab "" "" "5" "" (fst (review_lines (get_reviews (w_db w'))))
     /\ (snd (review_lines (get_reviews (w_db w'))) = false ->
         last (dialogs st') (ShowError "" "") = ShowInfo "Успех" MSG_REVIEW_ADDED)
     /\ (snd (review_lines (get_reviews (w_db w'))) = true -> dialogs st' = dialogs (fst review_app)))
  \/ (w_db w' = w_db (snd review_app) /\ review_view st' = t
      /\ exists msg, last (dialogs st') (ShowError "" "") = ShowError "Ошибка" msg)).
Proof.
  pose proof (proj1 (run_app_inv sample_seed review_form)) as Hwf.
  assert (Hr : In (rating_var (review_view (fst review_app))) RATINGS)
    by (vm_compute; right; right; right; left; reflexivity).
  split; [exact Hwf|]. split; [exact Hr|].
  exact (@gui_add_review_outcome (list nat) sample_now
           (fst review_app) (snd review_app) Hwf Hr).
Defined.

Definition blank_spaces : list string := [" "; String (ascii_of_nat 9) ""; " "].

Definition blank_form : gui :=
  set_field FDescription "Книги" (set_field FRecipient "Борис"
    (set_field FSender (fold_right String.append "" blank_spaces)
       (fst (launch (G := list nat) None sample_seed)))).

Lemma send_blank_field_refused_witness :
  Forall (fun t => In t py_spaces) blank_spaces
  /\ (sender_entry (send_view blank_form) = fold_right String.append "" blank_spaces
      \/ recipient_entry (send_view blank_form) = fold_right String.append "" blank_spaces
      \/ description_text (send_view blank_form) = fold_right String.append "" blank_spaces)
  /\ on_send_package sample_now blank_form (snd (launch None sample_seed))
     = (show blank_form (ShowError "Ошибка" "Пожалуйста, заполните все обязательные поля."),
        snd (launch None sample_seed)).
Proof.
  assert (Hws : Forall (fun t => In t py_spaces) blank_spaces)
    by (repeat constructor; vm_compute; tauto).
  assert (Hb : sender_entry (send_view blank_form) = fold_right String.append "" blank_spaces)
    by reflexivity.
  split; [exact Hws|]. split; [left; exact Hb|].
  exact (send_blank_field_refused (G := list nat) sample_now blank_form (snd (launch None sample_seed))
           blank_spaces Hws (or_introl Hb)).
Defined.

(** A database file holding a review whose created_at is NULL: adding a
    review stores it, but [refresh_reviews] raises on the old row (listed
    last by ORDER BY created_at DESC), so the list shows only the new
    review and no dialog follows. *)
Definition null_date_file : db :=
  set_reviews (initialize_db None) (mk_table [mk_review 1 NULL (Some "Вера") 4 NULL NULL] 1).

Example add_review_null_date :
  let '(st, w) := run_app (Some null_date_file) sample_seed (review_form ++ [ClickAddReview sample_now]) in
  length (rows (reviews (w_db w))) = 2%nat /\ dialogs st = []
  /\ length (reviews_listbox (review_view st)) = 1%nat.
Proof. vm_compute. split; [reflexivity|split; reflexivity]. Qed.
